(** * StressFlight Analytics: the correlation and windowing pipeline

    A shallow embedding of the TypeScript sources
      - types.ts                          (Module Types)
      - services/samsungHealthService.ts  (Module SamsungHealthService)
      - App.tsx, handleGenerateAnalysis   (Module App)
      - components/DataVisualization.tsx  (Module DataVisualization)
    and the properties the specification states about them.

    Conventions of the embedding.
    - A JavaScript [number] that the program handles as an epoch-millisecond
      or as a score is an integer of [Z]; [NaN] is kept where the program can
      meet it (the result of a comparator, an invalid Date).  Fractions and
      the infinities are outside the model, and time values stay inside the
      range on which the Date constructor's TimeClip is the identity.
    - Values read out of JSON keep their run-time shape ([JS.value]): the
      TypeScript annotations are erased at run time, so nothing but the
      program's own tests restricts them.
    - The local time zone of the evaluating environment is a fixed offset
      [tz] from UTC, in milliseconds (no daylight-saving change inside the
      span that is looked at).
    - [console.warn] is modelled by the list of the names it was called on. *)

From Stdlib Require Import ZArith List Bool Lia String Ascii.
From Stdlib Require Import Sorting.Sorted Sorting.Permutation.
From Stdlib Require Import DecimalString.
Import ListNotations.

Set Warnings "-register-all".

Local Open Scope string_scope.
Local Open Scope Z_scope.
Local Open Scope list_scope.

(* ================================================================== *)
(** * The JavaScript run time the sources rely on                      *)
(* ================================================================== *)

Module JS.

(** Numbers: an integer, or NaN. *)
Inductive number : Type :=
| NaN
| Num (z : Z).

(** JSON.parse's result: the JSON data model.  An object keeps its members
    in source order; a key met twice is read at its last occurrence. *)
Inductive value : Type :=
| JNull
| JBool (b : bool)
| JNum (z : Z)
| JStr (s : string)
| JArr (items : list value)
| JObj (members : list (string * value)).

(** ** Strings *)

Definition is_upper (c : ascii) : bool :=
  let n := nat_of_ascii c in (Nat.leb 65 n && Nat.leb n 90)%bool.

Definition lower_char (c : ascii) : ascii :=
  if is_upper c then ascii_of_nat (nat_of_ascii c + 32) else c.

(** [s.toLowerCase()] on ASCII text. *)
Fixpoint toLowerCase (s : string) : string :=
  match s with
  | EmptyString => EmptyString
  | String c s' => String (lower_char c) (toLowerCase s')
  end.

(** [s.startsWith(p)] *)
Fixpoint startsWith (s p : string) : bool :=
  match p, s with
  | EmptyString, _ => true
  | String _ _, EmptyString => false
  | String a p', String b s' => (Ascii.eqb a b && startsWith s' p')%bool
  end.

(** [s.includes(p)] *)
Fixpoint includes (s p : string) : bool :=
  if startsWith s p then true
  else match s with
       | EmptyString => false
       | String _ s' => includes s' p
       end.

(** [s.endsWith(p)] *)
Definition endsWith (s p : string) : bool :=
  (Nat.leb (String.length p) (String.length s)
   && String.eqb (substring (String.length s - String.length p)
                            (String.length p) s) p)%bool.

(** Template-literal rendering of a count: [`${n}`]. *)
Definition show_nat (n : nat) : string :=
  NilEmpty.string_of_uint (Nat.to_uint n).

(** ** ToBoolean *)
Definition truthy (v : value) : bool :=
  match v with
  | JNull => false
  | JBool b => b
  | JNum z => negb (z =? 0)
  | JStr s => negb (String.eqb s "")
  | JArr _ => true
  | JObj _ => true
  end.

(** ** ToNumber *)

Definition is_space (c : ascii) : bool :=
  let n := nat_of_ascii c in
  (Nat.eqb n 32 || (Nat.leb 9 n && Nat.leb n 13))%bool.

Fixpoint trim_left (s : string) : string :=
  match s with
  | String c s' => if is_space c then trim_left s' else s
  | EmptyString => EmptyString
  end.

Definition digit_of (c : ascii) : option Z :=
  let n := nat_of_ascii c in
  if (Nat.leb 48 n && Nat.leb n 57)%bool then Some (Z.of_nat (n - 48)) else None.

(** Reads decimal digits up to the end or to trailing white space. *)
Fixpoint digits (acc : Z) (seen : bool) (s : string) : number :=
  match s with
  | EmptyString => if seen then Num acc else NaN
  | String c s' =>
      match digit_of c with
      | Some d => digits (10 * acc + d) true s'
      | None =>
          if (seen && String.eqb (trim_left s) "")%bool then Num acc else NaN
      end
  end.

Definition neg (n : number) : number :=
  match n with Num z => Num (- z) | NaN => NaN end.

(** StringToNumber, on the integer literals of the model: white space is
    trimmed, the empty string is 0, a signed run of decimal digits is its
    value, anything else is NaN. *)
Definition StringToNumber (s : string) : number :=
  match trim_left s with
  | EmptyString => Num 0
  | String "-"%char s' => neg (digits 0 false s')
  | String "+"%char s' => digits 0 false s'
  | s' => digits 0 false s'
  end.

(** ToNumber.  An array goes through ToPrimitive, that is through
    [join(",")]: the empty array reads as the empty string, a one-element array
    as the text of its element (null reads as the empty string), and a
    longer one holds a comma, which no numeric literal does. *)
Fixpoint ToNumber (v : value) : number :=
  match v with
  | JNull => Num 0
  | JBool b => Num (if b then 1 else 0)
  | JNum z => Num z
  | JStr s => StringToNumber s
  | JArr [] => Num 0
  | JArr [x] =>
      match x with
      | JNull => Num 0
      | JBool _ => NaN
      | _ => ToNumber x
      end
  | JArr _ => NaN
  | JObj _ => NaN
  end.

(** [a - b] on numbers and on arbitrary values. *)
Definition sub (a b : number) : number :=
  match a, b with
  | Num x, Num y => Num (x - y)
  | _, _ => NaN
  end.

Definition minus (a b : value) : number := sub (ToNumber a) (ToNumber b).

(** ** Property access *)

(** The last member named [k], as JSON.parse resolves repeated keys. *)
Fixpoint lookup_member (k : string) (members : list (string * value))
  : option value :=
  match members with
  | [] => None
  | (k', v) :: rest =>
      match lookup_member k rest with
      | Some w => Some w
      | None => if String.eqb k' k then Some v else None
      end
  end.

(** A TypeError, raised by a property read on null and by [for..of] over a
    value that is not iterable. *)
Inductive completion (A : Type) : Type :=
| Normal (a : A)
| Throw.
Arguments Normal {A} a.
Arguments Throw {A}.

(** [v.k] for a value out of JSON.parse: [None] is [undefined].  None of
    the names the sources read ([data], [binning_data], [end_time],
    [score]) exists on the prototypes of the primitives or of arrays. *)
Definition get (v : value) (k : string) : completion (option value) :=
  match v with
  | JNull => Throw
  | JObj members => Normal (lookup_member k members)
  | _ => Normal None
  end.

(** The elements [for (const x of v)] visits.  A string is iterated by its
    characters, one-character strings. *)
Fixpoint chars (s : string) : list value :=
  match s with
  | EmptyString => []
  | String c s' => JStr (String c EmptyString) :: chars s'
  end.

Definition iterate (v : value) : completion (list value) :=
  match v with
  | JArr items => Normal items
  | JStr s => Normal (chars s)
  | _ => Throw
  end.

(** ** Array.prototype.sort

    The sort is stable, and with a consistent comparator its result is the
    one stable ordering; a stable insertion sort computes it.  [x] goes
    after [y] when [comparefn x y > 0]; a NaN answer counts as 0. *)
Section Sort.
Context {A : Type} (comparefn : A -> A -> number).

Definition goes_after (x y : A) : bool :=
  match comparefn x y with
  | Num v => 0 <? v
  | NaN => false
  end.

Fixpoint sort_insert (x : A) (l : list A) : list A :=
  match l with
  | [] => [x]
  | y :: l' => if goes_after x y then y :: sort_insert x l' else x :: l
  end.

Definition sort (l : list A) : list A := fold_right sort_insert [] l.
End Sort.

(** ** Math.min and Math.max over a spread array of integers.  With no
    argument they answer the infinities, which are no integers: [None]. *)
Definition Math_min (l : list Z) : option Z :=
  match l with
  | [] => None
  | x :: l' => Some (fold_left Z.min l' x)
  end.

Definition Math_max (l : list Z) : option Z :=
  match l with
  | [] => None
  | x :: l' => Some (fold_left Z.max l' x)
  end.

End JS.

(* ================================================================== *)
(** * types.ts                                                         *)
(* ================================================================== *)

Module Types.

Definition STRESS_THRESHOLD : Z := 80.

(** The literal type ['stress'] of [HealthDataPoint.type]. *)
Inductive SampleType : Type := stress.

(** [HealthDataPoint].  The interface declares both fields [number]; [N] is
    what they hold: [Z] for a consumer that relies on the interface,
    [JS.value] for what the extractor builds at run time. *)
Module HealthDataPoint.
Record t (N : Type) : Type := mk
  { timestamp : N;
    value : N;
    type : SampleType }.
Arguments mk {N} _ _ _.
Arguments timestamp {N} _.
Arguments value {N} _.
Arguments type {N} _.
End HealthDataPoint.

Module FlightEvent.
Record t : Type := mk
  { event : string;
    timestamp : Z;
    details : string }.
End FlightEvent.

(** [ChartDataPoint]: [time] is a string, an ISO instant while the buckets
    are built and a display label once they are returned; [K] is what the
    string denotes.  [stress] is optional. *)
Module ChartDataPoint.
Record t (K : Type) : Type := mk
  { time : K;
    stress : option Z }.
Arguments mk {K} _ _.
Arguments time {K} _.
Arguments stress {K} _.
End ChartDataPoint.

(** [AppState] *)
Inductive AppState : Type :=
| AWAITING_WATCH_DATA
| AWAITING_FLIGHT_DATA
| PROCESSING
| DISPLAYING_RESULTS.

Module FlightData.
Record t : Type := mk
  { summary : string;
    events : list FlightEvent.t }.
End FlightData.

End Types.

(* ================================================================== *)
(** * services/samsungHealthService.ts                                 *)
(* ================================================================== *)

Module SamsungHealthService.
Import Types.

Definition MAX_FILES_TO_PROCESS : nat := 500.

(** A member of the archive: its path, and what [JSON.parse] makes of its
    text, [None] when the text is no JSON and the call throws. *)
Record ZipEntry : Type := mkEntry
  { name : string;
    parsed : option JS.value }.

Definition Sample : Type := HealthDataPoint.t JS.value.

(** The first loop: [zip.forEach] collecting [filesToProcess]. *)
Definition filesToProcess (zip : list ZipEntry) : list (ZipEntry * SampleType) :=
  flat_map
    (fun zipEntry =>
       if JS.endsWith (name zipEntry) ".binning_data.json" then
         if JS.includes (name zipEntry) "com.samsung.shealth.stress"
         then [(zipEntry, stress)]
         else []
       else [])
    zip.

(** [a || rest]: the operand [a] when it is truthy ([undefined] is not),
    else what [rest] gives. *)
Definition or_else (a : option JS.value) (rest : JS.completion JS.value)
  : JS.completion JS.value :=
  match a with
  | Some w => if JS.truthy w then JS.Normal w else rest
  | None => rest
  end.

(** [Array.isArray(data) ? data : data.data || data.binning_data || []] *)
Definition dataPoints (data : JS.value) : JS.completion JS.value :=
  match data with
  | JS.JArr _ => JS.Normal data
  | _ =>
      match JS.get data "data" with
      | JS.Throw => JS.Throw
      | JS.Normal d =>
          or_else d
            match JS.get data "binning_data" with
            | JS.Throw => JS.Throw
            | JS.Normal b => or_else b (JS.Normal (JS.JArr []))
            end
      end
  end.

(** The inner loop, [for (const point of dataPoints)].  [healthData] is
    pushed to in place, so what was pushed before a throw stays; the flag
    tells whether the loop threw. *)
Fixpoint forPoints (type : SampleType) (points : list JS.value)
    (healthData : list Sample) : list Sample * bool :=
  match points with
  | [] => (healthData, false)
  | point :: rest =>
      match JS.get point "end_time" with
      | JS.Throw => (healthData, true)
      | JS.Normal timestamp =>
          match (match type with stress => JS.get point "score" end) with
          | JS.Throw => (healthData, true)
          | JS.Normal value =>
              match value, timestamp with
              | Some v, Some t =>
                  forPoints type rest
                    (healthData ++ [HealthDataPoint.mk t v type])
              | _, _ => forPoints type rest healthData
              end
          end
      end
  end.

(** The state the outer loop works on: the samples pushed so far, and the
    entries [console.warn] was called for. *)
Record State : Type := mkState
  { healthData : list Sample;
    warnings : list string }.

Definition warn (entry : ZipEntry) (healthData : list Sample) (st : State) : State :=
  mkState healthData (warnings st ++ [name entry]).

(** One turn of the outer loop: the [try] block and its [catch]. *)
Definition processFile (st : State) (file : ZipEntry * SampleType) : State :=
  let '(entry, type) := file in
  match parsed entry with
  | None => warn entry (healthData st) st
  | Some data =>
      match dataPoints data with
      | JS.Throw => warn entry (healthData st) st
      | JS.Normal container =>
          match JS.iterate container with
          | JS.Throw => warn entry (healthData st) st
          | JS.Normal points =>
              match forPoints type points (healthData st) with
              | (pushed, true) => warn entry pushed st
              | (pushed, false) => mkState pushed (warnings st)
              end
          end
      end
  end.

Definition processFiles (files : list (ZipEntry * SampleType)) (st : State) : State :=
  fold_left processFile files st.

(** [(a, b) => a.timestamp - b.timestamp] *)
Definition byTimestamp (a b : Sample) : JS.number :=
  JS.minus (HealthDataPoint.timestamp a) (HealthDataPoint.timestamp b).

(** [parseSamsungHealthZip]: the sorted samples, and the warnings logged. *)
Definition parseSamsungHealthZip (zip : list ZipEntry) : list Sample * list string :=
  let st := processFiles (firstn MAX_FILES_TO_PROCESS (filesToProcess zip))
                         (mkState [] []) in
  (JS.sort byTimestamp (healthData st), warnings st).

End SamsungHealthService.

(* ================================================================== *)
(** * Date, in the local zone of the evaluating environment            *)
(* ================================================================== *)

Module Date.

Definition msPerDay : Z := 86400000.
Definition msPerHour : Z := 3600000.
Definition msPerMinute : Z := 60000.
Definition msPerSecond : Z := 1000.

Definition Day (t : Z) : Z := t / msPerDay.
Definition HourFromTime (t : Z) : Z := (t / msPerHour) mod 24.
Definition MinFromTime (t : Z) : Z := (t / msPerMinute) mod 60.
Definition TimeWithinDay (t : Z) : Z := t mod msPerDay.

Definition MakeTime (hour min sec ms : Z) : Z :=
  hour * msPerHour + min * msPerMinute + sec * msPerSecond + ms.
Definition MakeDate (day time : Z) : Z := day * msPerDay + time.

(** [new Date(v)] for a numeric [v]: the time value of the object, NaN for
    the infinity that [Math.min()] and [Math.max()] answer.  [getTime()]
    reads the time value back, so a Date is modelled by it. *)
Definition ofNumber (v : option Z) : JS.number :=
  match v with
  | Some t => JS.Num t
  | None => JS.NaN
  end.

(** A display label: what [toLocaleTimeString([], { hour: '2-digit',
    minute: '2-digit' })] prints, the hour and the minute of the local
    time of day.  Two labels are the same string exactly when both agree. *)
Record TimeLabel : Type := mkLabel
  { hh : Z;
    mm : Z }.

Definition label_eqb (a b : TimeLabel) : bool :=
  ((hh a =? hh b) && (mm a =? mm b))%bool.

Section Zone.
(** The zone's offset from UTC, in milliseconds. *)
Variable tz : Z.

Definition LocalTime (t : Z) : Z := t + tz.
Definition UTC (t : Z) : Z := t - tz.

(** [d.setHours(hour, min, sec, ms)]: the local calendar day is kept and
    the time of day replaced; an invalid Date stays invalid. *)
Definition setHours (d : JS.number) (hour min sec ms : Z) : JS.number :=
  match d with
  | JS.NaN => JS.NaN
  | JS.Num t =>
      JS.Num (UTC (MakeDate (Day (LocalTime t)) (MakeTime hour min sec ms)))
  end.

(** [getFullYear()], [getMonth()] and [getDate()] together name the local
    calendar day, modelled by its day number. *)
Definition localDay (t : Z) : Z := Day (LocalTime t).
Definition getHours (t : Z) : Z := HourFromTime (LocalTime t).
Definition getMinutes (t : Z) : Z := MinFromTime (LocalTime t).

(** [new Date(year, month, date, hours, minutes)], the day given by its
    number: the instant of that local minute. *)
Definition ofLocal (day hours minutes : Z) : Z :=
  UTC (MakeDate day (MakeTime hours minutes 0 0)).

Definition toLocaleTimeString (t : Z) : TimeLabel :=
  mkLabel (getHours t) (getMinutes t).
End Zone.

End Date.

(** Comparisons of an integer with a number that may be NaN. *)
Definition ge_number (a : Z) (b : JS.number) : bool :=
  match b with
  | JS.Num y => y <=? a
  | JS.NaN => false
  end.

Definition le_number (a : Z) (b : JS.number) : bool :=
  match b with
  | JS.Num y => a <=? y
  | JS.NaN => false
  end.

(* ================================================================== *)
(** * App.tsx: handleGenerateAnalysis                                  *)
(* ================================================================== *)

Module App.
Import Types.

(** The [{ timestamp, value }] pairs handed to the insight collaborator. *)
Record StressPeriod : Type := mkPeriod
  { timestamp : Z;
    value : Z }.

Definition type_is_stress (ty : SampleType) : bool :=
  match ty with stress => true end.

Section Zone.
Variable tz : Z.

(** [travelDayStart] and [travelDayEnd]. *)
Definition travelDay (events : list FlightEvent.t) : JS.number * JS.number :=
  let eventTimestamps := map FlightEvent.timestamp events in
  let travelStart := JS.Math_min eventTimestamps in
  let travelEnd := JS.Math_max eventTimestamps in
  let firstEventDate := Date.setHours tz (Date.ofNumber travelStart) 0 0 0 0 in
  let travelDayStart := firstEventDate in
  let lastEventDate := Date.setHours tz (Date.ofNumber travelEnd) 23 59 59 999 in
  let travelDayEnd := lastEventDate in
  (travelDayStart, travelDayEnd).

(** [highStressPeriods], the argument of [analyzeStressPatterns]. *)
Definition highStressPeriods (healthData : list (HealthDataPoint.t Z))
    (events : list FlightEvent.t) : list StressPeriod :=
  let '(travelDayStart, travelDayEnd) := travelDay events in
  map (fun d => mkPeriod (HealthDataPoint.timestamp d) (HealthDataPoint.value d))
    (filter
       (fun d => (type_is_stress (HealthDataPoint.type d)
                  && (STRESS_THRESHOLD <=? HealthDataPoint.value d))%bool)
       (filter
          (fun d => (ge_number (HealthDataPoint.timestamp d) travelDayStart
                     && le_number (HealthDataPoint.timestamp d) travelDayEnd)%bool)
          healthData)).
End Zone.

(** ** The state of the component and its handlers

    The eight [useState] cells of [App], as one record; a setter replaces
    one field.  What a rejected promise carries is an [Error] with its
    message, or something else. *)
Inductive Rejection : Type :=
| ErrorWith (message : string)
| NotAnError.

(** [e instanceof Error ? e.message : fallback] *)
Definition messageOr (e : Rejection) (fallback : string) : string :=
  match e with
  | ErrorWith message => message
  | NotAnError => fallback
  end.

Record Model : Type := mkModel
  { appState : AppState;
    healthData : list SamsungHealthService.Sample;
    flightData : option FlightData.t;
    analysis : string;
    isLoading : bool;
    isAnalysisLoading : bool;
    loadingMessage : string;
    error : option string }.

Definition initialModel : Model :=
  mkModel AWAITING_WATCH_DATA [] None "" false false "" None.

Definition setAppState (v : AppState) (m : Model) : Model :=
  mkModel v (healthData m) (flightData m) (analysis m) (isLoading m)
          (isAnalysisLoading m) (loadingMessage m) (error m).
Definition setHealthData (v : list SamsungHealthService.Sample) (m : Model) : Model :=
  mkModel (appState m) v (flightData m) (analysis m) (isLoading m)
          (isAnalysisLoading m) (loadingMessage m) (error m).
Definition setFlightData (v : option FlightData.t) (m : Model) : Model :=
  mkModel (appState m) (healthData m) v (analysis m) (isLoading m)
          (isAnalysisLoading m) (loadingMessage m) (error m).
Definition setAnalysis (v : string) (m : Model) : Model :=
  mkModel (appState m) (healthData m) (flightData m) v (isLoading m)
          (isAnalysisLoading m) (loadingMessage m) (error m).
Definition setIsLoading (v : bool) (m : Model) : Model :=
  mkModel (appState m) (healthData m) (flightData m) (analysis m) v
          (isAnalysisLoading m) (loadingMessage m) (error m).
Definition setIsAnalysisLoading (v : bool) (m : Model) : Model :=
  mkModel (appState m) (healthData m) (flightData m) (analysis m) (isLoading m)
          v (loadingMessage m) (error m).
Definition setLoadingMessage (v : string) (m : Model) : Model :=
  mkModel (appState m) (healthData m) (flightData m) (analysis m) (isLoading m)
          (isAnalysisLoading m) v (error m).
Definition setError (v : option string) (m : Model) : Model :=
  mkModel (appState m) (healthData m) (flightData m) (analysis m) (isLoading m)
          (isAnalysisLoading m) (loadingMessage m) v.

Definition noDataMessage : string :=
  "Could not find compatible stress or heart rate data in the zip file. Please check the file structure.".

(** [handleWatchDataUpload], from the call to the settling of its promise.
    [file] is what [JSZip.loadAsync] makes of the file: a rejection, or
    the members of the archive. *)
Definition handleWatchDataUpload (file : Rejection + list SamsungHealthService.ZipEntry)
    (m : Model) : Model :=
  let m := setIsLoading true m in
  let m := setLoadingMessage "Analyzing your smartwatch data... This may take a moment." m in
  let m := setError None m in
  let catch (e : Rejection) (m : Model) : Model :=
    let m := setError
               (Some (messageOr e "An unknown error occurred during zip file processing.")) m in
    setAppState AWAITING_WATCH_DATA m in
  let m :=
    match file with
    | inl e => catch e m
    | inr zip =>
        let data := fst (SamsungHealthService.parseSamsungHealthZip zip) in
        match data with
        | [] => catch (ErrorWith noDataMessage) m
        | _ :: _ =>
            let m := setHealthData data m in
            setAppState AWAITING_FLIGHT_DATA m
        end
    end in
  setIsLoading false m.

(** [handleFlightDataUpload]; [outcome] is what [fileToBase64] followed by
    [extractFlightTimeline] settles to. *)
Definition handleFlightDataUpload (outcome : Rejection + FlightData.t) (m : Model) : Model :=
  let m := setIsLoading true m in
  let m := setLoadingMessage "Extracting flight details with Gemini AI..." m in
  let m := setError None m in
  let m :=
    match outcome with
    | inr data =>
        let m := setFlightData (Some data) m in
        setAppState DISPLAYING_RESULTS m
    | inl e =>
        let m := setError
                   (Some (messageOr e "An unknown error occurred while analyzing the flight PDF.")) m in
        setAppState AWAITING_FLIGHT_DATA m
    end in
  setIsLoading false m.

(** [handleGenerateAnalysis] up to its [await]: nothing when there is no
    flight data, else the two setters before the [try]. *)
Definition beginAnalysis (m : Model) : Model :=
  match flightData m with
  | None => m
  | Some _ =>
      let m := setIsAnalysisLoading true m in
      setError None m
  end.

(** [handleGenerateAnalysis] from the settling of [analyzeStressPatterns]
    on: the insight is stored or the failure reported, then [finally]. *)
Definition finishAnalysis (outcome : Rejection + string) (m : Model) : Model :=
  let m :=
    match outcome with
    | inr insight => setAnalysis insight m
    | inl e => setError (Some (messageOr e "Failed to generate AI analysis.")) m
    end in
  setIsAnalysisLoading false m.

(** The test of the effect that calls [handleGenerateAnalysis]:
    [appState === DISPLAYING_RESULTS && flightData && !analysis &&
    !isAnalysisLoading]. *)
Definition shouldGenerate (m : Model) : bool :=
  (match appState m with DISPLAYING_RESULTS => true | _ => false end
   && match flightData m with Some _ => true | None => false end
   && String.eqb (analysis m) ""
   && negb (isAnalysisLoading m))%bool.

Definition resetApp (m : Model) : Model :=
  let m := setAppState AWAITING_WATCH_DATA m in
  let m := setHealthData [] m in
  let m := setFlightData None m in
  let m := setAnalysis "" m in
  let m := setError None m in
  let m := setIsLoading false m in
  setIsAnalysisLoading false m.

(** What [renderContent] returns. *)
Inductive View : Type :=
| LoaderView (message : string)
| WatchUploadView
| FlightUploadView
| ResultsView (summary : string) (events : list FlightEvent.t)
| NoView.

Definition renderContent (m : Model) : View :=
  if isLoading m then LoaderView (loadingMessage m)
  else
    match appState m with
    | AWAITING_WATCH_DATA => WatchUploadView
    | AWAITING_FLIGHT_DATA => FlightUploadView
    | DISPLAYING_RESULTS =>
        match flightData m with
        | None => NoView
        | Some data => ResultsView (FlightData.summary data) (FlightData.events data)
        end
    | PROCESSING => NoView
    end.

(** The "Start New Analysis" button is rendered in this state only. *)
Definition resetShown (m : Model) : bool :=
  match appState m with DISPLAYING_RESULTS => true | _ => false end.

End App.

(* ================================================================== *)
(** * components/DataVisualization.tsx                                 *)
(* ================================================================== *)

Module DataVisualization.
Import Types.

(** The [timeRange] state, [{ start, end }]. *)
Record TimeRange : Type := mkRange
  { start : Z;
    end_ : Z }.

(** [useState({ start: 0, end: 0 })] *)
Definition initialTimeRange : TimeRange := mkRange 0 0.

Definition THREE_HOURS_MS : Z := 3 * 60 * 60 * 1000.

(** The effect that seeds [timeRange] from the flight events. *)
Definition seedTimeRange (flightEvents : list FlightEvent.t) (timeRange : TimeRange)
  : TimeRange :=
  match flightEvents with
  | [] => timeRange
  | _ :: _ =>
      let flightTimestamps := map FlightEvent.timestamp flightEvents in
      match JS.Math_min flightTimestamps, JS.Math_max flightTimestamps with
      | Some minTimestamp, Some maxTimestamp =>
          mkRange (minTimestamp - THREE_HOURS_MS) (maxTimestamp + THREE_HOURS_MS)
      | _, _ => timeRange
      end
  end.

(** [!n] on a number of the model. *)
Definition not_ (n : Z) : bool := n =? 0.

Definition filteredHealthData (timeRange : TimeRange)
    (healthData : list (HealthDataPoint.t Z)) : list (HealthDataPoint.t Z) :=
  if (not_ (start timeRange) || not_ (end_ timeRange))%bool then healthData
  else filter
         (fun d => ((start timeRange <=? HealthDataPoint.timestamp d)
                    && (HealthDataPoint.timestamp d <=? end_ timeRange))%bool)
         healthData.

(** ** The [Map<string, ChartDataPoint>] of [chartData]

    A JavaScript Map keeps its entries in insertion order.  A key is the
    ISO string of an instant, modelled by the instant. *)
Module Map.
Definition t : Type := list (Z * ChartDataPoint.t Z).

Definition has (m : t) (k : Z) : bool :=
  existsb (fun kv => fst kv =? k) m.

Fixpoint get (m : t) (k : Z) : option (ChartDataPoint.t Z) :=
  match m with
  | [] => None
  | (k', v) :: m' => if k' =? k then Some v else get m' k
  end.

(** The object stored under [k] is changed in place. *)
Fixpoint alter (f : ChartDataPoint.t Z -> ChartDataPoint.t Z) (m : t) (k : Z) : t :=
  match m with
  | [] => []
  | (k', v) :: m' =>
      if k' =? k then (k', f v) :: m' else (k', v) :: alter f m' k
  end.

(** [m.set(k, v)]: a present key keeps its place, a new one goes last. *)
Definition set (m : t) (k : Z) (v : ChartDataPoint.t Z) : t :=
  if has m k then alter (fun _ => v) m k else m ++ [(k, v)].

Definition values (m : t) : list (ChartDataPoint.t Z) := map snd m.
End Map.

(** A shaded interval of the chart, [{ x1, x2, label, fill }]. *)
Record Area : Type := mkArea
  { x1 : Date.TimeLabel;
    x2 : Date.TimeLabel;
    label : string;
    fill : string }.

Definition flightFill : string := "rgba(59, 130, 246, 0.15)".
Definition transitFill : string := "rgba(249, 115, 22, 0.15)".

(** What the scan of [referenceAreas] carries from event to event. *)
Record Scan : Type := mkScan
  { areas : list Area;
    currentFlight : option Z;
    currentTransit : option Z;
    flightCount : nat }.

Definition initialScan : Scan := mkScan [] None None 0.

Definition is_null (s : option Z) : bool :=
  match s with None => true | Some _ => false end.

Section Zone.
Variable tz : Z.

Definition timeToLabel (timestamp : Z) : Date.TimeLabel :=
  Date.toLocaleTimeString tz timestamp.

(** [minuteKey]: the local minute of the sample, as an instant. *)
Definition minuteKey (timestamp : Z) : Z :=
  Date.ofLocal tz (Date.localDay tz timestamp)
    (Date.getHours tz timestamp) (Date.getMinutes tz timestamp).

(** The body of [filteredHealthData.forEach]. *)
Definition addPoint (dataMap : Map.t) (point : HealthDataPoint.t Z) : Map.t :=
  let key := minuteKey (HealthDataPoint.timestamp point) in
  let dataMap :=
    if negb (Map.has dataMap key)
    then Map.set dataMap key (ChartDataPoint.mk key None)
    else dataMap in
  match HealthDataPoint.type point with
  | stress =>
      Map.alter
        (fun existingPoint =>
           ChartDataPoint.mk (ChartDataPoint.time existingPoint)
             (Some (HealthDataPoint.value point)))
        dataMap key
  end.

Definition dataMap (filtered : list (HealthDataPoint.t Z)) : Map.t :=
  fold_left addPoint filtered [].

Definition byTime (a b : ChartDataPoint.t Z) : JS.number :=
  JS.sub (JS.Num (ChartDataPoint.time a)) (JS.Num (ChartDataPoint.time b)).

(** [sortedData]: the buckets before their keys become labels. *)
Definition sortedData (filtered : list (HealthDataPoint.t Z))
  : list (ChartDataPoint.t Z) :=
  JS.sort byTime (Map.values (dataMap filtered)).

Definition chartData (filtered : list (HealthDataPoint.t Z))
  : list (ChartDataPoint.t Date.TimeLabel) :=
  map (fun d => ChartDataPoint.mk (timeToLabel (ChartDataPoint.time d))
                                  (ChartDataPoint.stress d))
      (sortedData filtered).

(** ** [referenceAreas] *)

Definition byEventTime (a b : FlightEvent.t) : JS.number :=
  JS.sub (JS.Num (FlightEvent.timestamp a)) (JS.Num (FlightEvent.timestamp b)).

(** The body of [sortedEvents.forEach]. *)
Definition scanEvent (st : Scan) (event : FlightEvent.t) : Scan :=
  let lowerEvent := JS.toLowerCase (FlightEvent.event event) in
  if (JS.includes lowerEvent "takeoff" && is_null (currentFlight st))%bool then
    mkScan (areas st) (Some (FlightEvent.timestamp event)) (currentTransit st)
           (flightCount st)
  else
    match JS.includes lowerEvent "landing", currentFlight st with
    | true, Some flightStart =>
        let flightCount' := S (flightCount st) in
        mkScan
          (areas st ++
             [mkArea (timeToLabel flightStart)
                     (timeToLabel (FlightEvent.timestamp event))
                     ("In Flight " ++ JS.show_nat flightCount')%string
                     flightFill])
          None (currentTransit st) flightCount'
    | _, _ =>
        if (JS.includes lowerEvent "transit start"
            && is_null (currentTransit st))%bool then
          mkScan (areas st) (currentFlight st)
                 (Some (FlightEvent.timestamp event)) (flightCount st)
        else
          match JS.includes lowerEvent "transit end", currentTransit st with
          | true, Some transitStart =>
              mkScan
                (areas st ++
                   [mkArea (timeToLabel transitStart)
                           (timeToLabel (FlightEvent.timestamp event))
                           "Transit" transitFill])
                (currentFlight st) None (flightCount st)
          | _, _ => st
          end
    end.

Definition scanEvents (events : list FlightEvent.t) (st : Scan) : Scan :=
  fold_left scanEvent events st.

(** The intervals derived from the events, before the final filter. *)
Definition derivedAreas (flightEvents : list FlightEvent.t) : list Area :=
  let sortedEvents := JS.sort byEventTime flightEvents in
  areas (scanEvents sortedEvents initialScan).

(** [flightEvents.find(e => timeToLabel(e.timestamp) === l)] *)
Definition findByLabel (flightEvents : list FlightEvent.t) (l : Date.TimeLabel)
  : option FlightEvent.t :=
  find (fun e => Date.label_eqb (timeToLabel (FlightEvent.timestamp e)) l)
       flightEvents.

(** The predicate of the final [areas.filter]. *)
Definition keepArea (flightEvents : list FlightEvent.t) (timeRange : TimeRange)
    (area : Area) : bool :=
  match findByLabel flightEvents (x1 area), findByLabel flightEvents (x2 area) with
  | Some startEvent, Some endEvent =>
      ((start timeRange <=? FlightEvent.timestamp startEvent)
       && (FlightEvent.timestamp endEvent <=? end_ timeRange))%bool
  | _, _ => false
  end.

Definition referenceAreas (flightEvents : list FlightEvent.t)
    (timeRange : TimeRange) : list Area :=
  filter (keepArea flightEvents timeRange) (derivedAreas flightEvents).
End Zone.

(** ** The window controls and the event markers *)

(** The [name] of the two inputs. *)
Inductive InputName : Type :=
| name_start
| name_end.

(** [fullHealthDataTimeRange], [{ min, max }]. *)
Module HealthRange.
Record t : Type := mk
  { min : Z;
    max : Z }.
End HealthRange.

Definition fullHealthDataTimeRange (healthData : list (HealthDataPoint.t Z))
  : HealthRange.t :=
  match healthData with
  | [] => HealthRange.mk 0 0
  | _ :: _ =>
      let timestamps := map HealthDataPoint.timestamp healthData in
      match JS.Math_min timestamps, JS.Math_max timestamps with
      | Some lo, Some hi => HealthRange.mk lo hi
      | _, _ => HealthRange.mk 0 0
      end
  end.

Section Controls.
Variable tz : Z.

(** [formatTimestampForInput]: the text [YYYY-MM-DDTHH:mm] of a
    datetime-local input, or the empty string.  The text names a minute
    of the local clock and is modelled by the number of that minute
    since the epoch (for the four-digit years, on which [slice(0, 16)]
    cuts after the minutes); [None] is the empty string. *)
Definition formatTimestampForInput (timestamp : Z) : option Z :=
  if not_ timestamp then None
  else Some (Date.LocalTime tz timestamp / Date.msPerMinute).

(** [handleTimeChange]: [new Date(value)] reads the text as local time. *)
Definition handleTimeChange (name : InputName) (value : option Z) (prev : TimeRange)
  : TimeRange :=
  match value with
  | None => prev
  | Some minute =>
      let newTimestamp := Date.UTC tz (minute * Date.msPerMinute) in
      match name with
      | name_start => mkRange newTimestamp (end_ prev)
      | name_end => mkRange (start prev) newTimestamp
      end
  end.

(** [eventTimestamps]: the events that get a marker, each with its
    [timeLabel]. *)
Definition eventTimestamps (flightEvents : list FlightEvent.t)
    (chartData : list (ChartDataPoint.t Date.TimeLabel)) (timeRange : TimeRange)
  : list (FlightEvent.t * Date.TimeLabel) :=
  if (Nat.eqb (List.length chartData) 0 || not_ (start timeRange)
      || not_ (end_ timeRange))%bool
  then []
  else
    map (fun event => (event, timeToLabel tz (FlightEvent.timestamp event)))
      (filter
         (fun event => ((start timeRange <=? FlightEvent.timestamp event)
                        && (FlightEvent.timestamp event <=? end_ timeRange))%bool)
         flightEvents).
End Controls.

End DataVisualization.

(* ================================================================== *)
(** * Vocabulary of the statements, and the scenarios they are tried on *)
(* ================================================================== *)

Module Vocabulary.
Import Types.

(** A run-time value that is a number. *)
Definition numeric (v : JS.value) : bool :=
  match v with
  | JS.JNum _ => true
  | _ => false
  end.

(** [a] is not later than [b], both timestamps being numbers. *)
Definition not_later (a b : SamsungHealthService.Sample) : Prop :=
  match HealthDataPoint.timestamp a, HealthDataPoint.timestamp b with
  | JS.JNum x, JS.JNum y => x <= y
  | _, _ => False
  end.

(** Following the words of the specification: the record container is the
    first of the value itself, its "data" field and its "binning_data"
    field that is an array, and is empty when none is. *)
Definition array_items (v : option JS.value) : option (list JS.value) :=
  match v with
  | Some (JS.JArr items) => Some items
  | _ => None
  end.

Definition field (data : JS.value) (k : string) : option JS.value :=
  match data with
  | JS.JObj members => JS.lookup_member k members
  | _ => None
  end.

Definition container_by_spec (data : JS.value) : list JS.value :=
  match array_items (Some data) with
  | Some items => items
  | None =>
      match array_items (field data "data") with
      | Some items => items
      | None =>
          match array_items (field data "binning_data") with
          | Some items => items
          | None => []
          end
      end
  end.

(** What one parsed member contributes: the [try] block run on no samples. *)
Definition contributes (data : JS.value) : list SamsungHealthService.Sample :=
  match SamsungHealthService.dataPoints data with
  | JS.Throw => []
  | JS.Normal container =>
      match JS.iterate container with
      | JS.Throw => []
      | JS.Normal points => fst (SamsungHealthService.forPoints stress points [])
      end
  end.

Definition ex_path : string := "com.samsung.shealth.stress/x.binning_data.json".

(** ToBoolean of an operand that may be [undefined]. *)
Definition truthy_opt (v : option JS.value) : bool :=
  match v with
  | Some w => JS.truthy w
  | None => false
  end.

(** The "data" field of a parsed member is absent, falsy or an array. *)
Definition data_field_plain (data : JS.value) : Prop :=
  match field data "data" with
  | None => True
  | Some d => JS.truthy d = false \/ exists items, d = JS.JArr items
  end.

(** The record of one stress reading, [{"score": s, "end_time": t}]. *)
Definition reading (s : JS.value) (t : Z) : JS.value :=
  JS.JObj [("score", s); ("end_time", JS.JNum t)].

(** A timestamp inside the visible window, bounds included. *)
Definition within (timeRange : DataVisualization.TimeRange) (t : Z) : Prop :=
  DataVisualization.start timeRange <= t <= DataVisualization.end_ timeRange.

Definition withinb (timeRange : DataVisualization.TimeRange) (t : Z) : bool :=
  ((DataVisualization.start timeRange <=? t)
   && (t <=? DataVisualization.end_ timeRange))%bool.

(** Following the words of the specification: an interval is kept when the
    events its labels resolve to both lie inside the visible window. *)
Definition keepArea_by_spec (tz : Z) (flightEvents : list FlightEvent.t)
    (timeRange : DataVisualization.TimeRange) (area : DataVisualization.Area) : bool :=
  match DataVisualization.findByLabel tz flightEvents (DataVisualization.x1 area),
        DataVisualization.findByLabel tz flightEvents (DataVisualization.x2 area) with
  | Some startEvent, Some endEvent =>
      (withinb timeRange (FlightEvent.timestamp startEvent)
       && withinb timeRange (FlightEvent.timestamp endEvent))%bool
  | _, _ => false
  end.

(** The two kinds of interval, told apart by their shading. *)
Definition isFlightArea (a : DataVisualization.Area) : bool :=
  String.eqb (DataVisualization.fill a) DataVisualization.flightFill.

Definition isTransitArea (a : DataVisualization.Area) : bool :=
  String.eqb (DataVisualization.fill a) DataVisualization.transitFill.

(** The lower-cased name of an event holds the keyword. *)
Definition names (event : FlightEvent.t) (keyword : string) : bool :=
  JS.includes (JS.toLowerCase (FlightEvent.event event)) keyword.

(** Samples in chronological order. *)
Definition chronological (healthData : list (HealthDataPoint.t Z)) : Prop :=
  StronglySorted
    (fun a b => HealthDataPoint.timestamp a <= HealthDataPoint.timestamp b)
    healthData.

(** The two path tests of the first loop. *)
Definition qualifies (entry : SamsungHealthService.ZipEntry) : bool :=
  (JS.endsWith (SamsungHealthService.name entry) ".binning_data.json"
   && JS.includes (SamsungHealthService.name entry) "com.samsung.shealth.stress")%bool.

(** What a processed member adds to the samples. *)
Definition contribution (file : SamsungHealthService.ZipEntry * SampleType)
  : list SamsungHealthService.Sample :=
  match SamsungHealthService.parsed (fst file) with
  | Some data => contributes data
  | None => []
  end.

(** A member that is an array of records, none of them null. *)
Definition sound_member (entry : SamsungHealthService.ZipEntry) : Prop :=
  exists items, SamsungHealthService.parsed entry = Some (JS.JArr items) /\
                Forall (fun point => point <> JS.JNull) items.

Definition timestamp_is (t : Z) (s : SamsungHealthService.Sample) : bool :=
  match HealthDataPoint.timestamp s with
  | JS.JNum z => z =? t
  | _ => false
  end.

(** The moves of the application, from one settled state to the next: an
    upload runs from its call to the settling of its promise (the loader
    replaces every upload control meanwhile, and the reset button is
    rendered in the results state only), the effect starts a generation
    when its test holds, a pending generation may settle at any time, and
    the reset button works in the results state. *)
Inductive step : App.Model -> App.Model -> Prop :=
| step_watch (file : App.Rejection + list SamsungHealthService.ZipEntry) (m : App.Model) :
    App.renderContent m = App.WatchUploadView ->
    step m (App.handleWatchDataUpload file m)
| step_flight (outcome : App.Rejection + FlightData.t) (m : App.Model) :
    App.renderContent m = App.FlightUploadView ->
    step m (App.handleFlightDataUpload outcome m)
| step_begin (m : App.Model) :
    App.shouldGenerate m = true ->
    step m (App.beginAnalysis m)
| step_finish (outcome : App.Rejection + string) (m : App.Model) :
    step m (App.finishAnalysis outcome m)
| step_reset (m : App.Model) :
    App.resetShown m = true ->
    step m (App.resetApp m).

Inductive reachable : App.Model -> Prop :=
| reachable_initial : reachable App.initialModel
| reachable_step (m m' : App.Model) : reachable m -> step m m' -> reachable m'.

(** An interval whose two labels are those of two events of the list, an
    opening one and a closing one that is not earlier. *)
Definition interval_of_events (tz : Z) (flightEvents : list FlightEvent.t)
    (a : DataVisualization.Area) : Prop :=
  exists e1 e2,
    In e1 flightEvents /\ In e2 flightEvents /\
    DataVisualization.x1 a = DataVisualization.timeToLabel tz (FlightEvent.timestamp e1) /\
    DataVisualization.x2 a = DataVisualization.timeToLabel tz (FlightEvent.timestamp e2) /\
    FlightEvent.timestamp e1 <= FlightEvent.timestamp e2 /\
    if isFlightArea a
    then names e1 "takeoff" = true /\ names e2 "landing" = true
    else names e1 "transit start" = true /\ names e2 "transit end" = true.

(** An open slot holds the time of an event of the list with the given
    keyword, not later than any event still to come. *)
Definition slot_of_events (flightEvents : list FlightEvent.t) (keyword : string)
    (slot : option Z) (rest : list FlightEvent.t) : Prop :=
  forall t, slot = Some t ->
    exists e, In e flightEvents /\ names e keyword = true /\
              FlightEvent.timestamp e = t /\
              forall x, In x rest -> t <= FlightEvent.timestamp x.

End Vocabulary.

(* ================================================================== *)
(** * Facts about [Array.prototype.sort]                               *)
(* ================================================================== *)

Section SortFacts.
Context {A : Type} (comparefn : A -> A -> JS.number).

Lemma sort_insert_perm (x : A) (l : list A) :
  Permutation (JS.sort_insert comparefn x l) (x :: l).
Proof.
  induction l as [|y l IH]; simpl; [reflexivity|].
  destruct (JS.goes_after comparefn x y); [|reflexivity].
  rewrite IH. apply perm_swap.
Qed.

Lemma sort_perm (l : list A) : Permutation (JS.sort comparefn l) l.
Proof.
  induction l as [|x l IH]; simpl; [reflexivity|].
  rewrite sort_insert_perm. now apply perm_skip.
Qed.

Lemma sort_In (l : list A) (x : A) : In x (JS.sort comparefn l) <-> In x l.
Proof.
  split; apply Permutation_in; [|symmetry]; apply sort_perm.
Qed.

(** When the comparator is the difference of an integer key, the result
    is ordered by that key. *)
Variable key : A -> Z.

Lemma sort_insert_sorted (x : A) (l : list A) :
  (forall y, In y l -> comparefn x y = JS.Num (key x - key y)) ->
  StronglySorted (fun a b => key a <= key b) l ->
  StronglySorted (fun a b => key a <= key b) (JS.sort_insert comparefn x l).
Proof.
  induction l as [|y l IH]; intros Hc Hs; simpl.
  - repeat constructor.
  - unfold JS.goes_after. rewrite (Hc y (in_eq y l)).
    inversion Hs as [|? ? Hs' Hall]; subst.
    destruct (0 <? key x - key y) eqn:E.
    + apply Z.ltb_lt in E. constructor.
      * apply IH; [|exact Hs']. intros z Hz. apply Hc. now right.
      * apply (Permutation_Forall (Permutation_sym (sort_insert_perm x l))).
        constructor; [lia | exact Hall].
    + apply Z.ltb_ge in E. constructor; [exact Hs|].
      constructor; [lia|].
      eapply Forall_impl; [|exact Hall]. simpl. intros; lia.
Qed.

Lemma sort_sorted (l : list A) :
  (forall x y, In x l -> In y l -> comparefn x y = JS.Num (key x - key y)) ->
  StronglySorted (fun a b => key a <= key b) (JS.sort comparefn l).
Proof.
  induction l as [|x l IH]; intros Hc; simpl; [constructor|].
  apply sort_insert_sorted.
  - intros y Hy. apply Hc; [now left | right; now apply sort_In].
  - apply IH. intros a b Ha Hb. apply Hc; now right.
Qed.

(** An array that is in order already comes back as it is. *)
Lemma sort_fixes_sorted (l : list A) :
  (forall x y, In x l -> In y l -> comparefn x y = JS.Num (key x - key y)) ->
  StronglySorted (fun a b => key a <= key b) l ->
  JS.sort comparefn l = l.
Proof.
  induction l as [|x l IH]; intros Hc Hs; simpl; [reflexivity|].
  inversion Hs as [|? ? Hs' Hall]; subst.
  rewrite IH; [|intros a b Ha Hb; apply Hc; now right|exact Hs'].
  destruct l as [|y l]; simpl; [reflexivity|].
  unfold JS.goes_after. rewrite Hc; [|now left|right; now left].
  inversion Hall as [|? ? Hxy _]; subst.
  destruct (0 <? key x - key y) eqn:E; [|reflexivity].
  apply Z.ltb_lt in E. lia.
Qed.
End SortFacts.

Lemma StronglySorted_refine {A : Type} (P : A -> Prop) (R1 R2 : A -> A -> Prop)
    (l : list A) :
  (forall a b, P a -> P b -> R1 a b -> R2 a b) ->
  Forall P l -> StronglySorted R1 l -> StronglySorted R2 l.
Proof.
  intros Himp HP Hs. induction Hs as [|a l Hs IH Hall]; [constructor|].
  inversion HP as [|? ? Pa Pl]; subst.
  constructor; [now apply IH|].
  rewrite Forall_forall in *. intros b Hb. apply Himp; auto.
Qed.

(* ================================================================== *)
(** * The Archive Sample Extractor                                     *)
(* ================================================================== *)

Section Extractor.
Import Types SamsungHealthService Vocabulary.

(** Where a sample of the inner loop comes from. *)
Lemma forPoints_origin (ty : SampleType) (points : list JS.value) :
  forall (pushed : list Sample) (p : Sample),
    In p (fst (forPoints ty points pushed)) ->
    In p pushed \/
    exists point, In point points /\
      JS.get point "end_time" = JS.Normal (Some (HealthDataPoint.timestamp p)) /\
      JS.get point "score" = JS.Normal (Some (HealthDataPoint.value p)) /\
      HealthDataPoint.type p = ty.
Proof.
  induction points as [|point rest IH]; intros pushed p H; simpl in H.
  - now left.
  - destruct (JS.get point "end_time") as [timestamp|] eqn:Et; [|now left].
    destruct ty.
    destruct (JS.get point "score") as [value|] eqn:Es; [|now left].
    assert (Hrest : In p (fst (forPoints stress rest pushed)) ->
                    In p pushed \/ exists point0, In point0 (point :: rest) /\
                      JS.get point0 "end_time" = JS.Normal (Some (HealthDataPoint.timestamp p)) /\
                      JS.get point0 "score" = JS.Normal (Some (HealthDataPoint.value p)) /\
                      HealthDataPoint.type p = stress).
    { intros H'. destruct (IH _ _ H') as [?|(q & Hq & ?)]; [now left|].
      right. exists q. split; [now right | assumption]. }
    destruct value as [v|], timestamp as [t|]; auto.
    destruct (IH _ _ H) as [Hin|(q & Hq & ?)].
    + apply in_app_or in Hin. destruct Hin as [?|[<-|[]]]; [now left|].
      right. exists point. simpl. repeat split; auto.
    + right. exists q. split; [now right | assumption].
Qed.

(** The inner loop only ever adds to what was pushed. *)
Lemma forPoints_keeps (ty : SampleType) (points : list JS.value) :
  forall (pushed : list Sample) (p : Sample),
    In p pushed -> In p (fst (forPoints ty points pushed)).
Proof.
  induction points as [|point rest IH]; intros pushed p H; simpl; auto.
  destruct (JS.get point "end_time") as [timestamp|]; auto.
  destruct ty. destruct (JS.get point "score") as [value|]; auto.
  destruct value, timestamp; auto.
  apply IH, in_or_app. now left.
Qed.

(** The inner loop appends to what was pushed, and whether it throws does
    not depend on it. *)
Lemma forPoints_acc (ty : SampleType) (points : list JS.value) :
  forall pushed : list Sample,
    forPoints ty points pushed =
      (pushed ++ fst (forPoints ty points []), snd (forPoints ty points [])).
Proof.
  induction points as [|point rest IH]; intros pushed; simpl.
  - now rewrite app_nil_r.
  - destruct (JS.get point "end_time") as [timestamp|]; simpl;
      [|now rewrite app_nil_r].
    destruct ty.
    destruct (JS.get point "score") as [value|]; simpl; [|now rewrite app_nil_r].
    destruct value as [v|], timestamp as [t|]; auto.
    rewrite (IH (pushed ++ _)), (IH [_]). simpl. now rewrite <- app_assoc.
Qed.

(** Iterating a string visits characters, which carry no record. *)
Lemma forPoints_chars (ty : SampleType) (s : string) (pushed : list Sample) :
  forPoints ty (JS.chars s) pushed = (pushed, false).
Proof.
  induction s as [|c s IH]; simpl; [reflexivity|]. destruct ty. exact IH.
Qed.

(** The samples a turn of the outer loop leaves do not depend on the
    warnings logged before. *)
Lemma processFile_data (st st' : State) (file : ZipEntry * SampleType) :
  healthData st = healthData st' ->
  healthData (processFile st file) = healthData (processFile st' file).
Proof.
  intros E. destruct file as [entry ty]. unfold processFile. rewrite <- E.
  destruct (parsed entry) as [data|]; [|reflexivity].
  destruct (dataPoints data) as [container|]; [|reflexivity].
  destruct (JS.iterate container) as [points|]; [|reflexivity].
  destruct (forPoints ty points (healthData st)) as [pushed [|]]; reflexivity.
Qed.

Lemma processFiles_data (files : list (ZipEntry * SampleType)) :
  forall st st', healthData st = healthData st' ->
    healthData (processFiles files st) = healthData (processFiles files st').
Proof.
  induction files as [|file files IH]; intros st st' E; simpl; [exact E|].
  apply IH, processFile_data, E.
Qed.

Lemma processFile_warnings (st : State) (file : ZipEntry * SampleType) (w : string) :
  In w (warnings st) -> In w (warnings (processFile st file)).
Proof.
  intros H. destruct file as [entry ty]. unfold processFile, warn.
  destruct (parsed entry) as [data|]; simpl; [|apply in_or_app; now left].
  destruct (dataPoints data) as [container|]; simpl; [|apply in_or_app; now left].
  destruct (JS.iterate container) as [points|]; simpl; [|apply in_or_app; now left].
  destruct (forPoints ty points (healthData st)) as [pushed [|]]; simpl;
    [apply in_or_app; now left | exact H].
Qed.

Lemma processFiles_warnings (files : list (ZipEntry * SampleType)) (w : string) :
  forall st, In w (warnings st) -> In w (warnings (processFiles files st)).
Proof.
  induction files as [|file files IH]; intros st H; simpl; [exact H|].
  apply IH, processFile_warnings, H.
Qed.

Lemma processFile_origin (st : State) (entry : ZipEntry) (ty : SampleType) (p : Sample) :
  In p (healthData (processFile st (entry, ty))) ->
  In p (healthData st) \/
  exists data container points point,
    parsed entry = Some data /\
    dataPoints data = JS.Normal container /\
    JS.iterate container = JS.Normal points /\
    In point points /\
    JS.get point "end_time" = JS.Normal (Some (HealthDataPoint.timestamp p)) /\
    JS.get point "score" = JS.Normal (Some (HealthDataPoint.value p)) /\
    HealthDataPoint.type p = ty.
Proof.
  unfold processFile, warn.
  destruct (parsed entry) as [data|] eqn:Ed; [|now left].
  destruct (dataPoints data) as [container|] eqn:Ec; [|now left].
  destruct (JS.iterate container) as [points|] eqn:Ei; [|now left].
  destruct (forPoints ty points (healthData st)) as [pushed threw] eqn:E.
  intros H.
  assert (Hp : In p (fst (forPoints ty points (healthData st))))
    by (rewrite E; destruct threw; exact H).
  destruct (forPoints_origin _ _ _ _ Hp) as [?|(point & ? & ? & ? & ?)]; [now left|].
  right. exists data, container, points, point. repeat split; auto.
Qed.

(** A parsed member adds what it contributes to the samples pushed so far. *)
Lemma processFile_contributes (st : State) (entry : ZipEntry) (data : JS.value) :
  parsed entry = Some data ->
  healthData (processFile st (entry, stress)) = healthData st ++ contributes data.
Proof.
  intros Hd. unfold processFile, contributes, warn. rewrite Hd.
  destruct (dataPoints data) as [container|]; simpl; [|now rewrite app_nil_r].
  destruct (JS.iterate container) as [points|]; simpl; [|now rewrite app_nil_r].
  rewrite forPoints_acc.
  destruct (snd (forPoints stress points [])); reflexivity.
Qed.

Lemma processFile_keeps (st : State) (file : ZipEntry * SampleType) (p : Sample) :
  In p (healthData st) -> In p (healthData (processFile st file)).
Proof.
  intros H. destruct file as [entry []].
  destruct (parsed entry) as [data|] eqn:E.
  - rewrite (processFile_contributes st entry data E). apply in_or_app. now left.
  - unfold processFile. rewrite E. exact H.
Qed.

Lemma processFiles_keeps (files : list (ZipEntry * SampleType)) (p : Sample) :
  forall st, In p (healthData st) -> In p (healthData (processFiles files st)).
Proof.
  induction files as [|file files IH]; intros st H; simpl; [exact H|].
  apply IH, processFile_keeps, H.
Qed.

(** What a parsed member contributes is among the samples at the end. *)
Lemma processFiles_member (files : list (ZipEntry * SampleType)) (entry : ZipEntry)
    (data : JS.value) (p : Sample) :
  In (entry, stress) files -> parsed entry = Some data -> In p (contributes data) ->
  forall st, In p (healthData (processFiles files st)).
Proof.
  intros Hin Hd Hp. induction files as [|file files IH]; intros st; [contradiction|].
  simpl. destruct Hin as [->|Hin]; [|now apply IH].
  apply processFiles_keeps. rewrite (processFile_contributes st entry data Hd).
  apply in_or_app. now right.
Qed.

Lemma processFiles_origin (files : list (ZipEntry * SampleType)) :
  forall (st : State) (p : Sample),
    In p (healthData (processFiles files st)) ->
    In p (healthData st) \/
    exists entry data container points point,
      In (entry, stress) files /\
      parsed entry = Some data /\
      dataPoints data = JS.Normal container /\
      JS.iterate container = JS.Normal points /\
      In point points /\
      JS.get point "end_time" = JS.Normal (Some (HealthDataPoint.timestamp p)) /\
      JS.get point "score" = JS.Normal (Some (HealthDataPoint.value p)) /\
      HealthDataPoint.type p = stress.
Proof.
  induction files as [|[entry ty] files IH]; intros st p H; simpl in H.
  - now left.
  - destruct (IH _ _ H) as [Hst|(e & d & c & ps & pt & Hin & Hrest)].
    + destruct (processFile_origin _ _ _ _ Hst)
        as [?|(d & c & ps & pt & ? & ? & ? & ? & ? & ? & Hty)]; [now left|].
      right. exists entry, d, c, ps, pt. destruct ty.
      repeat split; auto. now left.
    + right. exists e, d, c, ps, pt. split; [now right | exact Hrest].
Qed.
End Extractor.

Section ExtractorClaims.
Import Types SamsungHealthService Vocabulary.

(** C3, as stated, fails: a record whose [score] is present but is no
    number is not dropped.  The member
    [[{"score": "high", "end_time": 1700000000000}]] yields a sample whose
    value is the string. *)
Lemma extractor_keeps_non_numeric_score :
  In (HealthDataPoint.mk (JS.JNum 1700000000000) (JS.JStr "high") stress)
     (fst (parseSamsungHealthZip
             [mkEntry ex_path
                (Some (JS.JArr [reading (JS.JStr "high") 1700000000000]))]))
  /\ numeric (JS.JStr "high") = false.
Proof. split; [left|]; reflexivity. Qed.

(** C3, amended: every sample of the extractor's output carries the
    [end_time] and the [score] of a record of a processed member, both
    present (not undefined) in that record, so a record missing either
    is dropped while a present field is kept whatever it holds; and
    whenever all the timestamps kept are numbers, the output is sorted
    non-decreasing by timestamp. *)
Theorem extractor_output_present_and_sorted (zip : list ZipEntry) :
  (forall p, In p (fst (parseSamsungHealthZip zip)) ->
     exists entry data container points point,
       In (entry, stress) (firstn MAX_FILES_TO_PROCESS (filesToProcess zip)) /\
       parsed entry = Some data /\
       dataPoints data = JS.Normal container /\
       JS.iterate container = JS.Normal points /\
       In point points /\
       JS.get point "end_time" = JS.Normal (Some (HealthDataPoint.timestamp p)) /\
       JS.get point "score" = JS.Normal (Some (HealthDataPoint.value p)) /\
       HealthDataPoint.type p = stress) /\
  ((forall p, In p (fst (parseSamsungHealthZip zip)) ->
      numeric (HealthDataPoint.timestamp p) = true) ->
   StronglySorted not_later (fst (parseSamsungHealthZip zip))).
Proof.
  unfold parseSamsungHealthZip; cbn [fst snd]. split.
  - intros p Hp. apply sort_In in Hp.
    destruct (processFiles_origin _ _ _ Hp) as [[]|H]. exact H.
  - intros Hnum.
    set (key := fun s : Sample =>
                  match HealthDataPoint.timestamp s with
                  | JS.JNum z => z
                  | _ => 0
                  end).
    apply (StronglySorted_refine
             (fun s => numeric (HealthDataPoint.timestamp s) = true)
             (fun a b => key a <= key b)).
    + unfold not_later, key, numeric. intros a b Ha Hb.
      destruct (HealthDataPoint.timestamp a); try discriminate.
      destruct (HealthDataPoint.timestamp b); try discriminate. auto.
    + apply Forall_forall. exact Hnum.
    + apply sort_sorted. intros x y Hx Hy.
      apply (sort_In byTimestamp), Hnum in Hx.
      apply (sort_In byTimestamp), Hnum in Hy.
      unfold byTimestamp, JS.minus, key, numeric in *.
      destruct (HealthDataPoint.timestamp x); try discriminate.
      destruct (HealthDataPoint.timestamp y); try discriminate.
      reflexivity.
Qed.

(** Two members with numeric timestamps out of order: the hypothesis holds
    and the output comes back in order. *)
Lemma extractor_output_present_and_sorted_witness :
  let zip :=
    [mkEntry ex_path (Some (JS.JArr [reading (JS.JNum 85) 1700000300000;
                                     reading (JS.JNum 40) 1700000100000]));
     mkEntry "com.samsung.shealth.stress/y.binning_data.json"
             (Some (JS.JObj [("data", JS.JArr [reading (JS.JNum 91) 1700000200000])]))] in
  (forall p, In p (fst (parseSamsungHealthZip zip)) ->
     numeric (HealthDataPoint.timestamp p) = true) /\
  StronglySorted not_later (fst (parseSamsungHealthZip zip)).
Proof.
  intros zip.
  assert (Hnum : forall p, In p (fst (parseSamsungHealthZip zip)) ->
                   numeric (HealthDataPoint.timestamp p) = true).
  { intros p Hp. vm_compute in Hp.
    destruct Hp as [<-|[<-|[<-|[]]]]; reflexivity. }
  split; [exact Hnum|].
  exact (proj2 (extractor_output_present_and_sorted zip) Hnum).
Defined.

(** C6, as stated, fails: a "data" field that is truthy but no array is
    selected all the same, and hides an array under "binning_data".  The
    member [{"data": {"count": 1}, "binning_data": [{"score": 85,
    "end_time": 1700000000000}]}] contributes nothing and is warned
    about, where the first array-like candidate holds one record. *)
Lemma container_selection_not_first_array :
  let data :=
    JS.JObj [("data", JS.JObj [("count", JS.JNum 1)]);
             ("binning_data", JS.JArr [reading (JS.JNum 85) 1700000000000])] in
  container_by_spec data = [reading (JS.JNum 85) 1700000000000] /\
  dataPoints data = JS.Normal (JS.JObj [("count", JS.JNum 1)]) /\
  dataPoints data <> JS.Normal (JS.JArr (container_by_spec data)) /\
  parseSamsungHealthZip [mkEntry ex_path (Some data)] = ([], [ex_path]) /\
  fst (forPoints stress (container_by_spec data) []) =
    [HealthDataPoint.mk (JS.JNum 1700000000000) (JS.JNum 85) stress].
Proof.
  intros data. repeat split; try reflexivity. discriminate.
Qed.

(** C6, amended: the record container is the parsed value itself when it
    is an array; else the object's "data" field when that is truthy,
    array or not; else its "binning_data" field when that is truthy;
    else the empty array.  Whenever the "data" field is absent, falsy or
    an array, the member contributes exactly the records of the first of
    the three candidates that is an array, and none if none is. *)
Theorem container_selection_by_truthiness (data : JS.value) :
  (forall items, data = JS.JArr items -> dataPoints data = JS.Normal data) /\
  (forall d, array_items (Some data) = None ->
     field data "data" = Some d -> JS.truthy d = true ->
     dataPoints data = JS.Normal d) /\
  (forall members b, data = JS.JObj members ->
     truthy_opt (field data "data") = false ->
     field data "binning_data" = Some b -> JS.truthy b = true ->
     dataPoints data = JS.Normal b) /\
  (forall members, data = JS.JObj members ->
     truthy_opt (field data "data") = false ->
     truthy_opt (field data "binning_data") = false ->
     dataPoints data = JS.Normal (JS.JArr [])) /\
  (data_field_plain data ->
   forall st entry, parsed entry = Some data ->
     healthData (processFile st (entry, stress)) =
       healthData st ++ fst (forPoints stress (container_by_spec data) [])).
Proof.
  split; [intros items ->; reflexivity|].
  split.
  { intros d Harr Hf Ht. destruct data; try discriminate.
    simpl in *. rewrite Hf. simpl. now rewrite Ht. }
  split.
  { intros members b -> Hd Hb Ht. simpl in *.
    destruct (JS.lookup_member "data" members) as [d|]; simpl in *;
      rewrite ?Hd, Hb; simpl; now rewrite Ht. }
  split.
  { intros members -> Hd Hb. simpl in *.
    destruct (JS.lookup_member "data" members) as [d|]; simpl in *; rewrite ?Hd;
      (destruct (JS.lookup_member "binning_data" members) as [b|]; simpl in *;
       rewrite ?Hb; reflexivity). }
  intros Hplain st entry Hparsed.
  rewrite (processFile_contributes st entry data Hparsed). f_equal.
  clear st entry Hparsed. revert Hplain.
  unfold data_field_plain, contributes, container_by_spec.
  destruct data as [| | | |items|members]; simpl; try reflexivity.
  assert (Hbin :
    match or_else (JS.lookup_member "binning_data" members)
                  (JS.Normal (JS.JArr [])) with
    | JS.Normal container =>
        match JS.iterate container with
        | JS.Normal points => fst (forPoints stress points [])
        | JS.Throw => []
        end
    | JS.Throw => []
    end =
    match array_items (JS.lookup_member "binning_data" members) with
    | Some items => fst (forPoints stress items [])
    | None => []
    end).
  { destruct (JS.lookup_member "binning_data" members) as [[|[|]|z|s|items|ms]|];
      simpl; try reflexivity.
    - destruct (z =? 0); reflexivity.
    - destruct (String.eqb s ""); simpl; [reflexivity|].
      now rewrite forPoints_chars. }
  destruct (JS.lookup_member "data" members) as [d|]; simpl.
  - intros [Hf|[items ->]]; [|reflexivity].
    rewrite Hf. destruct d; try discriminate; simpl;
      rewrite Hbin;
      destruct (array_items (JS.lookup_member "binning_data" members));
      reflexivity.
  - intros _. rewrite Hbin.
    destruct (array_items (JS.lookup_member "binning_data" members)); reflexivity.
Qed.

(** A null "data" field beside an array "binning_data": the records of the
    latter are pushed. *)
Lemma container_selection_by_truthiness_witness :
  let data :=
    JS.JObj [("data", JS.JNull);
             ("binning_data", JS.JArr [reading (JS.JNum 85) 1700000000000])] in
  data_field_plain data /\
  healthData (processFile (mkState [] []) (mkEntry ex_path (Some data), stress)) =
    [HealthDataPoint.mk (JS.JNum 1700000000000) (JS.JNum 85) stress].
Proof.
  intros data.
  assert (H : data_field_plain data) by (left; reflexivity).
  split; [exact H|].
  exact (proj2 (proj2 (proj2 (proj2 (container_selection_by_truthiness data)))) H
           (mkState [] []) (mkEntry ex_path (Some data)) eq_refl).
Defined.
End ExtractorClaims.

Section MalformedMember.
Import Types SamsungHealthService Vocabulary.

Lemma processFiles_app (before after : list (ZipEntry * SampleType)) (st : State) :
  processFiles (before ++ after) st = processFiles after (processFiles before st).
Proof. apply fold_left_app. Qed.

(** C8: a member whose text is no JSON, met among the members the loop
    processes, is caught: its name is logged, the samples pushed so far
    are untouched, and the members after it are processed as if it were
    not there, so the extraction returns the sorted samples of the other
    members, and every sample a well-formed processed member contributes
    is in the output.  The extraction is a total function: nothing aborts
    it. *)
Theorem malformed_member_is_skipped (zip : list ZipEntry)
    (before after : list (ZipEntry * SampleType)) (bad : ZipEntry) :
  firstn MAX_FILES_TO_PROCESS (filesToProcess zip) = before ++ (bad, stress) :: after ->
  parsed bad = None ->
  (forall st, processFile st (bad, stress) =
              mkState (healthData st) (warnings st ++ [name bad])) /\
  In (name bad) (snd (parseSamsungHealthZip zip)) /\
  fst (parseSamsungHealthZip zip) =
    JS.sort byTimestamp (healthData (processFiles (before ++ after) (mkState [] []))) /\
  (forall entry data p,
     In (entry, stress) (before ++ after) -> parsed entry = Some data ->
     In p (contributes data) -> In p (fst (parseSamsungHealthZip zip))).
Proof.
  intros Hfiles Hbad.
  assert (Hstep : forall st, processFile st (bad, stress) =
                             mkState (healthData st) (warnings st ++ [name bad])).
  { intros st. unfold processFile, warn. now rewrite Hbad. }
  split; [exact Hstep|].
  assert (Hdata : fst (parseSamsungHealthZip zip) =
            JS.sort byTimestamp
              (healthData (processFiles (before ++ after) (mkState [] [])))).
  { unfold parseSamsungHealthZip. rewrite Hfiles. cbn [fst snd].
    rewrite !processFiles_app. cbn [processFiles fold_left].
    fold (processFiles after). rewrite Hstep.
    f_equal. now apply processFiles_data. }
  split; [|split; [exact Hdata|]].
  - unfold parseSamsungHealthZip. rewrite Hfiles. cbn [fst snd].
    rewrite processFiles_app. cbn [processFiles fold_left].
    fold (processFiles after). rewrite Hstep.
    apply processFiles_warnings. simpl. apply in_or_app. right. now left.
  - intros entry data p Hin Hd Hp. rewrite Hdata. apply sort_In.
    now apply (processFiles_member _ entry data).
Qed.

(** A broken member between two sound ones: one warning, and the samples
    of the two others, sorted. *)
Lemma malformed_member_is_skipped_witness :
  let good1 := mkEntry ex_path (Some (JS.JArr [reading (JS.JNum 85) 1700000300000])) in
  let bad := mkEntry "com.samsung.shealth.stress/broken.binning_data.json" None in
  let good2 := mkEntry "com.samsung.shealth.stress/z.binning_data.json"
                 (Some (JS.JObj [("binning_data",
                                  JS.JArr [reading (JS.JNum 90) 1700000100000])])) in
  parseSamsungHealthZip [good1; bad; good2] =
    ([HealthDataPoint.mk (JS.JNum 1700000100000) (JS.JNum 90) stress;
      HealthDataPoint.mk (JS.JNum 1700000300000) (JS.JNum 85) stress],
     [name bad])
  /\ In (name bad) (snd (parseSamsungHealthZip [good1; bad; good2]))
  /\ fst (parseSamsungHealthZip [good1; bad; good2]) =
       fst (parseSamsungHealthZip [good1; good2]).
Proof.
  intros good1 bad good2.
  destruct (malformed_member_is_skipped [good1; bad; good2]
              [(good1, stress)] [(good2, stress)] bad eq_refl eq_refl)
    as (_ & Hwarn & Hdata & _).
  split; [reflexivity|]. split; [exact Hwarn|].
  rewrite Hdata. reflexivity.
Defined.
End MalformedMember.

(* ================================================================== *)
(** * The Travel-Window Deriver and the Correlation Filter             *)
(* ================================================================== *)

Section MinMax.
Lemma fold_min_spec (l : list Z) :
  forall x, In (fold_left Z.min l x) (x :: l) /\
            Forall (fun y => fold_left Z.min l x <= y) (x :: l).
Proof.
  induction l as [|a l IH]; intros x; simpl.
  - split; [now left | constructor; [lia | constructor]].
  - destruct (IH (Z.min x a)) as [Hin Hall].
    inversion Hall as [|? ? Hmin Hrest]; subst. split.
    + destruct Hin as [Hin|Hin]; [|right; now right].
      rewrite <- Hin. destruct (Z.min_spec x a) as [[_ ->]|[_ ->]]; auto.
    + constructor; [lia|]. constructor; [lia | exact Hrest].
Qed.

Lemma fold_max_spec (l : list Z) :
  forall x, In (fold_left Z.max l x) (x :: l) /\
            Forall (fun y => y <= fold_left Z.max l x) (x :: l).
Proof.
  induction l as [|a l IH]; intros x; simpl.
  - split; [now left | constructor; [lia | constructor]].
  - destruct (IH (Z.max x a)) as [Hin Hall].
    inversion Hall as [|? ? Hmax Hrest]; subst. split.
    + destruct Hin as [Hin|Hin]; [|right; now right].
      rewrite <- Hin. destruct (Z.max_spec x a) as [[_ ->]|[_ ->]]; auto.
    + constructor; [lia|]. constructor; [lia | exact Hrest].
Qed.

(** [Math.min] of a non-empty array is its least element. *)
Lemma Math_min_spec (l : list Z) :
  l <> [] ->
  exists m, JS.Math_min l = Some m /\ In m l /\ forall y, In y l -> m <= y.
Proof.
  destruct l as [|x l]; [congruence|]. intros _.
  destruct (fold_min_spec l x) as [Hin Hall].
  exists (fold_left Z.min l x). repeat split; auto.
  now apply Forall_forall.
Qed.

Lemma Math_max_spec (l : list Z) :
  l <> [] ->
  exists m, JS.Math_max l = Some m /\ In m l /\ forall y, In y l -> y <= m.
Proof.
  destruct l as [|x l]; [congruence|]. intros _.
  destruct (fold_max_spec l x) as [Hin Hall].
  exists (fold_left Z.max l x). repeat split; auto.
  now apply Forall_forall.
Qed.
End MinMax.

Section LocalDay.
Variable tz : Z.

(** [setHours] keeps the local day and installs the time of day. *)
Lemma setHours_local (t time : Z) :
  0 <= time < Date.msPerDay ->
  let t' := Date.UTC tz (Date.MakeDate (Date.Day (Date.LocalTime tz t)) time) in
  Date.localDay tz t' = Date.localDay tz t /\
  Date.TimeWithinDay (Date.LocalTime tz t') = time.
Proof.
  intros Htime. unfold Date.localDay, Date.LocalTime, Date.UTC, Date.MakeDate,
    Date.Day, Date.TimeWithinDay in *. simpl.
  replace ((t + tz) / Date.msPerDay * Date.msPerDay + time - tz + tz)
    with (time + (t + tz) / Date.msPerDay * Date.msPerDay) by lia.
  unfold Date.msPerDay in *. split.
  - rewrite Z.div_add by lia. rewrite Z.div_small by lia. lia.
  - rewrite Z.mod_add by lia. apply Z.mod_small. lia.
Qed.
End LocalDay.

Section TravelWindow.
Import Types.
Variable tz : Z.

(** C2: for a non-empty event list, [travelStart] is the least and
    [travelEnd] the greatest event timestamp; [travelDayStart] lies on
    the local calendar day of [travelStart] at 00:00:00.000 local time
    and [travelDayEnd] on the local calendar day of [travelEnd] at
    23:59:59.999 local time.  For events on two different local days
    these are the midnight of the first and the last millisecond of the
    second. *)
Theorem travel_day_bounds (events : list FlightEvent.t) :
  events <> [] ->
  exists travelStart travelEnd dayStart dayEnd,
    JS.Math_min (map FlightEvent.timestamp events) = Some travelStart /\
    JS.Math_max (map FlightEvent.timestamp events) = Some travelEnd /\
    (exists e, In e events /\ FlightEvent.timestamp e = travelStart) /\
    (forall e, In e events -> travelStart <= FlightEvent.timestamp e) /\
    (exists e, In e events /\ FlightEvent.timestamp e = travelEnd) /\
    (forall e, In e events -> FlightEvent.timestamp e <= travelEnd) /\
    App.travelDay tz events = (JS.Num dayStart, JS.Num dayEnd) /\
    Date.localDay tz dayStart = Date.localDay tz travelStart /\
    Date.TimeWithinDay (Date.LocalTime tz dayStart) = Date.MakeTime 0 0 0 0 /\
    Date.localDay tz dayEnd = Date.localDay tz travelEnd /\
    Date.TimeWithinDay (Date.LocalTime tz dayEnd) = Date.MakeTime 23 59 59 999.
Proof.
  intros Hne.
  assert (Hne' : map FlightEvent.timestamp events <> [])
    by (destruct events; [congruence | discriminate]).
  destruct (Math_min_spec _ Hne') as (lo & Hlo & Hlo_in & Hlo_le).
  destruct (Math_max_spec _ Hne') as (hi & Hhi & Hhi_in & Hhi_le).
  assert (H0 : 0 <= Date.MakeTime 0 0 0 0 < Date.msPerDay) by (vm_compute; split; congruence).
  assert (H1 : 0 <= Date.MakeTime 23 59 59 999 < Date.msPerDay)
    by (vm_compute; split; congruence).
  destruct (setHours_local tz lo _ H0) as [Hd0 Ht0].
  destruct (setHours_local tz hi _ H1) as [Hd1 Ht1].
  exists lo, hi,
    (Date.UTC tz (Date.MakeDate (Date.Day (Date.LocalTime tz lo)) (Date.MakeTime 0 0 0 0))),
    (Date.UTC tz (Date.MakeDate (Date.Day (Date.LocalTime tz hi)) (Date.MakeTime 23 59 59 999))).
  split; [exact Hlo|]. split; [exact Hhi|].
  split. { apply in_map_iff in Hlo_in. destruct Hlo_in as (e & He & Hin). eauto. }
  split. { intros e He. apply Hlo_le. now apply in_map. }
  split. { apply in_map_iff in Hhi_in. destruct Hhi_in as (e & He & Hin). eauto. }
  split. { intros e He. apply Hhi_le. now apply in_map. }
  split. { unfold App.travelDay. rewrite Hlo, Hhi. reflexivity. }
  auto.
Qed.

(** On a non-empty event list both bounds of the travel day are instants. *)
Lemma travelDay_defined (events : list FlightEvent.t) :
  events <> [] ->
  exists dayStart dayEnd,
    App.travelDay tz events = (JS.Num dayStart, JS.Num dayEnd).
Proof.
  destruct events as [|e events]; [congruence|]. intros _.
  unfold App.travelDay. simpl. eauto.
Qed.

Lemma filter_filter_and {A : Type} (f g : A -> bool) (l : list A) :
  filter g (filter f l) = filter (fun x => (f x && g x)%bool) l.
Proof.
  induction l as [|x l IH]; simpl; [reflexivity|].
  destruct (f x); simpl; [destruct (g x)|]; now rewrite IH.
Qed.

(** C1: for a non-empty event list the payload is the input samples
    with [travelDayStart <= timestamp <= travelDayEnd], type stress and
    value at least 80, each reduced to its timestamp and value, in the
    order of the input; no pair of it has a value under 80 or a
    timestamp outside the travel day, and no qualifying sample is
    missing. *)
Theorem correlation_filter_exact (healthData : list (HealthDataPoint.t Z))
    (events : list FlightEvent.t) :
  events <> [] ->
  exists dayStart dayEnd,
    App.travelDay tz events = (JS.Num dayStart, JS.Num dayEnd) /\
    App.highStressPeriods tz healthData events =
      map (fun d => App.mkPeriod (HealthDataPoint.timestamp d) (HealthDataPoint.value d))
        (filter
           (fun d => ((dayStart <=? HealthDataPoint.timestamp d)
                      && (HealthDataPoint.timestamp d <=? dayEnd)
                      && (match HealthDataPoint.type d with stress => true end)
                      && (80 <=? HealthDataPoint.value d))%bool)
           healthData) /\
    (forall p, In p (App.highStressPeriods tz healthData events) ->
       80 <= App.value p /\ dayStart <= App.timestamp p <= dayEnd) /\
    (forall d, In d healthData ->
       dayStart <= HealthDataPoint.timestamp d <= dayEnd ->
       HealthDataPoint.type d = stress ->
       80 <= HealthDataPoint.value d ->
       In (App.mkPeriod (HealthDataPoint.timestamp d) (HealthDataPoint.value d))
          (App.highStressPeriods tz healthData events)).
Proof.
  intros Hne.
  destruct (travelDay_defined events Hne) as (dayStart & dayEnd & Hday).
  exists dayStart, dayEnd. split; [exact Hday|].
  assert (Heq : App.highStressPeriods tz healthData events =
      map (fun d => App.mkPeriod (HealthDataPoint.timestamp d) (HealthDataPoint.value d))
        (filter
           (fun d => ((dayStart <=? HealthDataPoint.timestamp d)
                      && (HealthDataPoint.timestamp d <=? dayEnd)
                      && (match HealthDataPoint.type d with stress => true end)
                      && (80 <=? HealthDataPoint.value d))%bool)
           healthData)).
  { unfold App.highStressPeriods. rewrite Hday. rewrite filter_filter_and.
    f_equal. apply filter_ext. intros d. unfold ge_number, le_number,
      App.type_is_stress, STRESS_THRESHOLD.
    now rewrite !andb_assoc. }
  split; [exact Heq|]. rewrite Heq. split.
  - intros p Hp. apply in_map_iff in Hp. destruct Hp as (d & <- & Hd).
    apply filter_In in Hd. destruct Hd as [_ Hd]. simpl.
    rewrite !andb_true_iff in Hd. destruct Hd as [[[H1 H2] _] H3].
    apply Z.leb_le in H1, H2, H3. lia.
  - intros d Hd [H1 H2] Hty H3. apply in_map_iff. exists d. split; [reflexivity|].
    apply filter_In. split; [exact Hd|].
    rewrite Hty, !andb_true_iff. repeat split; try apply Z.leb_le; auto.
Qed.
End TravelWindow.

(** One hour east of UTC, a takeoff at 23:30 local time on 1 January 2024
    and a landing at 01:15 on 2 January: the travel day runs from the
    midnight of 1 January to the last millisecond of 2 January. *)
Lemma travel_day_bounds_witness :
  let tz := 3600000 in
  let events :=
    [Types.FlightEvent.mk "Takeoff (Leg 1)" 1704148200000 "UA1";
     Types.FlightEvent.mk "Landing (Leg 1)" 1704154500000 "UA1"] in
  events <> [] /\
  App.travelDay tz events = (JS.Num 1704063600000, JS.Num 1704236399999) /\
  Date.localDay tz 1704148200000 + 1 = Date.localDay tz 1704154500000 /\
  exists travelStart travelEnd dayStart dayEnd,
    JS.Math_min (map Types.FlightEvent.timestamp events) = Some travelStart /\
    JS.Math_max (map Types.FlightEvent.timestamp events) = Some travelEnd /\
    (exists e, In e events /\ Types.FlightEvent.timestamp e = travelStart) /\
    (forall e, In e events -> travelStart <= Types.FlightEvent.timestamp e) /\
    (exists e, In e events /\ Types.FlightEvent.timestamp e = travelEnd) /\
    (forall e, In e events -> Types.FlightEvent.timestamp e <= travelEnd) /\
    App.travelDay tz events = (JS.Num dayStart, JS.Num dayEnd) /\
    Date.localDay tz dayStart = Date.localDay tz travelStart /\
    Date.TimeWithinDay (Date.LocalTime tz dayStart) = Date.MakeTime 0 0 0 0 /\
    Date.localDay tz dayEnd = Date.localDay tz travelEnd /\
    Date.TimeWithinDay (Date.LocalTime tz dayEnd) = Date.MakeTime 23 59 59 999.
Proof.
  intros tz events.
  assert (H : events <> []) by discriminate.
  split; [exact H|]. split; [reflexivity|]. split; [reflexivity|].
  exact (travel_day_bounds tz events H).
Defined.

(** The scenario of the specification: of two samples at 12:00 UTC on the
    travel day, the one of value 90 is in the payload and the one of value
    70 is not. *)
Lemma correlation_filter_exact_witness :
  let tz := 0 in
  let events :=
    [Types.FlightEvent.mk "Takeoff (Leg 1)" 1704103200000 "UA1";
     Types.FlightEvent.mk "Landing (Leg 1)" 1704117600000 "UA1"] in
  let healthData :=
    [Types.HealthDataPoint.mk 1704110400000 90 Types.stress;
     Types.HealthDataPoint.mk 1704110400000 70 Types.stress] in
  events <> [] /\
  App.highStressPeriods tz healthData events = [App.mkPeriod 1704110400000 90] /\
  exists dayStart dayEnd,
    App.travelDay tz events = (JS.Num dayStart, JS.Num dayEnd) /\
    App.highStressPeriods tz healthData events =
      map (fun d => App.mkPeriod (Types.HealthDataPoint.timestamp d)
                                 (Types.HealthDataPoint.value d))
        (filter
           (fun d => ((dayStart <=? Types.HealthDataPoint.timestamp d)
                      && (Types.HealthDataPoint.timestamp d <=? dayEnd)
                      && (match Types.HealthDataPoint.type d with Types.stress => true end)
                      && (80 <=? Types.HealthDataPoint.value d))%bool)
           healthData) /\
    (forall p, In p (App.highStressPeriods tz healthData events) ->
       80 <= App.value p /\ dayStart <= App.timestamp p <= dayEnd) /\
    (forall d, In d healthData ->
       dayStart <= Types.HealthDataPoint.timestamp d <= dayEnd ->
       Types.HealthDataPoint.type d = Types.stress ->
       80 <= Types.HealthDataPoint.value d ->
       In (App.mkPeriod (Types.HealthDataPoint.timestamp d) (Types.HealthDataPoint.value d))
          (App.highStressPeriods tz healthData events)).
Proof.
  intros tz events healthData.
  assert (H : events <> []) by discriminate.
  split; [exact H|]. split; [reflexivity|].
  exact (correlation_filter_exact tz healthData events H).
Defined.

(* ================================================================== *)
(** * The Chart Series Builder: the sample filter                      *)
(* ================================================================== *)

Section SampleFilter.
Import Types DataVisualization.

(** C10: when either bound of [timeRange] is zero, as both are until a
    non-empty event list seeds the range, the sample filter returns the
    whole of [healthData]; only when both bounds are nonzero are the
    samples restricted to [start <= timestamp <= end]. *)
Theorem sample_filter_bypass (timeRange : TimeRange)
    (healthData : list (HealthDataPoint.t Z)) :
  (start timeRange = 0 \/ end_ timeRange = 0 ->
   filteredHealthData timeRange healthData = healthData) /\
  (start timeRange <> 0 -> end_ timeRange <> 0 ->
   filteredHealthData timeRange healthData =
     filter (fun d => ((start timeRange <=? HealthDataPoint.timestamp d)
                       && (HealthDataPoint.timestamp d <=? end_ timeRange))%bool)
            healthData /\
   forall d, In d (filteredHealthData timeRange healthData) <->
             In d healthData /\
             start timeRange <= HealthDataPoint.timestamp d <= end_ timeRange) /\
  filteredHealthData initialTimeRange healthData = healthData /\
  seedTimeRange [] initialTimeRange = initialTimeRange.
Proof.
  unfold filteredHealthData, not_. split; [|split].
  - intros [H|H]; rewrite H; simpl; [reflexivity|].
    now rewrite orb_true_r.
  - intros Hs He.
    apply Z.eqb_neq in Hs, He. rewrite Hs, He. simpl.
    split; [reflexivity|]. intros d. rewrite filter_In, andb_true_iff, !Z.leb_le.
    tauto.
  - split; reflexivity.
Qed.

(** A zero start returns everything; two nonzero bounds restrict. *)
Lemma sample_filter_bypass_witness :
  let healthData :=
    [HealthDataPoint.mk 1704110400000 90 stress;
     HealthDataPoint.mk 1704200000000 70 stress] in
  filteredHealthData (mkRange 0 1704120000000) healthData = healthData /\
  filteredHealthData (mkRange 1704100000000 1704120000000) healthData =
    [HealthDataPoint.mk 1704110400000 90 stress].
Proof.
  intros healthData. split.
  - apply (proj1 (sample_filter_bypass (mkRange 0 1704120000000) healthData)).
    left. reflexivity.
  - rewrite (proj1 (proj1 (proj2 (sample_filter_bypass
               (mkRange 1704100000000 1704120000000) healthData))
               ltac:(discriminate) ltac:(discriminate))).
    reflexivity.
Defined.
End SampleFilter.

(* ================================================================== *)
(** * The Chart Series Builder: phase intervals                        *)
(* ================================================================== *)

Section PhaseIntervals.
Import Types DataVisualization Vocabulary.
Variable tz : Z.

Lemma byEventTime_key (a b : FlightEvent.t) :
  byEventTime a b = JS.Num (FlightEvent.timestamp a - FlightEvent.timestamp b).
Proof. reflexivity. Qed.

(** What one event can do to the flight slot and to the counter. *)
Lemma scanEvent_flight (st : Scan) (e : FlightEvent.t) :
  (currentFlight st = None ->
   forall t, currentFlight (scanEvent tz st e) = Some t ->
     names e "takeoff" = true /\ t = FlightEvent.timestamp e) /\
  (flightCount (scanEvent tz st e) <> flightCount st ->
   names e "landing" = true /\ currentFlight st <> None /\
   currentFlight (scanEvent tz st e) = None).
Proof.
  unfold scanEvent, names.
  destruct (JS.includes (JS.toLowerCase (FlightEvent.event e)) "takeoff");
  destruct (JS.includes (JS.toLowerCase (FlightEvent.event e)) "landing");
  destruct (JS.includes (JS.toLowerCase (FlightEvent.event e)) "transit start");
  destruct (JS.includes (JS.toLowerCase (FlightEvent.event e)) "transit end");
  destruct (currentFlight st) eqn:Ef; destruct (currentTransit st) eqn:Et; simpl;
    (split; [intros H t Ht | intros H]);
    rewrite ?Ef in *; try congruence; try discriminate;
    try (split; [reflexivity | congruence]);
    try (inversion Ht; split; reflexivity);
    try (repeat split; congruence).
Qed.

Lemma scanEvent_transit (st : Scan) (e : FlightEvent.t) :
  (currentTransit st = None ->
   forall t, currentTransit (scanEvent tz st e) = Some t ->
     names e "transit start" = true /\ t = FlightEvent.timestamp e) /\
  (currentTransit st <> None -> currentTransit (scanEvent tz st e) = None ->
   names e "transit end" = true).
Proof.
  unfold scanEvent, names.
  destruct (JS.includes (JS.toLowerCase (FlightEvent.event e)) "takeoff");
  destruct (JS.includes (JS.toLowerCase (FlightEvent.event e)) "landing");
  destruct (JS.includes (JS.toLowerCase (FlightEvent.event e)) "transit start");
  destruct (JS.includes (JS.toLowerCase (FlightEvent.event e)) "transit end");
  destruct (currentFlight st) eqn:Ef; destruct (currentTransit st) eqn:Et; simpl;
    (split; [intros H t Ht | intros H Hn]);
    rewrite ?Et in *; try congruence; try discriminate;
    try (inversion Ht; split; reflexivity).
Qed.

(** A flight that is open is never opened anew: an event keeps its start
    and the count, adding no flight interval, unless its name holds
    "landing", and then it closes the flight with the next ordinal. *)
Lemma scanEvent_flight_open (st : Scan) (e : FlightEvent.t) (fs : Z) :
  currentFlight st = Some fs ->
  (names e "landing" = false ->
   currentFlight (scanEvent tz st e) = Some fs /\
   flightCount (scanEvent tz st e) = flightCount st /\
   filter isFlightArea (areas (scanEvent tz st e)) = filter isFlightArea (areas st)) /\
  (names e "landing" = true ->
   currentFlight (scanEvent tz st e) = None /\
   flightCount (scanEvent tz st e) = S (flightCount st) /\
   currentTransit (scanEvent tz st e) = currentTransit st /\
   areas (scanEvent tz st e) =
     areas st ++
       [mkArea (timeToLabel tz fs) (timeToLabel tz (FlightEvent.timestamp e))
               ("In Flight " ++ JS.show_nat (S (flightCount st)))%string flightFill]).
Proof.
  intros Hf. unfold scanEvent, names. rewrite Hf.
  destruct (JS.includes (JS.toLowerCase (FlightEvent.event e)) "takeoff");
  destruct (JS.includes (JS.toLowerCase (FlightEvent.event e)) "landing");
  destruct (JS.includes (JS.toLowerCase (FlightEvent.event e)) "transit start");
  destruct (JS.includes (JS.toLowerCase (FlightEvent.event e)) "transit end");
  destruct (currentTransit st);
    cbn [andb is_null areas currentFlight currentTransit flightCount];
    (split; [intros Hn | intros Hn]); try discriminate;
    rewrite ?filter_app; cbn [filter];
    try change (isFlightArea (mkArea ?a ?b ?c transitFill)) with false; cbv iota;
    rewrite ?app_nil_r; repeat split; auto.
Qed.

(** With no flight open, a name holding "takeoff" opens one at the time
    of the event and does nothing else. *)
Lemma scanEvent_flight_opens (st : Scan) (e : FlightEvent.t) :
  currentFlight st = None -> names e "takeoff" = true ->
  scanEvent tz st e =
    mkScan (areas st) (Some (FlightEvent.timestamp e)) (currentTransit st) (flightCount st).
Proof.
  intros Hf. unfold scanEvent, names. intros ->. rewrite Hf. reflexivity.
Qed.

(** A transit that is open is never opened anew: an event keeps its start,
    adding no transit interval, or closes it, and then its name holds
    "transit end". *)
Lemma scanEvent_transit_open (st : Scan) (e : FlightEvent.t) (tr : Z) :
  currentTransit st = Some tr ->
  (currentTransit (scanEvent tz st e) = Some tr /\
   filter isTransitArea (areas (scanEvent tz st e)) = filter isTransitArea (areas st)) \/
  (currentTransit (scanEvent tz st e) = None /\
   names e "transit end" = true /\
   areas (scanEvent tz st e) =
     areas st ++
       [mkArea (timeToLabel tz tr) (timeToLabel tz (FlightEvent.timestamp e))
               "Transit" transitFill]).
Proof.
  intros Ht. unfold scanEvent, names. rewrite Ht.
  destruct (JS.includes (JS.toLowerCase (FlightEvent.event e)) "takeoff");
  destruct (JS.includes (JS.toLowerCase (FlightEvent.event e)) "landing");
  destruct (JS.includes (JS.toLowerCase (FlightEvent.event e)) "transit start");
  destruct (JS.includes (JS.toLowerCase (FlightEvent.event e)) "transit end");
  destruct (currentFlight st);
    cbn [andb is_null areas currentFlight currentTransit flightCount];
    first [ right; repeat split; reflexivity
          | left; split; [first [reflexivity | exact Ht]|];
            rewrite ?filter_app; cbn [filter];
            try change (isTransitArea (mkArea ?a ?b ?c flightFill)) with false;
            cbv iota; rewrite ?app_nil_r; reflexivity ].
Qed.

(** An event that is neither a takeoff nor a landing reaches the transit
    tests: it opens a transit when none is open and its name holds
    "transit start", and closes the open one when its name holds
    "transit end". *)
Lemma scanEvent_transit_moves (st : Scan) (e : FlightEvent.t) :
  names e "takeoff" = false -> names e "landing" = false ->
  (currentTransit st = None -> names e "transit start" = true ->
   scanEvent tz st e =
     mkScan (areas st) (currentFlight st) (Some (FlightEvent.timestamp e))
            (flightCount st)) /\
  (forall tr, currentTransit st = Some tr -> names e "transit end" = true ->
   scanEvent tz st e =
     mkScan (areas st ++
               [mkArea (timeToLabel tz tr) (timeToLabel tz (FlightEvent.timestamp e))
                       "Transit" transitFill])
            (currentFlight st) None (flightCount st)).
Proof.
  unfold scanEvent, names. intros -> ->. cbn [andb]. split.
  - intros Ht ->. rewrite Ht. reflexivity.
  - intros tr Ht ->. rewrite Ht.
    destruct (JS.includes (JS.toLowerCase (FlightEvent.event e)) "transit start");
      reflexivity.
Qed.

(** C4: the events Takeoff at T1, Landing at T2, Transit Start at T2,
    Transit End at T3, Takeoff at T3, Landing at T4, in this order, give
    exactly three intervals: the flight from T1 to T2 numbered 1, the
    transit from T2 to T3, the flight from T3 to T4 numbered 2.  A flight
    is opened only by a name holding "takeoff", whatever its case, when
    none is open, and closed only by one holding "landing" when one is
    open; a transit likewise by "transit start" and "transit end".  In
    every state and for every event: with no flight open a takeoff opens
    one at its own time; a flight that is open keeps its start whatever
    the event, a takeoff included, until a landing closes it, emitting
    the interval with the next ordinal; a transit that is open keeps its
    start, a transit start included, until a transit end closes it; and
    an event that is neither takeoff nor landing opens or closes the
    transit as its name says. *)
Theorem phase_intervals_two_legs (T1 T2 T3 T4 : Z) (d1 d2 d3 d4 d5 d6 : string) :
  T1 <= T2 -> T2 <= T3 -> T3 <= T4 ->
  derivedAreas tz
    [FlightEvent.mk "Takeoff" T1 d1; FlightEvent.mk "Landing" T2 d2;
     FlightEvent.mk "Transit Start" T2 d3; FlightEvent.mk "Transit End" T3 d4;
     FlightEvent.mk "Takeoff" T3 d5; FlightEvent.mk "Landing" T4 d6] =
    [mkArea (timeToLabel tz T1) (timeToLabel tz T2) "In Flight 1" flightFill;
     mkArea (timeToLabel tz T2) (timeToLabel tz T3) "Transit" transitFill;
     mkArea (timeToLabel tz T3) (timeToLabel tz T4) "In Flight 2" flightFill] /\
  (forall st e,
     (currentFlight st = None ->
      forall t, currentFlight (scanEvent tz st e) = Some t ->
        names e "takeoff" = true /\ t = FlightEvent.timestamp e) /\
     (flightCount (scanEvent tz st e) <> flightCount st ->
      names e "landing" = true /\ currentFlight st <> None /\
      currentFlight (scanEvent tz st e) = None) /\
     (currentTransit st = None ->
      forall t, currentTransit (scanEvent tz st e) = Some t ->
        names e "transit start" = true /\ t = FlightEvent.timestamp e) /\
     (currentTransit st <> None -> currentTransit (scanEvent tz st e) = None ->
      names e "transit end" = true) /\
     (currentFlight st = None -> names e "takeoff" = true ->
      scanEvent tz st e =
        mkScan (areas st) (Some (FlightEvent.timestamp e)) (currentTransit st)
               (flightCount st)) /\
     (forall fs, currentFlight st = Some fs ->
        (names e "landing" = false ->
         currentFlight (scanEvent tz st e) = Some fs /\
         flightCount (scanEvent tz st e) = flightCount st /\
         filter isFlightArea (areas (scanEvent tz st e)) =
           filter isFlightArea (areas st)) /\
        (names e "landing" = true ->
         currentFlight (scanEvent tz st e) = None /\
         flightCount (scanEvent tz st e) = S (flightCount st) /\
         currentTransit (scanEvent tz st e) = currentTransit st /\
         areas (scanEvent tz st e) =
           areas st ++
             [mkArea (timeToLabel tz fs) (timeToLabel tz (FlightEvent.timestamp e))
                     ("In Flight " ++ JS.show_nat (S (flightCount st)))%string
                     flightFill])) /\
     (forall tr, currentTransit st = Some tr ->
        (currentTransit (scanEvent tz st e) = Some tr /\
         filter isTransitArea (areas (scanEvent tz st e)) =
           filter isTransitArea (areas st)) \/
        (currentTransit (scanEvent tz st e) = None /\
         names e "transit end" = true /\
         areas (scanEvent tz st e) =
           areas st ++
             [mkArea (timeToLabel tz tr) (timeToLabel tz (FlightEvent.timestamp e))
                     "Transit" transitFill])) /\
     (names e "takeoff" = false -> names e "landing" = false ->
      (currentTransit st = None -> names e "transit start" = true ->
       scanEvent tz st e =
         mkScan (areas st) (currentFlight st) (Some (FlightEvent.timestamp e))
                (flightCount st)) /\
      (forall tr, currentTransit st = Some tr -> names e "transit end" = true ->
       scanEvent tz st e =
         mkScan (areas st ++
                   [mkArea (timeToLabel tz tr)
                           (timeToLabel tz (FlightEvent.timestamp e))
                           "Transit" transitFill])
                (currentFlight st) None (flightCount st)))).
Proof.
  intros H12 H23 H34. split.
  - unfold derivedAreas.
    rewrite (sort_fixes_sorted byEventTime FlightEvent.timestamp).
    + reflexivity.
    + intros; apply byEventTime_key.
    + repeat constructor; simpl; lia.
  - intros st e.
    destruct (scanEvent_flight st e) as [Ha Hb].
    destruct (scanEvent_transit st e) as [Hc Hd].
    split; [exact Ha|]. split; [exact Hb|]. split; [exact Hc|]. split; [exact Hd|].
    split; [apply scanEvent_flight_opens|].
    split; [intros fs Hfs; now apply scanEvent_flight_open|].
    split; [intros tr Htr; now apply scanEvent_transit_open|].
    apply scanEvent_transit_moves.
Qed.
End PhaseIntervals.

(** Two legs and a transit on 1 January 2024, in a UTC environment. *)
Lemma phase_intervals_two_legs_witness :
  let tz := 0 in
  1704103200000 <= 1704117600000 /\
  DataVisualization.derivedAreas tz
    [Types.FlightEvent.mk "Takeoff" 1704103200000 "UA1 SFO";
     Types.FlightEvent.mk "Landing" 1704117600000 "UA1 ORD";
     Types.FlightEvent.mk "Transit Start" 1704117600000 "ORD";
     Types.FlightEvent.mk "Transit End" 1704124800000 "ORD";
     Types.FlightEvent.mk "Takeoff" 1704124800000 "UA2 ORD";
     Types.FlightEvent.mk "Landing" 1704132000000 "UA2 JFK"] =
    [DataVisualization.mkArea (Date.mkLabel 10 0) (Date.mkLabel 14 0)
       "In Flight 1" DataVisualization.flightFill;
     DataVisualization.mkArea (Date.mkLabel 14 0) (Date.mkLabel 16 0)
       "Transit" DataVisualization.transitFill;
     DataVisualization.mkArea (Date.mkLabel 16 0) (Date.mkLabel 18 0)
       "In Flight 2" DataVisualization.flightFill].
Proof.
  intros tz. split; [lia|].
  exact (proj1 (phase_intervals_two_legs tz 1704103200000 1704117600000
                  1704124800000 1704132000000
                  "UA1 SFO" "UA1 ORD" "ORD" "ORD" "UA2 ORD" "UA2 JFK"
                  ltac:(lia) ltac:(lia) ltac:(lia))).
Defined.

Section Unmatched.
Import Types DataVisualization Vocabulary.
Variable tz : Z.

Lemma filter_snoc {A : Type} (f : A -> bool) (l : list A) (x : A) :
  filter f (l ++ [x]) = filter f l ++ (if f x then [x] else []).
Proof. rewrite filter_app. reflexivity. Qed.

(** With no flight open, an event adds no flight interval, and leaves
    the slot empty unless it is a takeoff. *)
Lemma scanEvent_no_flight_open (st : Scan) (e : FlightEvent.t) :
  currentFlight st = None ->
  filter isFlightArea (areas (scanEvent tz st e)) = filter isFlightArea (areas st) /\
  flightCount (scanEvent tz st e) = flightCount st /\
  (names e "takeoff" = false -> currentFlight (scanEvent tz st e) = None) /\
  (names e "transit end" = false -> areas (scanEvent tz st e) = areas st).
Proof.
  intros Hf. unfold scanEvent, names. rewrite Hf.
  destruct (JS.includes (JS.toLowerCase (FlightEvent.event e)) "takeoff");
  destruct (JS.includes (JS.toLowerCase (FlightEvent.event e)) "landing");
  destruct (JS.includes (JS.toLowerCase (FlightEvent.event e)) "transit start");
  destruct (JS.includes (JS.toLowerCase (FlightEvent.event e)) "transit end");
  destruct (currentTransit st); simpl;
    rewrite ?filter_snoc, ?app_nil_r; simpl; rewrite ?app_nil_r;
    repeat split; auto; discriminate.
Qed.

(** An event that is no landing adds no flight interval. *)
Lemma scanEvent_no_landing (st : Scan) (e : FlightEvent.t) :
  names e "landing" = false ->
  filter isFlightArea (areas (scanEvent tz st e)) = filter isFlightArea (areas st).
Proof.
  unfold scanEvent, names. intros ->.
  destruct (JS.includes (JS.toLowerCase (FlightEvent.event e)) "takeoff");
  destruct (JS.includes (JS.toLowerCase (FlightEvent.event e)) "transit start");
  destruct (JS.includes (JS.toLowerCase (FlightEvent.event e)) "transit end");
  destruct (currentFlight st); destruct (currentTransit st); simpl;
    rewrite ?filter_snoc, ?app_nil_r; simpl; rewrite ?app_nil_r; reflexivity.
Qed.

(** An event that is no transit end adds no transit interval. *)
Lemma scanEvent_no_transit_end (st : Scan) (e : FlightEvent.t) :
  names e "transit end" = false ->
  filter isTransitArea (areas (scanEvent tz st e)) = filter isTransitArea (areas st).
Proof.
  unfold scanEvent, names. intros ->.
  destruct (JS.includes (JS.toLowerCase (FlightEvent.event e)) "takeoff");
  destruct (JS.includes (JS.toLowerCase (FlightEvent.event e)) "landing");
  destruct (JS.includes (JS.toLowerCase (FlightEvent.event e)) "transit start");
  destruct (currentFlight st); destruct (currentTransit st); simpl;
    rewrite ?filter_snoc, ?app_nil_r; simpl; rewrite ?app_nil_r; reflexivity.
Qed.

Lemma scanEvents_no_takeoff (events : list FlightEvent.t) :
  forall st, currentFlight st = None ->
    (forall e, In e events -> names e "takeoff" = false) ->
    filter isFlightArea (areas (scanEvents tz events st)) =
      filter isFlightArea (areas st) /\
    currentFlight (scanEvents tz events st) = None.
Proof.
  induction events as [|e events IH]; intros st Hf Hno; simpl; [auto|].
  destruct (scanEvent_no_flight_open st e Hf) as (Ha & _ & Hc & _).
  destruct (IH (scanEvent tz st e)) as [Hx Hy].
  - apply Hc, Hno. now left.
  - intros e' He'. apply Hno. now right.
  - split; [now rewrite Hx | exact Hy].
Qed.

Lemma scanEvents_no_landing (events : list FlightEvent.t) :
  forall st, (forall e, In e events -> names e "landing" = false) ->
    filter isFlightArea (areas (scanEvents tz events st)) =
      filter isFlightArea (areas st).
Proof.
  induction events as [|e events IH]; intros st Hno; simpl; [reflexivity|].
  rewrite IH by (intros e' He'; apply Hno; now right).
  apply scanEvent_no_landing, Hno. now left.
Qed.

Lemma scanEvents_no_transit_end (events : list FlightEvent.t) :
  forall st, (forall e, In e events -> names e "transit end" = false) ->
    filter isTransitArea (areas (scanEvents tz events st)) =
      filter isTransitArea (areas st).
Proof.
  induction events as [|e events IH]; intros st Hno; simpl; [reflexivity|].
  rewrite IH by (intros e' He'; apply Hno; now right).
  apply scanEvent_no_transit_end, Hno. now left.
Qed.

(** C9: a landing met while no flight is open emits no flight interval
    and leaves the count as it is (and emits nothing at all unless its
    name also ends a transit); the scan is a total function, so nothing
    fails.  A flight left open, in whatever state the scan is, emits no
    flight interval as long as no landing follows, and a transit left
    open emits no transit interval as long as no transit end follows. *)
Theorem unmatched_events_emit_nothing (before after : list FlightEvent.t)
    (landing : FlightEvent.t) :
  let st := scanEvents tz before initialScan in
  currentFlight st = None ->
  names landing "landing" = true ->
  (filter isFlightArea (areas (scanEvent tz st landing)) = filter isFlightArea (areas st) /\
   flightCount (scanEvent tz st landing) = flightCount st /\
   (names landing "transit end" = false ->
    areas (scanEvent tz st landing) = areas st)) /\
  ((forall e, In e after -> names e "landing" = false) ->
   forall st', filter isFlightArea (areas (scanEvents tz after st')) =
               filter isFlightArea (areas st')) /\
  ((forall e, In e after -> names e "transit end" = false) ->
   forall st', filter isTransitArea (areas (scanEvents tz after st')) =
               filter isTransitArea (areas st')) /\
  ((forall e, In e (before ++ landing :: after) -> names e "takeoff" = false) ->
   filter isFlightArea (derivedAreas tz (before ++ landing :: after)) = []).
Proof.
  intros st Hf Hl.
  destruct (scanEvent_no_flight_open st landing Hf) as (Ha & Hb & _ & Hd).
  split; [auto|].
  split; [intros Hno st'; now apply scanEvents_no_landing|].
  split; [intros Hno st'; now apply scanEvents_no_transit_end|].
  intros Hno. unfold derivedAreas.
  apply scanEvents_no_takeoff; [reflexivity|].
  intros e He. apply Hno. exact (proj1 (sort_In byEventTime _ e) He).
Qed.
End Unmatched.

(** A landing with nothing before it, then a takeoff that nothing closes:
    no interval at all. *)
Lemma unmatched_events_emit_nothing_witness :
  let tz := 0 in
  let landing := Types.FlightEvent.mk "Landing (Leg 1)" 1704117600000 "UA1" in
  let after := [Types.FlightEvent.mk "Takeoff (Leg 2)" 1704124800000 "UA2";
                Types.FlightEvent.mk "Deplaning" 1704132000000 "UA2"] in
  DataVisualization.derivedAreas tz (landing :: after) = [] /\
  Vocabulary.names landing "landing" = true /\
  filter Vocabulary.isFlightArea (DataVisualization.derivedAreas tz ([] ++ [landing])) = [] /\
  filter Vocabulary.isFlightArea
    (DataVisualization.areas
       (DataVisualization.scanEvents tz after DataVisualization.initialScan)) = [].
Proof.
  intros tz landing after.
  destruct (unmatched_events_emit_nothing tz [] [] landing eq_refl eq_refl)
    as (_ & _ & _ & Hd).
  destruct (unmatched_events_emit_nothing tz [] after landing eq_refl eq_refl)
    as (_ & Hb & _ & _).
  split; [reflexivity|]. split; [reflexivity|]. split.
  - apply Hd. intros e [<-|[]]. reflexivity.
  - apply (Hb ltac:(intros e [<-|[<-|[]]]; reflexivity)
              DataVisualization.initialScan).
Defined.

Section IntervalFilter.
Import Types DataVisualization Vocabulary.

(** [find] answers the first element that passes the test. *)
Lemma find_first {A : Type} (f : A -> bool) (l : list A) (x : A) :
  find f l = Some x ->
  exists l1 l2, l = l1 ++ x :: l2 /\ f x = true /\
                forall y, In y l1 -> f y = false.
Proof.
  induction l as [|a l IH]; simpl; [discriminate|].
  destruct (f a) eqn:Ea.
  - intros [= <-]. exists [], l. repeat split; auto. intros y [].
  - intros H. destruct (IH H) as (l1 & l2 & -> & Hx & Hl1).
    exists (a :: l1), l2. repeat split; auto.
    intros y [<-|Hy]; auto.
Qed.

(** C7, as stated, fails: the filter tests the start event against the
    lower bound only and the end event against the upper bound only.
    In a UTC environment, with an arrival at 01:00 and a takeoff at
    23:00 on 1 January 2024 and the landing at 01:00 on 2 January, the
    flight interval carries the labels 23:00 and 01:00; its end label
    resolves to the arrival, the first event labelled 01:00.  With the
    window from 22:00 to 23:30 of 1 January the interval is kept,
    although the event its end label resolves to lies before the
    window. *)
Lemma interval_kept_with_end_outside_window :
  let tz := 0 in
  let arrive := FlightEvent.mk "Arrive at Airport" 1704070800000 "SFO" in
  let takeoff := FlightEvent.mk "Takeoff (Leg 1)" 1704150000000 "UA1" in
  let landing := FlightEvent.mk "Landing (Leg 1)" 1704157200000 "UA1" in
  let flightEvents := [arrive; takeoff; landing] in
  let timeRange := mkRange 1704146400000 1704151800000 in
  let area := mkArea (Date.mkLabel 23 0) (Date.mkLabel 1 0) "In Flight 1" flightFill in
  derivedAreas tz flightEvents = [area] /\
  referenceAreas tz flightEvents timeRange = [area] /\
  findByLabel tz flightEvents (x1 area) = Some takeoff /\
  findByLabel tz flightEvents (x2 area) = Some arrive /\
  withinb timeRange (FlightEvent.timestamp arrive) = false /\
  keepArea tz flightEvents timeRange area = true /\
  keepArea_by_spec tz flightEvents timeRange area = false.
Proof. repeat split; reflexivity. Qed.

Variable tz : Z.

(** C7, amended: an interval is kept for display if and only if its
    start label and its end label each resolve to an event (the first
    event of the list with that display label), the start event is not
    before the window's start and the end event is not after the
    window's end.  Whenever the resolved start event is not later than
    the resolved end event, this is the same as both events lying
    inside the window, bounds included. *)
Theorem interval_kept_by_outer_bounds (flightEvents : list FlightEvent.t)
    (timeRange : TimeRange) (area : Area) :
  (In area (referenceAreas tz flightEvents timeRange) <->
   In area (derivedAreas tz flightEvents) /\
   keepArea tz flightEvents timeRange area = true) /\
  (keepArea tz flightEvents timeRange area = true <->
   exists startEvent endEvent,
     findByLabel tz flightEvents (x1 area) = Some startEvent /\
     findByLabel tz flightEvents (x2 area) = Some endEvent /\
     start timeRange <= FlightEvent.timestamp startEvent /\
     FlightEvent.timestamp endEvent <= end_ timeRange) /\
  (forall l e, findByLabel tz flightEvents l = Some e ->
     exists l1 l2, flightEvents = l1 ++ e :: l2 /\
       timeToLabel tz (FlightEvent.timestamp e) = l /\
       forall y, In y l1 -> timeToLabel tz (FlightEvent.timestamp y) <> l) /\
  (forall startEvent endEvent,
     findByLabel tz flightEvents (x1 area) = Some startEvent ->
     findByLabel tz flightEvents (x2 area) = Some endEvent ->
     FlightEvent.timestamp startEvent <= FlightEvent.timestamp endEvent ->
     (keepArea tz flightEvents timeRange area = true <->
      within timeRange (FlightEvent.timestamp startEvent) /\
      within timeRange (FlightEvent.timestamp endEvent))).
Proof.
  assert (Hlabel : forall a b, Date.label_eqb a b = true <-> a = b).
  { intros [h1 m1] [h2 m2]. unfold Date.label_eqb. simpl.
    rewrite andb_true_iff, !Z.eqb_eq. split; [intros [-> ->]; reflexivity|].
    intros [= -> ->]. auto. }
  split; [apply filter_In|]. split.
  { unfold keepArea.
    destruct (findByLabel tz flightEvents (x1 area)) as [s|];
      [destruct (findByLabel tz flightEvents (x2 area)) as [e|]|].
    - rewrite andb_true_iff, !Z.leb_le. split.
      + intros [H1 H2]. exists s, e. auto.
      + intros (s' & e' & [= <-] & [= <-] & H1 & H2). auto.
    - split; [discriminate|]. intros (s' & e' & _ & [=] & _).
    - split; [discriminate|]. intros (s' & e' & [=] & _). }
  split.
  { intros l e Hfind. unfold findByLabel in Hfind.
    destruct (find_first _ _ _ Hfind) as (l1 & l2 & -> & Hx & Hl1).
    exists l1, l2. split; [reflexivity|]. split; [now apply Hlabel|].
    intros y Hy Heq. apply Hl1 in Hy. apply Hlabel in Heq. congruence. }
  intros s e Hs He Hle. unfold keepArea, within. rewrite Hs, He.
  rewrite andb_true_iff, !Z.leb_le. lia.
Qed.
End IntervalFilter.

(** One leg inside the seeded window of three hours on either side. *)
Lemma interval_kept_by_outer_bounds_witness :
  let tz := 0 in
  let takeoff := Types.FlightEvent.mk "Takeoff (Leg 1)" 1704103200000 "UA1" in
  let landing := Types.FlightEvent.mk "Landing (Leg 1)" 1704117600000 "UA1" in
  let flightEvents := [takeoff; landing] in
  let timeRange := DataVisualization.mkRange 1704092400000 1704128400000 in
  let area := DataVisualization.mkArea (Date.mkLabel 10 0) (Date.mkLabel 14 0)
                "In Flight 1" DataVisualization.flightFill in
  Types.FlightEvent.timestamp takeoff <= Types.FlightEvent.timestamp landing /\
  In area (DataVisualization.referenceAreas tz flightEvents timeRange) /\
  Vocabulary.within timeRange (Types.FlightEvent.timestamp takeoff) /\
  Vocabulary.within timeRange (Types.FlightEvent.timestamp landing).
Proof.
  intros tz takeoff landing flightEvents timeRange area.
  destruct (interval_kept_by_outer_bounds tz flightEvents timeRange area)
    as (Hin & _ & _ & Hwithin).
  assert (Hle : Types.FlightEvent.timestamp takeoff <= Types.FlightEvent.timestamp landing)
    by (simpl; lia).
  split; [exact Hle|].
  split; [apply Hin; split; [left|]; reflexivity|].
  apply (Hwithin takeoff landing eq_refl eq_refl Hle). reflexivity.
Defined.

(* ================================================================== *)
(** * The Chart Series Builder: per-minute buckets                     *)
(* ================================================================== *)

Section MapFacts.
Import Types DataVisualization.

Lemma has_In (m : Map.t) (k : Z) : Map.has m k = true <-> In k (map fst m).
Proof.
  unfold Map.has. rewrite existsb_exists, in_map_iff. split.
  - intros (kv & Hin & Hk). apply Z.eqb_eq in Hk. eauto.
  - intros (kv & Hk & Hin). exists kv. split; [exact Hin | now apply Z.eqb_eq].
Qed.

Lemma has_not_In (m : Map.t) (k : Z) : Map.has m k = false <-> ~ In k (map fst m).
Proof.
  rewrite <- has_In. destruct (Map.has m k); split; congruence.
Qed.

Lemma alter_keys (f : ChartDataPoint.t Z -> ChartDataPoint.t Z) (m : Map.t) (k : Z) :
  map fst (Map.alter f m k) = map fst m.
Proof.
  induction m as [|[k' v] m IH]; simpl; [reflexivity|].
  destruct (k' =? k); simpl; [reflexivity | now rewrite IH].
Qed.

Lemma alter_app_new (f : ChartDataPoint.t Z -> ChartDataPoint.t Z) (m : Map.t)
    (k : Z) (v : ChartDataPoint.t Z) :
  ~ In k (map fst m) -> Map.alter f (m ++ [(k, v)]) k = m ++ [(k, f v)].
Proof.
  induction m as [|[k' v'] m IH]; simpl; intros Hk.
  - now rewrite Z.eqb_refl.
  - destruct (k' =? k) eqn:E.
    + apply Z.eqb_eq in E. tauto.
    + rewrite IH; tauto.
Qed.

(** With distinct keys, [alter] touches the one entry under [k]. *)
Lemma In_alter (f : ChartDataPoint.t Z -> ChartDataPoint.t Z) (m : Map.t) (k : Z) :
  NoDup (map fst m) ->
  forall k' v', In (k', v') (Map.alter f m k) ->
    (k' <> k /\ In (k', v') m) \/
    (k' = k /\ exists v, In (k, v) m /\ v' = f v).
Proof.
  induction m as [|[k0 v0] m IH]; simpl; intros Hnd k' v' Hin; [contradiction|].
  apply NoDup_cons_iff in Hnd. destruct Hnd as [Hk0 Hnd].
  destruct (k0 =? k) eqn:E.
  - apply Z.eqb_eq in E. subst k0. destruct Hin as [[= <- <-]|Hin].
    + right. split; [reflexivity|]. exists v0. auto.
    + left. split; [|now right]. intros ->. apply Hk0.
      apply in_map_iff. exists (k, v'). auto.
  - apply Z.eqb_neq in E. destruct Hin as [[= <- <-]|Hin].
    + left. auto.
    + destruct (IH Hnd _ _ Hin) as [[? ?]|[? (v & ? & ?)]]; [left; auto|].
      right. split; [assumption|]. exists v. auto.
Qed.
End MapFacts.

Section Buckets.
Import Types DataVisualization Vocabulary.
Variable tz : Z.

Let key (p : HealthDataPoint.t Z) : Z := minuteKey tz (HealthDataPoint.timestamp p).

(** The two ways a sample enters the map. *)
Lemma addPoint_cases (m : Map.t) (p : HealthDataPoint.t Z) :
  (In (key p) (map fst m) /\
   addPoint tz m p =
     Map.alter (fun existingPoint =>
                  ChartDataPoint.mk (ChartDataPoint.time existingPoint)
                                    (Some (HealthDataPoint.value p)))
               m (key p)) \/
  (~ In (key p) (map fst m) /\
   addPoint tz m p =
     m ++ [(key p, ChartDataPoint.mk (key p) (Some (HealthDataPoint.value p)))]).
Proof.
  unfold addPoint. fold (key p).
  destruct (HealthDataPoint.type p).
  destruct (Map.has m (key p)) eqn:E; simpl.
  - left. split; [now apply has_In | reflexivity].
  - right. apply has_not_In in E. split; [exact E|].
    unfold Map.set. rewrite (proj2 (has_not_In m (key p)) E).
    now rewrite alter_app_new.
Qed.

Lemma dataMap_snoc (l : list (HealthDataPoint.t Z)) (p : HealthDataPoint.t Z) :
  dataMap tz (l ++ [p]) = addPoint tz (dataMap tz l) p.
Proof. unfold dataMap. now rewrite fold_left_app. Qed.

(** What the map holds once the samples [l] went in. *)
Lemma dataMap_invariant (l : list (HealthDataPoint.t Z)) :
  NoDup (map fst (dataMap tz l)) /\
  (forall k v, In (k, v) (dataMap tz l) ->
     ChartDataPoint.time v = k /\
     exists l1 p l2, l = l1 ++ p :: l2 /\ key p = k /\
       ChartDataPoint.stress v = Some (HealthDataPoint.value p) /\
       forall q, In q l2 -> key q <> k) /\
  (forall p, In p l -> In (key p) (map fst (dataMap tz l))).
Proof.
  induction l as [|p l IH] using rev_ind.
  - split; [constructor|]. split; intros; contradiction.
  - destruct IH as (Hnd & Hent & Hcov). rewrite dataMap_snoc.
    assert (Hold : forall k v, In (k, v) (dataMap tz l) -> k <> key p ->
              ChartDataPoint.time v = k /\
              exists l1 p0 l2, l ++ [p] = l1 ++ p0 :: l2 /\ key p0 = k /\
                ChartDataPoint.stress v = Some (HealthDataPoint.value p0) /\
                forall q, In q l2 -> key q <> k).
    { intros k v Hin Hne.
      destruct (Hent _ _ Hin) as (Ht & l1 & p0 & l2 & -> & Hk & Hs & Hl2).
      split; [exact Ht|]. exists l1, p0, (l2 ++ [p]).
      rewrite <- app_assoc. split; [reflexivity|]. split; [exact Hk|].
      split; [exact Hs|]. intros q Hq. apply in_app_or in Hq.
      destruct Hq as [Hq|[<-|[]]]; auto. }
    destruct (addPoint_cases (dataMap tz l) p) as [[Hin ->]|[Hnin ->]].
    + rewrite alter_keys. split; [exact Hnd|]. split.
      * intros k v Hkv.
        destruct (In_alter _ _ _ Hnd _ _ Hkv) as [[Hne Hm]|[-> (v0 & Hm & ->)]].
        -- now apply Hold.
        -- simpl. split; [apply (Hent _ _ Hm)|].
           exists l, p, []. repeat split; auto; intros q [].
      * intros q Hq. apply in_app_or in Hq.
        destruct Hq as [Hq|[<-|[]]]; auto.
    + rewrite map_app. simpl. split.
      * apply (Permutation_NoDup (Permutation_cons_append _ _)).
        now constructor.
      * split.
        -- intros k v Hkv. apply in_app_or in Hkv.
           destruct Hkv as [Hm|[[= <- <-]|[]]].
           ++ apply Hold; [exact Hm|]. intros ->. apply Hnin.
              apply in_map_iff. exists (key p, v). auto.
           ++ simpl. split; [reflexivity|].
              exists l, p, []. repeat split; auto; intros q [].
        -- intros q Hq. apply in_or_app. apply in_app_or in Hq.
           destruct Hq as [Hq|[<-|[]]]; [left; auto | right; now left].
Qed.

Lemma byTime_key (a b : ChartDataPoint.t Z) :
  byTime a b = JS.Num (ChartDataPoint.time a - ChartDataPoint.time b).
Proof. reflexivity. Qed.

Lemma sorted_distinct_strict {A : Type} (f : A -> Z) (l : list A) :
  StronglySorted (fun a b => f a <= f b) l -> NoDup (map f l) ->
  StronglySorted (fun a b => f a < f b) l.
Proof.
  induction 1 as [|a l Hs IH Hall]; simpl; intros Hnd; [constructor|].
  apply NoDup_cons_iff in Hnd. destruct Hnd as [Ha Hnd].
  constructor; [now apply IH|].
  rewrite Forall_forall in *. intros b Hb.
  assert (f a <> f b) by (intros E; apply Ha; rewrite E; now apply in_map).
  specialize (Hall b Hb). simpl in Hall. lia.
Qed.

Lemma sorted_filter {A : Type} (R : A -> A -> Prop) (f : A -> bool) (l : list A) :
  StronglySorted R l -> StronglySorted R (filter f l).
Proof.
  induction 1 as [|a l Hs IH Hall]; simpl; [constructor|].
  destruct (f a); [|exact IH]. constructor; [exact IH|].
  rewrite Forall_forall in *. intros b Hb. apply Hall.
  now apply filter_In in Hb.
Qed.

Lemma sorted_before {A : Type} (R : A -> A -> Prop) (l1 l2 : list A) (p : A) :
  StronglySorted R (l1 ++ p :: l2) -> forall q, In q l1 -> R q p.
Proof.
  induction l1 as [|a l1 IH]; simpl; intros Hs q Hq; [contradiction|].
  apply StronglySorted_inv in Hs. destruct Hs as [Hs Hall].
  destruct Hq as [<-|Hq]; [|now apply IH].
  rewrite Forall_forall in Hall. apply Hall, in_elt.
Qed.

(** The key of a sample is the start of its local minute. *)
Lemma minuteKey_minute (t : Z) :
  minuteKey tz t =
    Date.UTC tz (Date.LocalTime tz t / Date.msPerMinute * Date.msPerMinute).
Proof.
  unfold minuteKey, Date.ofLocal, Date.localDay, Date.getHours, Date.getMinutes,
    Date.MakeDate, Date.MakeTime, Date.Day, Date.HourFromTime, Date.MinFromTime.
  f_equal. set (lt := Date.LocalTime tz t).
  unfold Date.msPerDay, Date.msPerHour, Date.msPerMinute, Date.msPerSecond.
  replace 86400000 with (60000 * 1440) by reflexivity.
  replace 3600000 with (60000 * 60) at 1 by reflexivity.
  rewrite <- !Z.div_div by lia.
  set (m := lt / 60000).
  replace 1440 with (60 * 24) by reflexivity.
  rewrite <- (Z.div_div m 60 24) by lia.
  pose proof (Z.div_mod m 60 ltac:(lia)).
  pose proof (Z.div_mod (m / 60) 24 ltac:(lia)).
  lia.
Qed.
End Buckets.

Section BucketClaim.
Import Types DataVisualization Vocabulary.
Variable tz : Z.

(** C5: the bucketed series is a function of the visible window and of
    the samples, so deriving it again from the same inputs gives the
    same buckets with the same values.  Before the keys become labels,
    the buckets are in strictly ascending order of their minute (one
    bucket for each minute); every local minute that holds a filtered
    sample has its bucket; the stress of a bucket is the value of the
    last sample of that minute in the order of the samples; and when
    the samples are in chronological order, no sample of that minute is
    later than the one whose value the bucket shows. *)
Theorem chart_buckets_last_write_wins (timeRange : TimeRange)
    (healthData : list (HealthDataPoint.t Z)) :
  let filtered := filteredHealthData timeRange healthData in
  let buckets := sortedData tz filtered in
  StronglySorted (fun a b => ChartDataPoint.time a < ChartDataPoint.time b) buckets /\
  (forall p, In p filtered ->
     exists b, In b buckets /\
       ChartDataPoint.time b = minuteKey tz (HealthDataPoint.timestamp p)) /\
  (forall b, In b buckets ->
     exists l1 p l2, filtered = l1 ++ p :: l2 /\
       minuteKey tz (HealthDataPoint.timestamp p) = ChartDataPoint.time b /\
       ChartDataPoint.stress b = Some (HealthDataPoint.value p) /\
       forall q, In q l2 ->
         minuteKey tz (HealthDataPoint.timestamp q) <> ChartDataPoint.time b) /\
  (forall t, minuteKey tz t =
     Date.UTC tz (Date.LocalTime tz t / Date.msPerMinute * Date.msPerMinute)) /\
  chartData tz filtered =
    map (fun d => ChartDataPoint.mk (timeToLabel tz (ChartDataPoint.time d))
                                    (ChartDataPoint.stress d)) buckets /\
  (chronological healthData ->
   forall b, In b buckets ->
     exists p, In p filtered /\
       minuteKey tz (HealthDataPoint.timestamp p) = ChartDataPoint.time b /\
       ChartDataPoint.stress b = Some (HealthDataPoint.value p) /\
       forall q, In q filtered ->
         minuteKey tz (HealthDataPoint.timestamp q) = ChartDataPoint.time b ->
         HealthDataPoint.timestamp q <= HealthDataPoint.timestamp p).
Proof.
  intros filtered buckets.
  destruct (dataMap_invariant tz filtered) as (Hnd & Hent & Hcov).
  assert (Hval : forall b, In b buckets <->
                   exists k, In (k, b) (dataMap tz filtered)).
  { intros b. unfold buckets, sortedData. rewrite sort_In.
    unfold Map.values. rewrite in_map_iff. split.
    - intros ([k v] & <- & Hin). now exists k.
    - intros (k & Hin). now exists (k, b). }
  assert (Hlast : forall b, In b buckets ->
     exists l1 p l2, filtered = l1 ++ p :: l2 /\
       minuteKey tz (HealthDataPoint.timestamp p) = ChartDataPoint.time b /\
       ChartDataPoint.stress b = Some (HealthDataPoint.value p) /\
       forall q, In q l2 ->
         minuteKey tz (HealthDataPoint.timestamp q) <> ChartDataPoint.time b).
  { intros b Hb. apply Hval in Hb. destruct Hb as (k & Hin).
    destruct (Hent _ _ Hin) as (-> & l1 & p & l2 & Hl & Hk & Hs & Hl2).
    exists l1, p, l2. auto. }
  split.
  { apply sorted_distinct_strict.
    - apply sort_sorted. intros; apply byTime_key.
    - unfold buckets, sortedData.
      apply (Permutation_NoDup
               (Permutation_map _ (Permutation_sym (sort_perm byTime _)))).
      unfold Map.values. rewrite map_map.
      rewrite (map_ext_in _ fst); [exact Hnd|].
      intros [k v] Hin. simpl. apply (Hent _ _ Hin). }
  split.
  { intros p Hp. apply Hcov in Hp. apply in_map_iff in Hp.
    destruct Hp as ([k v] & Hk & Hin). simpl in Hk. subst k.
    exists v. split; [apply Hval; eauto | apply (Hent _ _ Hin)]. }
  split; [exact Hlast|].
  split; [apply minuteKey_minute|].
  split; [reflexivity|].
  intros Hchron b Hb.
  destruct (Hlast b Hb) as (l1 & p & l2 & Hl & Hk & Hs & Hl2).
  exists p. split; [rewrite Hl; apply in_elt|].
  split; [exact Hk|]. split; [exact Hs|].
  intros q Hq Hqk.
  assert (Hsorted : chronological filtered).
  { unfold filtered, filteredHealthData.
    destruct (not_ (start timeRange) || not_ (end_ timeRange))%bool;
      [exact Hchron | now apply sorted_filter]. }
  rewrite Hl in Hq, Hsorted. apply in_app_or in Hq.
  destruct Hq as [Hq|[<-|Hq]].
  - exact (sorted_before _ _ _ _ Hsorted q Hq).
  - lia.
  - exfalso. exact (Hl2 q Hq Hqk).
Qed.
End BucketClaim.

(** Four samples in order, the first before the window, two in the minute
    13:00 and one in 13:01, one hour east of UTC. *)
Lemma chart_buckets_last_write_wins_witness :
  let tz := 3600000 in
  let timeRange := DataVisualization.mkRange 1704100000000 1704120000000 in
  let healthData :=
    [Types.HealthDataPoint.mk 1704099000000 11 Types.stress;
     Types.HealthDataPoint.mk 1704110405000 60 Types.stress;
     Types.HealthDataPoint.mk 1704110430000 85 Types.stress;
     Types.HealthDataPoint.mk 1704110465000 70 Types.stress] in
  Vocabulary.chronological healthData /\
  DataVisualization.sortedData tz
    (DataVisualization.filteredHealthData timeRange healthData) =
    [Types.ChartDataPoint.mk 1704110400000 (Some 85);
     Types.ChartDataPoint.mk 1704110460000 (Some 70)] /\
  DataVisualization.chartData tz
    (DataVisualization.filteredHealthData timeRange healthData) =
    [Types.ChartDataPoint.mk (Date.mkLabel 13 0) (Some 85);
     Types.ChartDataPoint.mk (Date.mkLabel 13 1) (Some 70)] /\
  forall b,
    In b (DataVisualization.sortedData tz
            (DataVisualization.filteredHealthData timeRange healthData)) ->
    exists p,
      In p (DataVisualization.filteredHealthData timeRange healthData) /\
      DataVisualization.minuteKey tz (Types.HealthDataPoint.timestamp p) =
        Types.ChartDataPoint.time b /\
      Types.ChartDataPoint.stress b = Some (Types.HealthDataPoint.value p) /\
      forall q,
        In q (DataVisualization.filteredHealthData timeRange healthData) ->
        DataVisualization.minuteKey tz (Types.HealthDataPoint.timestamp q) =
          Types.ChartDataPoint.time b ->
        Types.HealthDataPoint.timestamp q <= Types.HealthDataPoint.timestamp p.
Proof.
  intros tz timeRange healthData.
  assert (Hchron : Vocabulary.chronological healthData).
  { unfold Vocabulary.chronological, healthData.
    repeat constructor; simpl; lia. }
  split; [exact Hchron|]. split; [reflexivity|]. split; [reflexivity|].
  exact (proj2 (proj2 (proj2 (proj2 (proj2
           (chart_buckets_last_write_wins tz timeRange healthData))))) Hchron).
Defined.

(* ================================================================== *)
(** * Further properties of the extractor                              *)
(* ================================================================== *)

Section ExtractorMore.
Import Types SamsungHealthService Vocabulary.

Lemma filesToProcess_app (a b : list ZipEntry) :
  filesToProcess (a ++ b) = filesToProcess a ++ filesToProcess b.
Proof. unfold filesToProcess. apply flat_map_app. Qed.

Lemma filesToProcess_unqualified (entry : ZipEntry) :
  qualifies entry = false -> filesToProcess [entry] = [].
Proof.
  unfold qualifies, filesToProcess. simpl.
  destruct (JS.endsWith (name entry) ".binning_data.json"); [|reflexivity].
  destruct (JS.includes (name entry) "com.samsung.shealth.stress");
    [discriminate | reflexivity].
Qed.

Lemma processFile_warnings_grow (st : State) (file : ZipEntry * SampleType) :
  warnings (processFile st file) = warnings st \/
  warnings (processFile st file) = warnings st ++ [name (fst file)].
Proof.
  destruct file as [entry ty]. unfold processFile, warn. simpl.
  destruct (parsed entry) as [data|]; [|now right].
  destruct (dataPoints data) as [container|]; [|now right].
  destruct (JS.iterate container) as [points|]; [|now right].
  destruct (forPoints ty points (healthData st)) as [pushed [|]]; [now right | now left].
Qed.

Lemma processFiles_warnings_length (files : list (ZipEntry * SampleType)) :
  forall st,
    (List.length (warnings (processFiles files st))
     <= List.length (warnings st) + List.length files)%nat.
Proof.
  induction files as [|file files IH]; intros st; simpl; [lia|].
  specialize (IH (processFile st file)).
  destruct (processFile_warnings_grow st file) as [E|E]; rewrite E in IH;
    [|rewrite length_app in IH; simpl in IH]; lia.
Qed.

(** X1: only the first 500 qualifying members are read.  Once an archive
    holds that many, whatever members follow change neither the samples
    nor the warnings; and no extraction logs more than 500 warnings. *)
Theorem members_beyond_cap_ignored (zip extra : list ZipEntry) :
  (MAX_FILES_TO_PROCESS <= List.length (filesToProcess zip))%nat ->
  parseSamsungHealthZip (zip ++ extra) = parseSamsungHealthZip zip /\
  (List.length (snd (parseSamsungHealthZip (zip ++ extra))) <= MAX_FILES_TO_PROCESS)%nat.
Proof.
  intros Hfull.
  assert (Hsame : firstn MAX_FILES_TO_PROCESS (filesToProcess (zip ++ extra)) =
                  firstn MAX_FILES_TO_PROCESS (filesToProcess zip)).
  { rewrite filesToProcess_app, firstn_app.
    replace (MAX_FILES_TO_PROCESS - List.length (filesToProcess zip))%nat with 0%nat by lia.
    rewrite firstn_O. apply app_nil_r. }
  unfold parseSamsungHealthZip. rewrite Hsame. split; [reflexivity|].
  cbn [snd].
  pose proof (processFiles_warnings_length
                (firstn MAX_FILES_TO_PROCESS (filesToProcess zip)) (mkState [] [])) as Hw.
  pose proof (firstn_le_length MAX_FILES_TO_PROCESS (filesToProcess zip)) as Hl.
  cbn [warnings List.length] in Hw. lia.
Qed.

(** Five hundred sound members, then a broken one and one more sample. *)
Lemma members_beyond_cap_ignored_witness :
  let zip := repeat (mkEntry ex_path (Some (JS.JArr [reading (JS.JNum 85) 1700000000000])))
                    500 in
  let extra := [mkEntry ex_path None;
                mkEntry ex_path (Some (JS.JArr [reading (JS.JNum 99) 1600000000000]))] in
  (MAX_FILES_TO_PROCESS <= List.length (filesToProcess zip))%nat /\
  parseSamsungHealthZip (zip ++ extra) = parseSamsungHealthZip zip /\
  snd (parseSamsungHealthZip (zip ++ extra)) = [].
Proof.
  intros zip extra.
  assert (H : (MAX_FILES_TO_PROCESS <= List.length (filesToProcess zip))%nat)
    by (apply Nat.leb_le; vm_compute; reflexivity).
  split; [exact H|].
  split; [exact (proj1 (members_beyond_cap_ignored zip extra H))|].
  vm_compute. reflexivity.
Defined.

(** X2: a member whose path does not end in [.binning_data.json] or does
    not hold [com.samsung.shealth.stress] is never read: removing it from
    the archive changes neither the samples nor the warnings, whatever it
    contains. *)
Theorem unqualified_member_ignored (before after : list ZipEntry) (entry : ZipEntry) :
  qualifies entry = false ->
  parseSamsungHealthZip (before ++ entry :: after) = parseSamsungHealthZip (before ++ after).
Proof.
  intros Hq. unfold parseSamsungHealthZip.
  replace (before ++ entry :: after) with (before ++ [entry] ++ after) by reflexivity.
  rewrite !filesToProcess_app, (filesToProcess_unqualified entry Hq). reflexivity.
Qed.

(** A heart-rate file that is no JSON, between two stress files. *)
Lemma unqualified_member_ignored_witness :
  let a := mkEntry ex_path (Some (JS.JArr [reading (JS.JNum 85) 1700000000000])) in
  let other := mkEntry "com.samsung.shealth.tracker.heart_rate/h.binning_data.json" None in
  let b := mkEntry "com.samsung.shealth.stress/b.binning_data.json"
             (Some (JS.JArr [reading (JS.JNum 20) 1600000000000])) in
  qualifies other = false /\
  parseSamsungHealthZip ([a] ++ other :: [b]) = parseSamsungHealthZip ([a] ++ [b]).
Proof.
  intros a other b.
  assert (H : qualifies other = false) by reflexivity.
  split; [exact H|]. exact (unqualified_member_ignored [a] [b] other H).
Defined.

Lemma forPoints_no_null (ty : SampleType) (points : list JS.value) :
  Forall (fun point => point <> JS.JNull) points ->
  forall pushed, snd (forPoints ty points pushed) = false.
Proof.
  induction 1 as [|point rest Hp Hrest IH]; intros pushed; simpl; [reflexivity|].
  destruct ty.
  destruct point; try congruence; simpl; try apply IH.
  destruct (JS.lookup_member "score" members), (JS.lookup_member "end_time" members);
    apply IH.
Qed.

Lemma forPoints_app (ty : SampleType) (a b : list JS.value) :
  forall pushed,
    forPoints ty (a ++ b) pushed =
      if snd (forPoints ty a pushed) then forPoints ty a pushed
      else forPoints ty b (fst (forPoints ty a pushed)).
Proof.
  induction a as [|point rest IH]; intros pushed; simpl; [reflexivity|].
  destruct (JS.get point "end_time") as [timestamp|]; [|reflexivity].
  destruct ty.
  destruct (JS.get point "score") as [value|]; [|reflexivity].
  destruct value, timestamp; apply IH.
Qed.

(** X3: a null among the records of a member stops that member: the
    records before it are kept, those after it are never read, and the
    member is warned about. *)
Theorem null_record_cuts_member (st : State) (entry : ZipEntry)
    (before after : list JS.value) :
  parsed entry = Some (JS.JArr (before ++ JS.JNull :: after)) ->
  Forall (fun point => point <> JS.JNull) before ->
  processFile st (entry, stress) =
    mkState (healthData st ++ contributes (JS.JArr before))
            (warnings st ++ [name entry]).
Proof.
  intros Hparsed Hbefore. unfold processFile, warn, contributes.
  rewrite Hparsed. simpl.
  rewrite forPoints_app, (forPoints_no_null stress before Hbefore). simpl.
  now rewrite (forPoints_acc stress before (healthData st)).
Qed.

Lemma null_record_cuts_member_witness :
  let entry := mkEntry ex_path
                 (Some (JS.JArr ([reading (JS.JNum 85) 1700000000000] ++
                                 JS.JNull :: [reading (JS.JNum 90) 1700000060000]))) in
  processFile (mkState [] []) (entry, stress) =
    mkState [HealthDataPoint.mk (JS.JNum 1700000000000) (JS.JNum 85) stress] [ex_path].
Proof.
  intros entry.
  exact (null_record_cuts_member (mkState [] []) entry
           [reading (JS.JNum 85) 1700000000000] [reading (JS.JNum 90) 1700000060000]
           eq_refl ltac:(repeat constructor; discriminate)).
Defined.

Lemma processFiles_contributions (files : list (ZipEntry * SampleType)) :
  forall st,
    healthData (processFiles files st) = healthData st ++ flat_map contribution files.
Proof.
  induction files as [|[entry []] files IH]; intros st.
  - simpl. now rewrite app_nil_r.
  - cbn [processFiles fold_left flat_map]. fold (processFiles files).
    rewrite IH, app_assoc. f_equal.
    unfold contribution. cbn [fst].
    destruct (parsed entry) as [data|] eqn:E.
    + exact (processFile_contributes st entry data E).
    + unfold processFile. rewrite E. simpl. now rewrite app_nil_r.
Qed.

(** X4: sorting loses and invents nothing: the output holds exactly the
    samples the processed members contribute, each as often as it was
    pushed. *)
Theorem output_is_all_contributions (zip : list ZipEntry) :
  Permutation (fst (parseSamsungHealthZip zip))
    (flat_map contribution (firstn MAX_FILES_TO_PROCESS (filesToProcess zip))) /\
  List.length (fst (parseSamsungHealthZip zip)) =
    List.length (flat_map contribution (firstn MAX_FILES_TO_PROCESS (filesToProcess zip))).
Proof.
  assert (H : Permutation (fst (parseSamsungHealthZip zip))
    (flat_map contribution (firstn MAX_FILES_TO_PROCESS (filesToProcess zip)))).
  { unfold parseSamsungHealthZip. cbn [fst].
    rewrite sort_perm, processFiles_contributions. reflexivity. }
  split; [exact H | now apply Permutation_length].
Qed.
End ExtractorMore.

Section SortStable.
Context {A : Type} (comparefn : A -> A -> JS.number) (key : A -> Z).

(** An element is never moved past one of the same key. *)
Lemma sort_insert_stable (k : Z) (x : A) (l : list A) :
  (forall y, In y l -> comparefn x y = JS.Num (key x - key y)) ->
  filter (fun a => key a =? k) (JS.sort_insert comparefn x l) =
  filter (fun a => key a =? k) (x :: l).
Proof.
  induction l as [|y l IH]; intros Hc; [reflexivity|].
  cbn [JS.sort_insert]. unfold JS.goes_after. rewrite (Hc y (in_eq y l)).
  destruct (0 <? key x - key y) eqn:E; [|reflexivity].
  apply Z.ltb_lt in E. cbn [filter].
  rewrite IH by (intros z Hz; apply Hc; now right). cbn [filter].
  destruct (key y =? k) eqn:Ey, (key x =? k) eqn:Ex; try reflexivity.
  apply Z.eqb_eq in Ey, Ex. lia.
Qed.

Lemma sort_stable (k : Z) (l : list A) :
  (forall x y, In x l -> In y l -> comparefn x y = JS.Num (key x - key y)) ->
  filter (fun a => key a =? k) (JS.sort comparefn l) =
  filter (fun a => key a =? k) l.
Proof.
  induction l as [|x l IH]; intros Hc; [reflexivity|].
  cbn [JS.sort fold_right]. fold (JS.sort comparefn l).
  rewrite sort_insert_stable.
  - cbn [filter]. rewrite IH by (intros a b Ha Hb; apply Hc; now right).
    reflexivity.
  - intros y Hy. apply Hc; [now left | right; now apply (sort_In comparefn)].
Qed.
End SortStable.

Section ExtractorOrder.
Import Types SamsungHealthService Vocabulary.

(** X5: the sort is stable on the samples: when all timestamps are
    numbers, the samples of one timestamp come out in the order in which
    the archive gave them (member after member, record after record). *)
Theorem equal_timestamps_keep_archive_order (zip : list ZipEntry) (t : Z) :
  (forall p, In p (fst (parseSamsungHealthZip zip)) ->
     numeric (HealthDataPoint.timestamp p) = true) ->
  filter (timestamp_is t) (fst (parseSamsungHealthZip zip)) =
  filter (timestamp_is t)
    (flat_map contribution (firstn MAX_FILES_TO_PROCESS (filesToProcess zip))).
Proof.
  unfold parseSamsungHealthZip. cbn [fst]. rewrite processFiles_contributions.
  cbn [healthData app]. intros Hnum.
  set (pushed := flat_map contribution _) in *.
  set (key := fun s : Sample =>
                match HealthDataPoint.timestamp s with
                | JS.JNum z => z
                | _ => 0
                end).
  assert (Hpushed : forall p, In p pushed ->
                      numeric (HealthDataPoint.timestamp p) = true).
  { intros p Hp. apply Hnum. now apply sort_In. }
  assert (Hext : forall l, (forall p, In p l -> numeric (HealthDataPoint.timestamp p) = true) ->
                   filter (timestamp_is t) l = filter (fun a => key a =? t) l).
  { intros l Hl. apply filter_ext_in. intros p Hp. specialize (Hl p Hp).
    unfold timestamp_is, key, numeric in *.
    destruct (HealthDataPoint.timestamp p); try discriminate. reflexivity. }
  rewrite (Hext _ Hnum), (Hext _ Hpushed).
  apply sort_stable. intros x y Hx Hy.
  apply Hpushed in Hx, Hy. unfold byTimestamp, JS.minus, key, numeric in *.
  destruct (HealthDataPoint.timestamp x); try discriminate.
  destruct (HealthDataPoint.timestamp y); try discriminate. reflexivity.
Qed.

(** Two members that both hold a sample at the same instant. *)
Lemma equal_timestamps_keep_archive_order_witness :
  let zip :=
    [mkEntry ex_path (Some (JS.JArr [reading (JS.JNum 85) 1700000300000;
                                     reading (JS.JNum 40) 1700000100000]));
     mkEntry "com.samsung.shealth.stress/y.binning_data.json"
             (Some (JS.JArr [reading (JS.JNum 91) 1700000300000]))] in
  (forall p, In p (fst (parseSamsungHealthZip zip)) ->
     numeric (HealthDataPoint.timestamp p) = true) /\
  filter (timestamp_is 1700000300000) (fst (parseSamsungHealthZip zip)) =
    [HealthDataPoint.mk (JS.JNum 1700000300000) (JS.JNum 85) stress;
     HealthDataPoint.mk (JS.JNum 1700000300000) (JS.JNum 91) stress].
Proof.
  intros zip.
  assert (Hnum : forall p, In p (fst (parseSamsungHealthZip zip)) ->
                   numeric (HealthDataPoint.timestamp p) = true).
  { intros p Hp. vm_compute in Hp.
    destruct Hp as [<-|[<-|[<-|[]]]]; reflexivity. }
  split; [exact Hnum|].
  rewrite (equal_timestamps_keep_archive_order zip 1700000300000 Hnum).
  reflexivity.
Defined.

Lemma processFile_sound (st : State) (entry : ZipEntry) (ty : SampleType) :
  sound_member entry -> warnings (processFile st (entry, ty)) = warnings st.
Proof.
  intros (items & Hparsed & Hitems). unfold processFile. rewrite Hparsed. simpl.
  pose proof (forPoints_no_null ty items Hitems (healthData st)) as Hno.
  destruct (forPoints ty items (healthData st)) as [pushed threw].
  simpl in Hno. subst threw. reflexivity.
Qed.

Lemma processFiles_warning_origin (files : list (ZipEntry * SampleType)) (w : string) :
  forall st, In w (warnings (processFiles files st)) ->
    In w (warnings st) \/
    exists entry, In (entry, stress) files /\ name entry = w /\ ~ sound_member entry.
Proof.
  induction files as [|[entry []] files IH]; intros st Hw; [now left|].
  cbn [processFiles fold_left] in Hw. fold (processFiles files) in Hw.
  destruct (IH _ Hw) as [Hin|(e & He & Hn & Hs)].
  - destruct (processFile_warnings_grow st (entry, stress)) as [E|E];
      rewrite E in Hin; [now left|].
    apply in_app_or in Hin. destruct Hin as [Hin|[<-|[]]]; [now left|].
    right. exists entry. split; [now left|]. split; [reflexivity|].
    intros Hsound. rewrite (processFile_sound st entry stress Hsound) in E.
    apply (f_equal (@List.length string)) in E. rewrite length_app in E.
    simpl in E. lia.
  - right. exists e. split; [now right | auto].
Qed.

(** X6: every warning names a processed member that is not an array of
    non-null records; an archive whose processed members all are such
    arrays is extracted without any warning. *)
Theorem warnings_name_unsound_members (zip : list ZipEntry) :
  (forall w, In w (snd (parseSamsungHealthZip zip)) ->
     exists entry,
       In (entry, stress) (firstn MAX_FILES_TO_PROCESS (filesToProcess zip)) /\
       name entry = w /\ ~ sound_member entry) /\
  ((forall entry, In (entry, stress) (firstn MAX_FILES_TO_PROCESS (filesToProcess zip)) ->
      sound_member entry) ->
   snd (parseSamsungHealthZip zip) = []).
Proof.
  assert (H : forall w, In w (snd (parseSamsungHealthZip zip)) ->
     exists entry,
       In (entry, stress) (firstn MAX_FILES_TO_PROCESS (filesToProcess zip)) /\
       name entry = w /\ ~ sound_member entry).
  { intros w Hw. unfold parseSamsungHealthZip in Hw. cbn [snd] in Hw.
    destruct (processFiles_warning_origin _ _ _ Hw) as [[]|He]. exact He. }
  split; [exact H|]. intros Hall.
  destruct (snd (parseSamsungHealthZip zip)) as [|w ws] eqn:E; [reflexivity|].
  destruct (H w (or_introl eq_refl)) as (entry & Hin & _ & Hns).
  elim Hns. now apply Hall.
Qed.

Lemma warnings_name_unsound_members_witness :
  let zip :=
    [mkEntry ex_path (Some (JS.JArr [reading (JS.JNum 85) 1700000300000;
                                     JS.JObj [("score", JS.JNum 3)]]))] in
  (forall entry, In (entry, stress) (firstn MAX_FILES_TO_PROCESS (filesToProcess zip)) ->
     sound_member entry) /\
  snd (parseSamsungHealthZip zip) = [].
Proof.
  intros zip.
  assert (H : forall entry,
             In (entry, stress) (firstn MAX_FILES_TO_PROCESS (filesToProcess zip)) ->
             sound_member entry).
  { intros entry Hin. vm_compute in Hin. destruct Hin as [[= <-]|[]].
    eexists. split; [reflexivity|]. repeat constructor; discriminate. }
  split; [exact H|]. exact (proj2 (warnings_name_unsound_members zip) H).
Defined.
End ExtractorOrder.

(* ================================================================== *)
(** * Further properties of the travel day and of the payload          *)
(* ================================================================== *)

Section TravelMore.
Import Types Vocabulary.
Variable tz : Z.

Lemma day_floor (x : Z) :
  Date.Day x * Date.msPerDay <= x < Date.Day x * Date.msPerDay + Date.msPerDay.
Proof.
  unfold Date.Day, Date.msPerDay.
  pose proof (Z.div_mod x 86400000 ltac:(lia)).
  pose proof (Z.mod_pos_bound x 86400000 ltac:(lia)). lia.
Qed.

(** X7: the travel day covers every event: for a non-empty event list,
    [travelDayStart <= timestamp <= travelDayEnd] for each event, and the
    window is a whole number of days long, at least one. *)
Theorem travel_day_covers_events (events : list FlightEvent.t) :
  events <> [] ->
  exists dayStart dayEnd days,
    App.travelDay tz events = (JS.Num dayStart, JS.Num dayEnd) /\
    (forall e, In e events -> dayStart <= FlightEvent.timestamp e <= dayEnd) /\
    1 <= days /\
    dayEnd - dayStart + 1 = days * Date.msPerDay.
Proof.
  intros Hne.
  assert (Hne' : map FlightEvent.timestamp events <> [])
    by (destruct events; [congruence | discriminate]).
  destruct (Math_min_spec _ Hne') as (lo & Hlo & Hlo_in & Hlo_le).
  destruct (Math_max_spec _ Hne') as (hi & Hhi & Hhi_in & Hhi_le).
  pose proof (day_floor (Date.LocalTime tz lo)) as Flo.
  pose proof (day_floor (Date.LocalTime tz hi)) as Fhi.
  assert (Hlohi : lo <= hi) by (apply Hhi_le, Hlo_in).
  assert (Hdays : Date.Day (Date.LocalTime tz lo) <= Date.Day (Date.LocalTime tz hi)).
  { unfold Date.Day, Date.LocalTime, Date.msPerDay.
    apply Z.div_le_mono; lia. }
  exists (Date.UTC tz (Date.MakeDate (Date.Day (Date.LocalTime tz lo)) (Date.MakeTime 0 0 0 0))),
         (Date.UTC tz (Date.MakeDate (Date.Day (Date.LocalTime tz hi))
                         (Date.MakeTime 23 59 59 999))),
         (Date.Day (Date.LocalTime tz hi) - Date.Day (Date.LocalTime tz lo) + 1).
  split. { unfold App.travelDay. rewrite Hlo, Hhi. reflexivity. }
  unfold Date.UTC, Date.MakeDate, Date.MakeTime, Date.LocalTime,
    Date.msPerHour, Date.msPerMinute, Date.msPerSecond in *.
  unfold Date.msPerDay in *.
  split.
  - intros e He.
    pose proof (Hlo_le _ (in_map FlightEvent.timestamp _ _ He)).
    pose proof (Hhi_le _ (in_map FlightEvent.timestamp _ _ He)). lia.
  - split; lia.
Qed.

End TravelMore.

Lemma travel_day_covers_events_witness :
  let events :=
    [Types.FlightEvent.mk "Takeoff (Leg 1)" 1704148200000 "UA1";
     Types.FlightEvent.mk "Landing (Leg 1)" 1704154500000 "UA1"] in
  events <> [] /\
  exists dayStart dayEnd days,
    App.travelDay 3600000 events = (JS.Num dayStart, JS.Num dayEnd) /\
    (forall e, In e events -> dayStart <= Types.FlightEvent.timestamp e <= dayEnd) /\
    1 <= days /\
    dayEnd - dayStart + 1 = days * Date.msPerDay.
Proof.
  intros events.
  assert (H : events <> []) by discriminate.
  split; [exact H | exact (travel_day_covers_events 3600000 events H)].
Defined.

Section PayloadMore.
Import Types Vocabulary.
Variable tz : Z.

Lemma filter_none {A : Type} (f : A -> bool) (l : list A) :
  (forall x, In x l -> f x = false) -> filter f l = [].
Proof.
  induction l as [|x l IH]; intros H; simpl; [reflexivity|].
  rewrite (H x (or_introl eq_refl)). apply IH. intros y Hy. apply H. now right.
Qed.

(** X8: with no flight event the payload is empty, whatever the samples:
    [Math.min()] and [Math.max()] answer the infinities, both dates are
    invalid, and no timestamp compares with NaN. *)
Theorem payload_empty_without_events (healthData : list (HealthDataPoint.t Z)) :
  App.travelDay tz [] = (JS.NaN, JS.NaN) /\
  App.highStressPeriods tz healthData [] = [].
Proof.
  split; [reflexivity|]. unfold App.highStressPeriods. simpl.
  rewrite (filter_none _ healthData); [reflexivity|]. intros; reflexivity.
Qed.

Lemma sorted_map {A B : Type} (R : A -> A -> Prop) (S : B -> B -> Prop)
    (f : A -> B) (l : list A) :
  (forall a b, R a b -> S (f a) (f b)) ->
  StronglySorted R l -> StronglySorted S (map f l).
Proof.
  intros Hf. induction 1 as [|a l Hs IH Hall]; simpl; constructor; [exact IH|].
  rewrite Forall_forall in *. intros b Hb. apply in_map_iff in Hb.
  destruct Hb as (x & <- & Hx). auto.
Qed.

(** X9: whatever the events, the payload never holds more pairs than there
    are samples, every pair is the timestamp and value of a sample, and
    samples in chronological order give a payload in chronological
    order. *)
Theorem payload_keeps_order (healthData : list (HealthDataPoint.t Z))
    (events : list FlightEvent.t) :
  (List.length (App.highStressPeriods tz healthData events) <= List.length healthData)%nat /\
  (forall p, In p (App.highStressPeriods tz healthData events) ->
     exists d, In d healthData /\
       App.timestamp p = HealthDataPoint.timestamp d /\
       App.value p = HealthDataPoint.value d) /\
  (chronological healthData ->
   StronglySorted (fun a b => App.timestamp a <= App.timestamp b)
     (App.highStressPeriods tz healthData events)).
Proof.
  unfold App.highStressPeriods. destruct (App.travelDay tz events) as [dayStart dayEnd].
  split; [|split].
  - rewrite length_map.
    etransitivity; [apply filter_length_le|apply filter_length_le].
  - intros p Hp. apply in_map_iff in Hp. destruct Hp as (d & <- & Hd).
    apply filter_In in Hd. destruct Hd as [Hd _].
    apply filter_In in Hd. destruct Hd as [Hd _].
    exists d. auto.
  - intros Hchron.
    apply (sorted_map
             (fun a b => HealthDataPoint.timestamp a <= HealthDataPoint.timestamp b)).
    + auto.
    + now repeat apply sorted_filter.
Qed.
End PayloadMore.

Lemma payload_keeps_order_witness :
  let events :=
    [Types.FlightEvent.mk "Takeoff (Leg 1)" 1704103200000 "UA1";
     Types.FlightEvent.mk "Landing (Leg 1)" 1704117600000 "UA1"] in
  let healthData :=
    [Types.HealthDataPoint.mk 1704103200000 81 Types.stress;
     Types.HealthDataPoint.mk 1704110400000 70 Types.stress;
     Types.HealthDataPoint.mk 1704117600000 95 Types.stress] in
  Vocabulary.chronological healthData /\
  StronglySorted (fun a b => App.timestamp a <= App.timestamp b)
    (App.highStressPeriods 0 healthData events) /\
  App.highStressPeriods 0 healthData events =
    [App.mkPeriod 1704103200000 81; App.mkPeriod 1704117600000 95].
Proof.
  intros events healthData.
  assert (H : Vocabulary.chronological healthData)
    by (unfold Vocabulary.chronological, healthData; repeat constructor; simpl; lia).
  split; [exact H|].
  split; [exact (proj2 (proj2 (payload_keeps_order 0 healthData events)) H)|].
  reflexivity.
Defined.

(* ================================================================== *)
(** * The application's states                                         *)
(* ================================================================== *)

Section AppStates.
Import Types Vocabulary App.

Ltac run_setters :=
  cbn [appState healthData flightData analysis isLoading isAnalysisLoading
       loadingMessage error setAppState setHealthData setFlightData setAnalysis
       setIsLoading setIsAnalysisLoading setLoadingMessage setError messageOr] in *.

(** X10: a watch upload moves on to the flight upload exactly when the
    archive could be opened and at least one sample was extracted; the
    samples are then the extractor's output and the error is cleared.
    Otherwise the application stays on the watch upload with an error
    set and its samples untouched; an archive without any qualifying
    member is answered with the no-data message.  Loading is over in
    either case, and flight data and analysis are never touched. *)
Theorem watch_upload_outcome (file : Rejection + list SamsungHealthService.ZipEntry)
    (m : Model) :
  let m' := handleWatchDataUpload file m in
  isLoading m' = false /\ flightData m' = flightData m /\ analysis m' = analysis m /\
  (appState m' = AWAITING_FLIGHT_DATA <->
   exists zip, file = inr zip /\
               fst (SamsungHealthService.parseSamsungHealthZip zip) <> []) /\
  (forall zip, file = inr zip ->
     fst (SamsungHealthService.parseSamsungHealthZip zip) <> [] ->
     healthData m' = fst (SamsungHealthService.parseSamsungHealthZip zip) /\
     error m' = None) /\
  (appState m' <> AWAITING_FLIGHT_DATA ->
   appState m' = AWAITING_WATCH_DATA /\ healthData m' = healthData m /\
   error m' <> None) /\
  (forall zip, file = inr zip -> (forall e, In e zip -> qualifies e = false) ->
     appState m' = AWAITING_WATCH_DATA /\ error m' = Some noDataMessage).
Proof.
  assert (Hnone : forall zip, (forall e, In e zip -> qualifies e = false) ->
                    SamsungHealthService.filesToProcess zip = []).
  { induction zip as [|e zip IH]; intros H; [reflexivity|].
    change (e :: zip) with ([e] ++ zip).
    rewrite filesToProcess_app, (filesToProcess_unqualified e), IH; auto.
    - intros x Hx. apply H. now right.
    - apply H. now left. }
  unfold handleWatchDataUpload. destruct file as [e|zip]; cbv zeta.
  - run_setters.
    split; [reflexivity|]. split; [reflexivity|]. split; [reflexivity|].
    split; [split; [discriminate | intros (z & [=] & _)]|].
    split; [intros z [=]|].
    split; [intros _; repeat split; discriminate | intros z [=]].
  - destruct (fst (SamsungHealthService.parseSamsungHealthZip zip)) as [|s data] eqn:E;
      run_setters.
    + split; [reflexivity|]. split; [reflexivity|]. split; [reflexivity|].
      split; [split; [discriminate | intros (z & [= <-] & Hz); congruence]|].
      split; [intros z [= <-]; congruence|].
      split; [intros _; repeat split; discriminate|].
      intros z _ _. split; reflexivity.
    + split; [reflexivity|]. split; [reflexivity|]. split; [reflexivity|].
      split.
      { split; [intros _|reflexivity].
        exists zip. split; [reflexivity | rewrite E; discriminate]. }
      split; [intros z [= <-] _; rewrite E; split; reflexivity|].
      split; [intros H; congruence|].
      intros z [= <-] Hq. exfalso.
      unfold SamsungHealthService.parseSamsungHealthZip in E.
      rewrite (Hnone zip Hq) in E. discriminate.
Qed.

(** An export that holds heart-rate files only. *)
Lemma watch_upload_outcome_witness :
  let zip := [SamsungHealthService.mkEntry
                "com.samsung.shealth.tracker.heart_rate/h.binning_data.json"
                (Some (JS.JArr [reading (JS.JNum 85) 1700000000000]))] in
  (forall e, In e zip -> qualifies e = false) /\
  appState (handleWatchDataUpload (inr zip) initialModel) = AWAITING_WATCH_DATA /\
  error (handleWatchDataUpload (inr zip) initialModel) = Some noDataMessage.
Proof.
  intros zip.
  assert (H : forall e, In e zip -> qualifies e = false)
    by (intros e [<-|[]]; reflexivity).
  split; [exact H|].
  exact (proj2 (proj2 (proj2 (proj2 (proj2 (proj2
           (watch_upload_outcome (inr zip) initialModel)))))) zip eq_refl H).
Defined.
Lemma shouldGenerate_true (m : Model) :
  shouldGenerate m = true <->
  appState m = DISPLAYING_RESULTS /\ flightData m <> None /\
  analysis m = "" /\ isAnalysisLoading m = false.
Proof.
  unfold shouldGenerate. rewrite !andb_true_iff, String.eqb_eq, negb_true_iff.
  destruct (appState m), (flightData m); split; intros H;
    repeat match goal with H : _ /\ _ |- _ => destruct H end;
    repeat split; congruence.
Qed.

(** X11: the test of the effect that generates the analysis.  From a
    state in which it holds: while the generation is pending the test is
    false; once an insight that is not the empty string is stored it is
    false; but once the generation has failed (the error being
    reported), or has answered the empty string, the test holds again as
    it did before the attempt, and nothing counts the attempts. *)
Theorem analysis_trigger (m : Model) :
  shouldGenerate m = true ->
  shouldGenerate (beginAnalysis m) = false /\
  (forall insight, insight <> "" ->
     shouldGenerate (finishAnalysis (inr insight) (beginAnalysis m)) = false /\
     analysis (finishAnalysis (inr insight) (beginAnalysis m)) = insight) /\
  (forall e,
     shouldGenerate (finishAnalysis (inl e) (beginAnalysis m)) = true /\
     error (finishAnalysis (inl e) (beginAnalysis m)) =
       Some (messageOr e "Failed to generate AI analysis.")) /\
  shouldGenerate (finishAnalysis (inr "") (beginAnalysis m)) = true.
Proof.
  intros H. apply shouldGenerate_true in H. destruct H as (Hs & Hf & Ha & Hl).
  unfold beginAnalysis, finishAnalysis, shouldGenerate.
  destruct (flightData m) as [data|] eqn:Ef; [|congruence].
  run_setters. rewrite Hs, Ef, Ha. simpl.
  split; [reflexivity|]. split; [|split; [intros e; split; reflexivity | reflexivity]].
  intros insight Hi. split; [|reflexivity].
  apply String.eqb_neq in Hi. rewrite Hi. reflexivity.
Qed.

Lemma analysis_trigger_witness :
  let m := handleFlightDataUpload
             (inr (FlightData.mk "SFO-ORD" [FlightEvent.mk "Takeoff" 1704103200000 "UA1"]))
             (handleWatchDataUpload
                (inr [SamsungHealthService.mkEntry ex_path
                        (Some (JS.JArr [reading (JS.JNum 85) 1704103200000]))])
                initialModel) in
  shouldGenerate m = true /\
  shouldGenerate (beginAnalysis m) = false /\
  shouldGenerate (finishAnalysis (inl (ErrorWith "quota")) (beginAnalysis m)) = true.
Proof.
  intros m.
  assert (H : shouldGenerate m = true) by reflexivity.
  destruct (analysis_trigger m H) as (Hb & _ & He & _).
  split; [exact H|]. split; [exact Hb | exact (proj1 (He (ErrorWith "quota")))].
Defined.

(** X12: in every state the application is in once the handlers that
    ran have settled, the upload is no longer loading and the state is
    never [PROCESSING]; the flight upload is offered only with samples at
    hand, and the results are displayed only with samples and flight data
    at hand, so [renderContent] never returns nothing. *)
Theorem reachable_states_have_their_data (m : Model) :
  reachable m ->
  isLoading m = false /\
  appState m <> PROCESSING /\
  (appState m = AWAITING_FLIGHT_DATA -> healthData m <> []) /\
  (appState m = DISPLAYING_RESULTS -> healthData m <> [] /\ flightData m <> None) /\
  renderContent m <> NoView.
Proof.
  assert (Hview : forall x, isLoading x = false -> appState x <> PROCESSING ->
            (appState x = DISPLAYING_RESULTS -> healthData x <> [] /\ flightData x <> None) ->
            renderContent x <> NoView).
  { intros x Hl Hp Hd. unfold renderContent. rewrite Hl.
    destruct (appState x); try discriminate; try congruence.
    destruct (flightData x); [discriminate|]. destruct Hd; congruence. }
  assert (Hinv : reachable m ->
    isLoading m = false /\ appState m <> PROCESSING /\
    (appState m = AWAITING_FLIGHT_DATA -> healthData m <> []) /\
    (appState m = DISPLAYING_RESULTS -> healthData m <> [] /\ flightData m <> None)).
  { induction 1 as [|m m' Hr IH Hstep].
    - repeat split; discriminate.
    - destruct IH as (Hl & Hp & Hf & Hd).
      destruct Hstep as [file m Hv|outcome m Hv|m Hg|outcome m|m Hs].
      + unfold handleWatchDataUpload. destruct file as [e|zip]; cbv zeta.
        * run_setters. repeat split; discriminate.
        * destruct (fst (SamsungHealthService.parseSamsungHealthZip zip)) eqn:E;
            run_setters; repeat split; discriminate.
      + assert (Hs : appState m = AWAITING_FLIGHT_DATA).
        { unfold renderContent in Hv. rewrite Hl in Hv.
          destruct (appState m); try discriminate; [reflexivity|].
          destruct (flightData m); discriminate. }
        unfold handleFlightDataUpload. destruct outcome as [e|data]; run_setters;
          repeat split; try discriminate; auto.
      + unfold beginAnalysis. destruct (flightData m) eqn:Ef; run_setters;
          repeat split; auto; try (apply Hd; assumption); rewrite ?Ef; try discriminate;
          apply Hd; assumption.
      + unfold finishAnalysis. destruct outcome; run_setters;
          repeat split; auto; apply Hd; assumption.
      + unfold resetApp. run_setters. repeat split; discriminate. }
  intros Hr. destruct (Hinv Hr) as (Hl & Hp & Hf & Hd).
  split; [exact Hl|]. split; [exact Hp|]. split; [exact Hf|]. split; [exact Hd|].
  now apply Hview.
Qed.

Lemma reachable_states_have_their_data_witness :
  let m := handleWatchDataUpload
             (inr [SamsungHealthService.mkEntry ex_path
                     (Some (JS.JArr [reading (JS.JNum 85) 1704103200000]))])
             initialModel in
  reachable m /\ appState m = AWAITING_FLIGHT_DATA /\ healthData m <> [] /\
  renderContent m = FlightUploadView.
Proof.
  intros m.
  assert (H : reachable m).
  { apply (reachable_step initialModel); [constructor|].
    apply step_watch. reflexivity. }
  destruct (reachable_states_have_their_data m H) as (_ & _ & Hf & _).
  split; [exact H|]. split; [reflexivity|]. split; [exact (Hf eq_refl) | reflexivity].
Defined.

(** X13: an analysis that settles after "Start New Analysis" is stored
    all the same.  Reset while a generation is pending, then the late
    insight, then a new watch archive and a new flight document: the
    results are displayed with the insight of the previous itinerary, and
    the effect does not generate one for the new itinerary. *)
Theorem late_insight_survives_reset (m : Model) (insight : string)
    (zip : list SamsungHealthService.ZipEntry) (data : FlightData.t) :
  reachable m ->
  shouldGenerate m = true ->
  insight <> "" ->
  fst (SamsungHealthService.parseSamsungHealthZip zip) <> [] ->
  let pending := beginAnalysis m in
  let cleared := resetApp pending in
  let late := finishAnalysis (inr insight) cleared in
  let final := handleFlightDataUpload (inr data) (handleWatchDataUpload (inr zip) late) in
  resetShown pending = true /\
  renderContent late = WatchUploadView /\
  reachable final /\
  renderContent final = ResultsView (FlightData.summary data) (FlightData.events data) /\
  analysis final = insight /\
  shouldGenerate final = false.
Proof.
  intros Hr Hg Hi Hzip pending cleared late final.
  pose proof Hg as Hg'. apply shouldGenerate_true in Hg'.
  destruct Hg' as (Hs & Hf & Ha & Hl).
  assert (Hpending : resetShown pending = true).
  { unfold pending, beginAnalysis, resetShown.
    destruct (flightData m); run_setters; now rewrite Hs. }
  assert (Hlate : renderContent late = WatchUploadView) by reflexivity.
  assert (Hmid : handleWatchDataUpload (inr zip) late =
                 mkModel AWAITING_FLIGHT_DATA
                   (fst (SamsungHealthService.parseSamsungHealthZip zip))
                   None insight false false
                   "Analyzing your smartwatch data... This may take a moment." None).
  { unfold handleWatchDataUpload. cbv zeta.
    destruct (fst (SamsungHealthService.parseSamsungHealthZip zip)) eqn:E;
      [congruence|]. reflexivity. }
  split; [exact Hpending|]. split; [exact Hlate|].
  split.
  { apply (reachable_step (handleWatchDataUpload (inr zip) late)).
    - apply (reachable_step late).
      + apply (reachable_step cleared); [|apply step_finish].
        apply (reachable_step pending); [|now apply step_reset].
        apply (reachable_step m); [exact Hr | now apply step_begin].
      + now apply step_watch.
    - apply step_flight. rewrite Hmid. reflexivity. }
  unfold final. rewrite Hmid. unfold handleFlightDataUpload, shouldGenerate, renderContent.
  run_setters. apply String.eqb_neq in Hi. rewrite Hi.
  repeat split; reflexivity.
Qed.

Lemma late_insight_survives_reset_witness :
  let zip := [SamsungHealthService.mkEntry ex_path
                (Some (JS.JArr [reading (JS.JNum 85) 1704103200000]))] in
  let first := FlightData.mk "SFO-ORD" [FlightEvent.mk "Takeoff" 1704103200000 "UA1"] in
  let second := FlightData.mk "ORD-JFK" [FlightEvent.mk "Takeoff" 1704203200000 "UA2"] in
  let m := handleFlightDataUpload (inr first)
             (handleWatchDataUpload (inr zip) initialModel) in
  reachable m /\ shouldGenerate m = true /\
  analysis
    (handleFlightDataUpload (inr second)
       (handleWatchDataUpload (inr zip)
          (finishAnalysis (inr "about SFO-ORD") (resetApp (beginAnalysis m))))) =
    "about SFO-ORD".
Proof.
  intros zip first second m.
  assert (Hr : reachable m).
  { apply (reachable_step (handleWatchDataUpload (inr zip) initialModel)).
    - apply (reachable_step initialModel); [constructor|]. now apply step_watch.
    - now apply step_flight. }
  split; [exact Hr|]. split; [reflexivity|].
  exact (proj1 (proj2 (proj2 (proj2 (proj2
           (late_insight_survives_reset m "about SFO-ORD" zip second Hr eq_refl
              ltac:(discriminate) ltac:(discriminate))))))).
Defined.
End AppStates.

(* ================================================================== *)
(** * The window controls, the markers and the labels                  *)
(* ================================================================== *)

Section WindowControls.
Import Types DataVisualization Vocabulary.

Lemma seeded_window_bounds (flightEvents : list FlightEvent.t) (timeRange : TimeRange) :
  flightEvents <> [] ->
  (forall e, In e flightEvents ->
     start (seedTimeRange flightEvents timeRange) + THREE_HOURS_MS
       <= FlightEvent.timestamp e
       <= end_ (seedTimeRange flightEvents timeRange) - THREE_HOURS_MS) /\
  exists lo hi,
    JS.Math_min (map FlightEvent.timestamp flightEvents) = Some lo /\
    JS.Math_max (map FlightEvent.timestamp flightEvents) = Some hi /\
    seedTimeRange flightEvents timeRange =
      mkRange (lo - THREE_HOURS_MS) (hi + THREE_HOURS_MS).
Proof.
  intros Hne.
  assert (Hne' : map FlightEvent.timestamp flightEvents <> [])
    by (destruct flightEvents; [congruence | discriminate]).
  destruct (Math_min_spec _ Hne') as (lo & Hlo & Hlo_in & Hlo_le).
  destruct (Math_max_spec _ Hne') as (hi & Hhi & Hhi_in & Hhi_le).
  assert (Hseed : seedTimeRange flightEvents timeRange =
                  mkRange (lo - THREE_HOURS_MS) (hi + THREE_HOURS_MS)).
  { unfold seedTimeRange. destruct flightEvents; [congruence|]. now rewrite Hlo, Hhi. }
  split; [|exists lo, hi; auto].
  rewrite Hseed. cbn [start end_]. intros e He.
  pose proof (Hlo_le _ (in_map FlightEvent.timestamp _ _ He)).
  pose proof (Hhi_le _ (in_map FlightEvent.timestamp _ _ He)). lia.
Qed.

(** X14: the window seeded from a non-empty event list reaches three hours
    before the earliest and three hours after the latest event, whatever
    the range was before; every event lies inside it, at least three
    hours from either bound. *)
Theorem seeded_window_contains_events (flightEvents : list FlightEvent.t)
    (timeRange : TimeRange) :
  flightEvents <> [] ->
  let seeded := seedTimeRange flightEvents timeRange in
  (forall e, In e flightEvents ->
     start seeded + THREE_HOURS_MS <= FlightEvent.timestamp e
       <= end_ seeded - THREE_HOURS_MS) /\
  (exists e, In e flightEvents /\ FlightEvent.timestamp e = start seeded + THREE_HOURS_MS) /\
  (exists e, In e flightEvents /\ FlightEvent.timestamp e = end_ seeded - THREE_HOURS_MS) /\
  2 * THREE_HOURS_MS <= end_ seeded - start seeded.
Proof.
  intros Hne.
  assert (Hne' : map FlightEvent.timestamp flightEvents <> [])
    by (destruct flightEvents; [congruence | discriminate]).
  destruct (Math_min_spec _ Hne') as (lo & Hlo & Hlo_in & Hlo_le).
  destruct (Math_max_spec _ Hne') as (hi & Hhi & Hhi_in & Hhi_le).
  unfold seedTimeRange. destruct flightEvents as [|e0 rest]; [congruence|].
  rewrite Hlo, Hhi. cbn [start end_].
  split; [|split; [|split]].
  - intros e He.
    pose proof (Hlo_le _ (in_map FlightEvent.timestamp _ _ He)).
    pose proof (Hhi_le _ (in_map FlightEvent.timestamp _ _ He)). lia.
  - apply in_map_iff in Hlo_in. destruct Hlo_in as (e & He & Hin).
    exists e. split; [exact Hin | lia].
  - apply in_map_iff in Hhi_in. destruct Hhi_in as (e & He & Hin).
    exists e. split; [exact Hin | lia].
  - pose proof (Hhi_le _ Hlo_in). lia.
Qed.

Lemma seeded_window_contains_events_witness :
  let flightEvents :=
    [FlightEvent.mk "Takeoff (Leg 1)" 1704103200000 "UA1";
     FlightEvent.mk "Landing (Leg 1)" 1704117600000 "UA1"] in
  flightEvents <> [] /\
  seedTimeRange flightEvents initialTimeRange = mkRange 1704092400000 1704128400000 /\
  forall e, In e flightEvents ->
    start (seedTimeRange flightEvents initialTimeRange) + THREE_HOURS_MS
      <= FlightEvent.timestamp e
      <= end_ (seedTimeRange flightEvents initialTimeRange) - THREE_HOURS_MS.
Proof.
  intros flightEvents.
  assert (H : flightEvents <> []) by discriminate.
  split; [exact H|]. split; [reflexivity|].
  exact (proj1 (seeded_window_contains_events flightEvents initialTimeRange H)).
Defined.

(** X16: the bounds offered to the two inputs: for samples at hand, [min]
    and [max] are timestamps of samples and every sample lies between
    them; with no sample both are 0. *)
Theorem health_range_bounds (healthData : list (HealthDataPoint.t Z)) :
  (healthData = [] -> fullHealthDataTimeRange healthData = HealthRange.mk 0 0) /\
  (healthData <> [] ->
   (forall d, In d healthData ->
      HealthRange.min (fullHealthDataTimeRange healthData)
        <= HealthDataPoint.timestamp d
        <= HealthRange.max (fullHealthDataTimeRange healthData)) /\
   (exists d, In d healthData /\
      HealthDataPoint.timestamp d = HealthRange.min (fullHealthDataTimeRange healthData)) /\
   (exists d, In d healthData /\
      HealthDataPoint.timestamp d = HealthRange.max (fullHealthDataTimeRange healthData))).
Proof.
  split; [intros ->; reflexivity|]. intros Hne.
  assert (Hne' : map HealthDataPoint.timestamp healthData <> [])
    by (destruct healthData; [congruence | discriminate]).
  destruct (Math_min_spec _ Hne') as (lo & Hlo & Hlo_in & Hlo_le).
  destruct (Math_max_spec _ Hne') as (hi & Hhi & Hhi_in & Hhi_le).
  unfold fullHealthDataTimeRange. destruct healthData as [|d0 rest]; [congruence|].
  rewrite Hlo, Hhi. cbn [HealthRange.min HealthRange.max].
  split; [|split].
  - intros d Hd. split; [apply Hlo_le | apply Hhi_le]; now apply in_map.
  - apply in_map_iff in Hlo_in. destruct Hlo_in as (d & Hd & Hin). eauto.
  - apply in_map_iff in Hhi_in. destruct Hhi_in as (d & Hd & Hin). eauto.
Qed.

Lemma health_range_bounds_witness :
  let healthData :=
    [HealthDataPoint.mk 1704110400000 90 stress;
     HealthDataPoint.mk 1704099000000 11 stress;
     HealthDataPoint.mk 1704200000000 70 stress] in
  healthData <> [] /\
  fullHealthDataTimeRange healthData = HealthRange.mk 1704099000000 1704200000000 /\
  forall d, In d healthData ->
    HealthRange.min (fullHealthDataTimeRange healthData)
      <= HealthDataPoint.timestamp d
      <= HealthRange.max (fullHealthDataTimeRange healthData).
Proof.
  intros healthData.
  assert (H : healthData <> []) by discriminate.
  split; [exact H|]. split; [reflexivity|].
  exact (proj1 (proj2 (health_range_bounds healthData) H)).
Defined.
End WindowControls.

Section TimeInputs.
Import Types DataVisualization Vocabulary.
Variable tz : Z.

(** X15: the two time inputs.  A zero bound is displayed as the empty
    text, and an empty text changes nothing.  Typing back the text that
    is displayed for a nonzero bound [t] sets that bound, and only that
    bound, to the start of the local minute of [t] (the instant the chart
    uses as the key of that minute), which is at most [t] and less than a
    minute before it; its own display is the same text. *)
Theorem time_input_round_trip (timestamp : Z) (prev : TimeRange) :
  formatTimestampForInput tz 0 = None /\
  (forall name, handleTimeChange tz name None prev = prev) /\
  (timestamp <> 0 ->
   handleTimeChange tz name_start (formatTimestampForInput tz timestamp) prev =
     mkRange (minuteKey tz timestamp) (end_ prev) /\
   handleTimeChange tz name_end (formatTimestampForInput tz timestamp) prev =
     mkRange (start prev) (minuteKey tz timestamp) /\
   minuteKey tz timestamp <= timestamp < minuteKey tz timestamp + Date.msPerMinute /\
   (minuteKey tz timestamp <> 0 ->
    formatTimestampForInput tz (minuteKey tz timestamp) =
      formatTimestampForInput tz timestamp)).
Proof.
  split; [reflexivity|]. split; [reflexivity|]. intros Hne.
  unfold formatTimestampForInput, not_.
  apply Z.eqb_neq in Hne. rewrite Hne. cbn [handleTimeChange].
  rewrite minuteKey_minute.
  unfold Date.UTC, Date.LocalTime, Date.msPerMinute.
  pose proof (Z.div_mod (timestamp + tz) 60000 ltac:(lia)) as Hdm.
  pose proof (Z.mod_pos_bound (timestamp + tz) 60000 ltac:(lia)) as Hb.
  split; [reflexivity|]. split; [reflexivity|]. split; [lia|].
  intros Hk. apply Z.eqb_neq in Hk. rewrite Hk. f_equal.
  replace ((timestamp + tz) / 60000 * 60000 - tz + tz)
    with ((timestamp + tz) / 60000 * 60000) by lia.
  apply Z.div_mul. lia.
Qed.
End TimeInputs.

Lemma time_input_round_trip_witness :
  1704110432100 <> 0 /\
  DataVisualization.handleTimeChange 3600000 DataVisualization.name_start
    (DataVisualization.formatTimestampForInput 3600000 1704110432100)
    (DataVisualization.mkRange 5 7) =
    DataVisualization.mkRange 1704110400000 7.
Proof.
  assert (H : 1704110432100 <> 0) by discriminate.
  split; [exact H|].
  exact (proj1 (proj2 (proj2 (time_input_round_trip 3600000 1704110432100
                                (DataVisualization.mkRange 5 7))) H)).
Defined.

Section Markers.
Import Types DataVisualization Vocabulary.
Variable tz : Z.

Lemma filter_all {A : Type} (f : A -> bool) (l : list A) :
  (forall x, In x l -> f x = true) -> filter f l = l.
Proof.
  induction l as [|x l IH]; intros H; simpl; [reflexivity|].
  rewrite (H x (or_introl eq_refl)). f_equal. apply IH. intros y Hy. apply H. now right.
Qed.

(** X17: the event markers.  With an empty chart no event is marked, even
    one inside the window.  With a chart that is not empty and the window
    seeded from the events (neither seeded bound being 0), every event is
    marked, in the order of the list, with the label of its own time. *)
Theorem seeded_window_marks_every_event (flightEvents : list FlightEvent.t)
    (chartData : list (ChartDataPoint.t Date.TimeLabel)) (timeRange : TimeRange) :
  (forall anyRange, eventTimestamps tz flightEvents [] anyRange = []) /\
  (flightEvents <> [] -> chartData <> [] ->
   start (seedTimeRange flightEvents timeRange) <> 0 ->
   end_ (seedTimeRange flightEvents timeRange) <> 0 ->
   eventTimestamps tz flightEvents chartData (seedTimeRange flightEvents timeRange) =
     map (fun event => (event, timeToLabel tz (FlightEvent.timestamp event))) flightEvents).
Proof.
  split; [reflexivity|]. intros Hne Hchart Hs He.
  destruct (seeded_window_bounds flightEvents timeRange Hne) as [Hin _].
  unfold eventTimestamps, not_.
  apply Z.eqb_neq in Hs, He. rewrite Hs, He.
  destruct chartData as [|c chartData']; [congruence|]. cbn [List.length Nat.eqb orb].
  f_equal. apply filter_all. intros e Hin_e.
  specialize (Hin e Hin_e). unfold THREE_HOURS_MS in Hin.
  apply andb_true_iff. split; apply Z.leb_le; lia.
Qed.
End Markers.

Lemma seeded_window_marks_every_event_witness :
  let flightEvents :=
    [Types.FlightEvent.mk "Takeoff (Leg 1)" 1704103200000 "UA1";
     Types.FlightEvent.mk "Landing (Leg 1)" 1704117600000 "UA1"] in
  let chartData := [Types.ChartDataPoint.mk (Date.mkLabel 12 0) (Some 85)] in
  flightEvents <> [] /\ chartData <> [] /\
  DataVisualization.eventTimestamps 0 flightEvents chartData
    (DataVisualization.seedTimeRange flightEvents DataVisualization.initialTimeRange) =
    [(Types.FlightEvent.mk "Takeoff (Leg 1)" 1704103200000 "UA1", Date.mkLabel 10 0);
     (Types.FlightEvent.mk "Landing (Leg 1)" 1704117600000 "UA1", Date.mkLabel 14 0)].
Proof.
  intros flightEvents chartData.
  assert (He : flightEvents <> []) by discriminate.
  assert (Hc : chartData <> []) by discriminate.
  split; [exact He|]. split; [exact Hc|].
  exact (proj2 (seeded_window_marks_every_event 0 flightEvents chartData
                  DataVisualization.initialTimeRange)
           He Hc ltac:(discriminate) ltac:(discriminate)).
Defined.

Section ChartMore.
Import Types DataVisualization Vocabulary.
Variable tz : Z.

Lemma addPoint_length (m : Map.t) (p : HealthDataPoint.t Z) :
  (List.length (addPoint tz m p) <= S (List.length m))%nat.
Proof.
  destruct (addPoint_cases tz m p) as [[_ ->]|[_ ->]].
  - rewrite <- (length_map fst), alter_keys, length_map. lia.
  - rewrite length_app. simpl. lia.
Qed.

Lemma dataMap_length (l : list (HealthDataPoint.t Z)) :
  (List.length (dataMap tz l) <= List.length l)%nat.
Proof.
  induction l as [|p l IH] using rev_ind; [simpl; lia|].
  rewrite dataMap_snoc, length_app. simpl.
  pose proof (addPoint_length (dataMap tz l) p). lia.
Qed.

Lemma chartData_length (l : list (HealthDataPoint.t Z)) :
  List.length (chartData tz l) = List.length (dataMap tz l).
Proof.
  unfold chartData, sortedData, Map.values.
  rewrite length_map, (Permutation_length (sort_perm byTime _)). apply length_map.
Qed.

(** Every sample has the bucket of its minute. *)
Lemma bucket_of_sample (l : list (HealthDataPoint.t Z)) (p : HealthDataPoint.t Z) :
  In p l ->
  exists b, In b (sortedData tz l) /\
            ChartDataPoint.time b = minuteKey tz (HealthDataPoint.timestamp p).
Proof.
  intros Hp. destruct (dataMap_invariant tz l) as (_ & Hent & Hcov).
  apply Hcov in Hp. apply in_map_iff in Hp. destruct Hp as ([k v] & Hk & Hin).
  simpl in Hk. subst k. exists v. split; [|apply (Hent _ _ Hin)].
  unfold sortedData. apply sort_In. unfold Map.values.
  apply in_map_iff. now exists (minuteKey tz (HealthDataPoint.timestamp p), v).
Qed.

(** X18: the chart never has more points than there are samples in the
    window, and it is empty exactly when no sample is in the window. *)
Theorem chart_size (timeRange : TimeRange) (healthData : list (HealthDataPoint.t Z)) :
  let filtered := filteredHealthData timeRange healthData in
  (List.length (chartData tz filtered) <= List.length filtered)%nat /\
  (List.length filtered <= List.length healthData)%nat /\
  (chartData tz filtered = [] <-> filtered = []).
Proof.
  intros filtered. split; [|split].
  - rewrite chartData_length. apply dataMap_length.
  - unfold filtered, filteredHealthData.
    destruct (not_ (start timeRange) || not_ (end_ timeRange))%bool;
      [lia | apply filter_length_le].
  - split.
    + intros Hempty. destruct filtered as [|p rest] eqn:E; [reflexivity|].
      destruct (bucket_of_sample (p :: rest) p (or_introl eq_refl)) as (b & Hb & _).
      unfold chartData in Hempty. apply map_eq_nil in Hempty.
      rewrite Hempty in Hb. contradiction.
    + intros ->. reflexivity.
Qed.

Lemma label_shift (t days : Z) :
  timeToLabel tz (t + days * Date.msPerDay) = timeToLabel tz t.
Proof.
  unfold timeToLabel, Date.toLocaleTimeString, Date.getHours, Date.getMinutes,
    Date.HourFromTime, Date.MinFromTime, Date.LocalTime,
    Date.msPerDay, Date.msPerHour, Date.msPerMinute.
  f_equal.
  - replace (t + days * 86400000 + tz) with (t + tz + (days * 24) * 3600000) by lia.
    rewrite Z.div_add by lia.
    now rewrite Z.mod_add by lia.
  - replace (t + days * 86400000 + tz) with (t + tz + (days * 1440) * 60000) by lia.
    rewrite Z.div_add by lia.
    replace (days * 1440) with ((days * 24) * 60) by lia.
    now rewrite Z.mod_add by lia.
Qed.

Lemma minuteKey_shift (t days : Z) :
  minuteKey tz (t + days * Date.msPerDay) = minuteKey tz t + days * Date.msPerDay.
Proof.
  rewrite !minuteKey_minute.
  unfold Date.UTC, Date.LocalTime, Date.msPerDay, Date.msPerMinute.
  replace (t + days * 86400000 + tz) with (t + tz + (days * 1440) * 60000) by lia.
  rewrite Z.div_add by lia. lia.
Qed.

(** X19: display labels repeat every 24 hours while buckets do not: two
    samples of the window a whole number of days apart fall into two
    different buckets that are shown under the same label. *)
Theorem labels_collide_across_days (timeRange : TimeRange)
    (healthData : list (HealthDataPoint.t Z)) (p q : HealthDataPoint.t Z) (days : Z) :
  let filtered := filteredHealthData timeRange healthData in
  In p filtered -> In q filtered -> days <> 0 ->
  HealthDataPoint.timestamp q = HealthDataPoint.timestamp p + days * Date.msPerDay ->
  exists b1 b2,
    In b1 (sortedData tz filtered) /\ In b2 (sortedData tz filtered) /\
    ChartDataPoint.time b1 = minuteKey tz (HealthDataPoint.timestamp p) /\
    ChartDataPoint.time b2 = minuteKey tz (HealthDataPoint.timestamp q) /\
    ChartDataPoint.time b1 <> ChartDataPoint.time b2 /\
    timeToLabel tz (ChartDataPoint.time b1) = timeToLabel tz (ChartDataPoint.time b2).
Proof.
  intros filtered Hp Hq Hdays Hts.
  destruct (bucket_of_sample filtered p Hp) as (b1 & Hb1 & Ht1).
  destruct (bucket_of_sample filtered q Hq) as (b2 & Hb2 & Ht2).
  exists b1, b2. rewrite Ht1, Ht2, Hts, minuteKey_shift, label_shift.
  repeat split; auto.
  unfold Date.msPerDay. lia.
Qed.
End ChartMore.

Lemma chart_size_witness :
  let healthData :=
    [Types.HealthDataPoint.mk 1704110405000 60 Types.stress;
     Types.HealthDataPoint.mk 1704110430000 85 Types.stress] in
  let timeRange := DataVisualization.mkRange 1704100000000 1704120000000 in
  DataVisualization.filteredHealthData timeRange [] = [] /\
  DataVisualization.chartData 0 (DataVisualization.filteredHealthData timeRange []) = [] /\
  (List.length (DataVisualization.chartData 0
                  (DataVisualization.filteredHealthData timeRange healthData))
   <= List.length (DataVisualization.filteredHealthData timeRange healthData))%nat.
Proof.
  intros healthData timeRange.
  assert (H : DataVisualization.filteredHealthData timeRange [] = []) by reflexivity.
  split; [exact H|].
  split; [exact (proj2 (proj2 (proj2 (chart_size 0 timeRange []))) H)|].
  exact (proj1 (chart_size 0 timeRange healthData)).
Defined.

Lemma labels_collide_across_days_witness :
  let p := Types.HealthDataPoint.mk 1704110400000 60 Types.stress in
  let q := Types.HealthDataPoint.mk 1704196800000 85 Types.stress in
  let timeRange := DataVisualization.mkRange 1704100000000 1704200000000 in
  In p (DataVisualization.filteredHealthData timeRange [p; q]) /\
  DataVisualization.chartData 0 (DataVisualization.filteredHealthData timeRange [p; q]) =
    [Types.ChartDataPoint.mk (Date.mkLabel 12 0) (Some 60);
     Types.ChartDataPoint.mk (Date.mkLabel 12 0) (Some 85)] /\
  exists b1 b2,
    In b1 (DataVisualization.sortedData 0
             (DataVisualization.filteredHealthData timeRange [p; q])) /\
    In b2 (DataVisualization.sortedData 0
             (DataVisualization.filteredHealthData timeRange [p; q])) /\
    Types.ChartDataPoint.time b1 =
      DataVisualization.minuteKey 0 (Types.HealthDataPoint.timestamp p) /\
    Types.ChartDataPoint.time b2 =
      DataVisualization.minuteKey 0 (Types.HealthDataPoint.timestamp q) /\
    Types.ChartDataPoint.time b1 <> Types.ChartDataPoint.time b2 /\
    DataVisualization.timeToLabel 0 (Types.ChartDataPoint.time b1) =
      DataVisualization.timeToLabel 0 (Types.ChartDataPoint.time b2).
Proof.
  intros p q timeRange.
  assert (Hp : In p (DataVisualization.filteredHealthData timeRange [p; q]))
    by (left; reflexivity).
  split; [exact Hp|]. split; [reflexivity|].
  exact (labels_collide_across_days 0 timeRange [p; q] p q 1 Hp
           ltac:(right; left; reflexivity) ltac:(discriminate) eq_refl).
Defined.

(* ================================================================== *)
(** * Further properties of the phase intervals                        *)
(* ================================================================== *)

Section IntervalsMore.
Import Types DataVisualization Vocabulary.
Variable tz : Z.

Lemma scanEvent_ordinals (st : Scan) (e : FlightEvent.t) :
  map label (filter isFlightArea (areas st)) =
    map (fun k => ("In Flight " ++ JS.show_nat k)%string) (seq 1 (flightCount st)) ->
  Forall (fun a => isFlightArea a = false -> label a = "Transit") (areas st) ->
  map label (filter isFlightArea (areas (scanEvent tz st e))) =
    map (fun k => ("In Flight " ++ JS.show_nat k)%string)
        (seq 1 (flightCount (scanEvent tz st e))) /\
  Forall (fun a => isFlightArea a = false -> label a = "Transit")
         (areas (scanEvent tz st e)).
Proof.
  intros Hord Htr. unfold scanEvent.
  destruct (JS.includes (JS.toLowerCase (FlightEvent.event e)) "takeoff");
  destruct (JS.includes (JS.toLowerCase (FlightEvent.event e)) "landing");
  destruct (JS.includes (JS.toLowerCase (FlightEvent.event e)) "transit start");
  destruct (JS.includes (JS.toLowerCase (FlightEvent.event e)) "transit end");
  destruct (currentFlight st); destruct (currentTransit st);
    cbn [andb is_null areas flightCount]; auto;
    rewrite filter_app; cbn [filter];
    (split; [|apply Forall_app; split; [exact Htr|];
              constructor; [intros; try reflexivity; discriminate | constructor]]);
    try (change (isFlightArea (mkArea ?a ?b ?c flightFill)) with true; cbv iota;
         rewrite map_app, seq_S, map_app, Hord; reflexivity);
    try (change (isFlightArea (mkArea ?a ?b ?c transitFill)) with false; cbv iota;
         rewrite app_nil_r; exact Hord).
Qed.

Lemma scanEvents_ordinals (events : list FlightEvent.t) :
  forall st,
    map label (filter isFlightArea (areas st)) =
      map (fun k => ("In Flight " ++ JS.show_nat k)%string) (seq 1 (flightCount st)) ->
    Forall (fun a => isFlightArea a = false -> label a = "Transit") (areas st) ->
    map label (filter isFlightArea (areas (scanEvents tz events st))) =
      map (fun k => ("In Flight " ++ JS.show_nat k)%string)
          (seq 1 (flightCount (scanEvents tz events st))) /\
    Forall (fun a => isFlightArea a = false -> label a = "Transit")
           (areas (scanEvents tz events st)).
Proof.
  induction events as [|e events IH]; intros st Hord Htr; [auto|].
  destruct (scanEvent_ordinals st e Hord Htr) as [Hord' Htr'].
  exact (IH _ Hord' Htr').
Qed.

(** X20: the flight intervals are numbered without gap: in the order in
    which they are emitted their labels are "In Flight 1", "In Flight 2",
    and so on up to their number, and every other interval is labelled
    "Transit". *)
Theorem flight_ordinals_consecutive (flightEvents : list FlightEvent.t) :
  map label (filter isFlightArea (derivedAreas tz flightEvents)) =
    map (fun k => ("In Flight " ++ JS.show_nat k)%string)
        (seq 1 (List.length (filter isFlightArea (derivedAreas tz flightEvents)))) /\
  (forall a, In a (derivedAreas tz flightEvents) ->
     isFlightArea a = false -> label a = "Transit").
Proof.
  unfold derivedAreas.
  destruct (scanEvents_ordinals (JS.sort byEventTime flightEvents) initialScan
              eq_refl (Forall_nil _)) as [Hord Htr].
  split; [|rewrite Forall_forall in Htr; exact Htr].
  rewrite Hord. f_equal. f_equal.
  apply (f_equal (@List.length string)) in Hord.
  rewrite !length_map, length_seq in Hord. now symmetry.
Qed.
End IntervalsMore.

Section Endpoints.
Import Types DataVisualization Vocabulary.
Variable tz : Z.
Variable flightEvents : list FlightEvent.t.

Lemma slot_rest (keyword : string) (slot : option Z) (e : FlightEvent.t)
    (rest : list FlightEvent.t) :
  slot_of_events flightEvents keyword slot (e :: rest) ->
  slot_of_events flightEvents keyword slot rest.
Proof.
  intros H t Ht. destruct (H t Ht) as (x & Hx & Hn & Hts & Hle).
  exists x. repeat split; auto. intros y Hy. apply Hle. now right.
Qed.

Lemma slot_opened (keyword : string) (e : FlightEvent.t) (rest : list FlightEvent.t) :
  In e flightEvents -> names e keyword = true ->
  (forall x, In x rest -> FlightEvent.timestamp e <= FlightEvent.timestamp x) ->
  slot_of_events flightEvents keyword (Some (FlightEvent.timestamp e)) rest.
Proof.
  intros He Hn Hle t [= <-]. exists e. auto.
Qed.

Lemma slot_empty (keyword : string) (rest : list FlightEvent.t) :
  slot_of_events flightEvents keyword None rest.
Proof. intros t [=]. Qed.

Lemma interval_closed (keyword closing : string) (start : Z) (e : FlightEvent.t)
    (rest : list FlightEvent.t) (text fill : string) :
  slot_of_events flightEvents keyword (Some start) (e :: rest) ->
  In e flightEvents -> names e closing = true ->
  (if isFlightArea (mkArea (timeToLabel tz start)
                           (timeToLabel tz (FlightEvent.timestamp e)) text fill)
   then keyword = "takeoff" /\ closing = "landing"
   else keyword = "transit start" /\ closing = "transit end") ->
  interval_of_events tz flightEvents
    (mkArea (timeToLabel tz start) (timeToLabel tz (FlightEvent.timestamp e)) text fill).
Proof.
  intros Hslot He Hn Hkind.
  destruct (Hslot start eq_refl) as (e1 & H1 & Hn1 & Hts & Hle).
  exists e1, e. cbn [x1 x2]. rewrite Hts.
  split; [exact H1|]. split; [exact He|]. split; [reflexivity|]. split; [reflexivity|].
  split; [apply Hle; now left|].
  destruct (isFlightArea _); destruct Hkind as [-> ->]; auto.
Qed.

Lemma scanEvent_endpoints (st : Scan) (e : FlightEvent.t) (rest : list FlightEvent.t) :
  In e flightEvents ->
  (forall x, In x rest -> FlightEvent.timestamp e <= FlightEvent.timestamp x) ->
  Forall (interval_of_events tz flightEvents) (areas st) ->
  slot_of_events flightEvents "takeoff" (currentFlight st) (e :: rest) ->
  slot_of_events flightEvents "transit start" (currentTransit st) (e :: rest) ->
  Forall (interval_of_events tz flightEvents) (areas (scanEvent tz st e)) /\
  slot_of_events flightEvents "takeoff" (currentFlight (scanEvent tz st e)) rest /\
  slot_of_events flightEvents "transit start" (currentTransit (scanEvent tz st e)) rest.
Proof.
  intros He Hle Ha Hf Ht.
  pose proof (slot_rest _ _ _ _ Hf) as Hf'.
  pose proof (slot_rest _ _ _ _ Ht) as Ht'.
  unfold scanEvent.
  destruct (JS.includes (JS.toLowerCase (FlightEvent.event e)) "takeoff") eqn:N1;
  destruct (JS.includes (JS.toLowerCase (FlightEvent.event e)) "landing") eqn:N2;
  destruct (JS.includes (JS.toLowerCase (FlightEvent.event e)) "transit start") eqn:N3;
  destruct (JS.includes (JS.toLowerCase (FlightEvent.event e)) "transit end") eqn:N4;
  destruct (currentFlight st) as [fs|] eqn:Ef;
  destruct (currentTransit st) as [tr|] eqn:Et;
    cbn [andb is_null areas currentFlight currentTransit];
    (split; [|split]); rewrite ?Ef, ?Et;
    try exact Ha; try exact Hf'; try exact Ht';
    try apply slot_empty;
    try (apply slot_opened; assumption);
    try (apply Forall_app; split; [exact Ha|]; constructor; [|constructor];
         first [ apply (interval_closed "takeoff" "landing" fs e rest);
                 [exact Hf | exact He | exact N2 | split; reflexivity]
               | apply (interval_closed "transit start" "transit end" tr e rest);
                 [exact Ht | exact He | exact N4 | split; reflexivity] ]).
Qed.

Lemma scanEvents_endpoints (events : list FlightEvent.t) :
  forall st,
    StronglySorted (fun a b => FlightEvent.timestamp a <= FlightEvent.timestamp b) events ->
    (forall e, In e events -> In e flightEvents) ->
    Forall (interval_of_events tz flightEvents) (areas st) ->
    slot_of_events flightEvents "takeoff" (currentFlight st) events ->
    slot_of_events flightEvents "transit start" (currentTransit st) events ->
    Forall (interval_of_events tz flightEvents) (areas (scanEvents tz events st)).
Proof.
  induction events as [|e rest IH]; intros st Hs Hin Ha Hf Ht; [exact Ha|].
  apply StronglySorted_inv in Hs. destruct Hs as [Hs Hall].
  rewrite Forall_forall in Hall.
  destruct (scanEvent_endpoints st e rest (Hin e (or_introl eq_refl)) Hall Ha Hf Ht)
    as (Ha' & Hf' & Ht').
  apply (IH (scanEvent tz st e)); auto. intros x Hx. apply Hin. now right.
Qed.

Lemma find_some {A : Type} (f : A -> bool) (l : list A) (x : A) :
  In x l -> f x = true -> find f l <> None.
Proof.
  induction l as [|a l IH]; simpl; intros Hin Hx; [contradiction|].
  destruct (f a) eqn:Ea; [discriminate|].
  destruct Hin as [->|Hin]; [congruence | now apply IH].
Qed.

(** X21: the two labels of every derived interval are those of two events
    of the list: a flight runs from an event named takeoff to an event
    named landing, a transit from a transit start to a transit end, and
    the closing event is not earlier than the opening one.  Both labels
    therefore always resolve to an event in the final filter, which never
    drops an interval for want of one. *)
Theorem interval_endpoints_are_events (area : Area) :
  In area (derivedAreas tz flightEvents) ->
  interval_of_events tz flightEvents area /\
  findByLabel tz flightEvents (x1 area) <> None /\
  findByLabel tz flightEvents (x2 area) <> None.
Proof.
  intros Harea.
  assert (Hall : Forall (interval_of_events tz flightEvents) (derivedAreas tz flightEvents)).
  { unfold derivedAreas. apply scanEvents_endpoints.
    - apply sort_sorted. intros; apply byEventTime_key.
    - intros e He. exact (proj1 (sort_In byEventTime _ e) He).
    - constructor.
    - apply slot_empty.
    - apply slot_empty. }
  rewrite Forall_forall in Hall. specialize (Hall area Harea).
  split; [exact Hall|].
  destruct Hall as (e1 & e2 & H1 & H2 & Hx1 & Hx2 & _).
  assert (Hrefl : forall l, Date.label_eqb l l = true).
  { intros [h m]. unfold Date.label_eqb. simpl. now rewrite !Z.eqb_refl. }
  split; unfold findByLabel.
  - apply (find_some _ _ e1 H1). rewrite Hx1. apply Hrefl.
  - apply (find_some _ _ e2 H2). rewrite Hx2. apply Hrefl.
Qed.
End Endpoints.

Lemma interval_endpoints_are_events_witness :
  let flightEvents :=
    [Types.FlightEvent.mk "Landing (Leg 1)" 1704117600000 "UA1";
     Types.FlightEvent.mk "Takeoff (Leg 1)" 1704103200000 "UA1"] in
  let area := DataVisualization.mkArea (Date.mkLabel 10 0) (Date.mkLabel 14 0)
                "In Flight 1" DataVisualization.flightFill in
  In area (DataVisualization.derivedAreas 0 flightEvents) /\
  Vocabulary.interval_of_events 0 flightEvents area /\
  DataVisualization.findByLabel 0 flightEvents (DataVisualization.x1 area) <> None.
Proof.
  intros flightEvents area.
  assert (H : In area (DataVisualization.derivedAreas 0 flightEvents))
    by (left; reflexivity).
  destruct (interval_endpoints_are_events 0 flightEvents area H) as (Hi & Hf & _).
  split; [exact H|]. split; [exact Hi | exact Hf].
Defined.
